(** * A shallow embedding of [UiAutomatorController]

    The development follows [UiAutomatorController/ui_automator.py]: the
    element-location cache ([find_element] and the cache store behind it) and
    the toast monitor.  Python [str] values are modelled as [string], one
    character per code point below 256; dictionaries are [gmap]s. *)

From Stdlib Require Import ZArith Ascii String List Lia Bool.
From stdpp Require Import base option list gmap strings.

Set Warnings "-register-all".

Local Open Scope Z_scope.

(** ** Python string primitives *)

Module PyStr.

(** [str.isspace], which is also the class [\s] of [re] on [str]
    patterns, for code points below 256. *)
Definition isspace (c : ascii) : bool :=
  let n := N_of_ascii c in
  ((9 <=? n) && (n <=? 13) || (28 <=? n) && (n <=? 32)
   || (n =? 133) || (n =? 160))%N.

(** The class [\d] of [re] for code points below 256. *)
Definition isdigit (c : ascii) : bool :=
  let n := N_of_ascii c in ((48 <=? n) && (n <=? 57))%N.

(** The blanks [int()] skips around a literal: the ASCII blanks and the
    two non-ASCII spaces below 256 (not the separators 28-31). *)
Definition int_blank (c : ascii) : bool :=
  let n := N_of_ascii c in
  ((9 <=? n) && (n <=? 13) || (n =? 32) || (n =? 133) || (n =? 160))%N.

Definition is_char (a : ascii) (c : ascii) : bool := Ascii.eqb a c.
Definition one_of (set : string) (c : ascii) : bool :=
  existsb (Ascii.eqb c) (list_ascii_of_string set).

Definition truthy (s : string) : bool :=
  match s with EmptyString => false | _ => true end.

(** [s.startswith(p)] *)
Fixpoint startswith (p s : string) : bool :=
  match p, s with
  | EmptyString, _ => true
  | String a p', String b s' => Ascii.eqb a b && startswith p' s'
  | String _ _, EmptyString => false
  end.

(** [s.endswith(p)] *)
Fixpoint endswith (p s : string) : bool :=
  match s with
  | EmptyString => String.eqb p ""
  | String _ s' => String.eqb p s || endswith p s'
  end.

(** [sub in s] *)
Fixpoint contains (sub s : string) : bool :=
  startswith sub s ||
  match s with
  | EmptyString => false
  | String _ s' => contains sub s'
  end.

(** [s.find(sub)] counted from the start of [s]; [None] stands for -1. *)
Fixpoint find (sub s : string) : option nat :=
  if startswith sub s then Some 0%nat
  else match s with
       | EmptyString => None
       | String _ s' => S <$> find sub s'
       end.

Fixpoint drop (n : nat) (s : string) : string :=
  match n, s with
  | S k, String _ s' => drop k s'
  | _, _ => s
  end.

Fixpoint take (n : nat) (s : string) : string :=
  match n, s with
  | S k, String c s' => String c (take k s')
  | _, _ => ""
  end.

Fixpoint lstrip (p : ascii -> bool) (s : string) : string :=
  match s with
  | String c s' => if p c then lstrip p s' else s
  | EmptyString => ""
  end.

Fixpoint rstrip (p : ascii -> bool) (s : string) : string :=
  match s with
  | EmptyString => ""
  | String c s' =>
      match rstrip p s' with
      | EmptyString => if p c then "" else String c ""
      | r => String c r
      end
  end.

(** [s.strip(chars)]; [s.strip()] is [strip isspace s]. *)
Definition strip (p : ascii -> bool) (s : string) : string :=
  rstrip p (lstrip p s).

(** One pass of [split]: the field that starts here and the fields after
    it.  [skip] counts the characters of a separator still to pass. *)
Fixpoint split_go (sep : string) (skip : nat) (s : string)
  : string * list string :=
  match s with
  | EmptyString => ("", [])
  | String c s' =>
      match skip with
      | S k => split_go sep k s'
      | O =>
          if startswith sep s
          then ("", let '(f, r) := split_go sep (String.length sep - 1) s' in f :: r)
          else let '(f, r) := split_go sep 0 s' in (String c f, r)
      end
  end.

(** [s.split(sep)] for a non-empty separator. *)
Definition split (sep s : string) : list string :=
  let '(f, r) := split_go sep 0 s in f :: r.

(** [s.split(sep, 1)]: cut at the first separator only. *)
Definition split1 (sep s : string) : list string :=
  match find sep s with
  | Some i => [take i s; drop (i + String.length sep) s]
  | None => [s]
  end.

(** [s.replace(old, "")] for a non-empty [old]. *)
Fixpoint remove_go (old : string) (skip : nat) (s : string) : string :=
  match s with
  | EmptyString => ""
  | String c s' =>
      match skip with
      | S k => remove_go old k s'
      | O => if startswith old s
             then remove_go old (String.length old - 1) s'
             else String c (remove_go old 0 s')
      end
  end.
Definition remove (old s : string) : string := remove_go old 0 s.

(** [sep.join(parts)] *)
Fixpoint join (sep : string) (parts : list string) : string :=
  match parts with
  | [] => ""
  | [p] => p
  | p :: rest => p +:+ sep +:+ join sep rest
  end.

Definition digit_value (c : ascii) : Z := Z.of_N (N_of_ascii c) - 48.

(** The digits of an [int()] literal: groups of decimal digits, single
    underscores between groups.  [after_digit] tells whether the previous
    character was a digit. *)
Fixpoint int_digits (acc : Z) (after_digit : bool) (s : string) : option Z :=
  match s with
  | EmptyString => if after_digit then Some acc else None
  | String c s' =>
      if isdigit c then int_digits (10 * acc + digit_value c) true s'
      else if is_char "_" c && after_digit then int_digits acc false s'
      else None
  end.

(** [int(s)] in base 10 for code points below 256; [None] is the
    [ValueError] of a malformed literal.  (The interpreter's limit on the
    number of digits of a literal is not modelled.) *)
Definition int (s : string) : option Z :=
  let t := strip int_blank s in
  match t with
  | String c r =>
      if is_char "-" c then Z.opp <$> int_digits 0 false r
      else if is_char "+" c then int_digits 0 false r
      else int_digits 0 false t
  | EmptyString => None
  end.

Definition digit_char (d : Z) : ascii := ascii_of_N (Z.to_N (48 + d)).

Fixpoint dec_go (fuel : nat) (n : Z) (acc : string) : string :=
  match fuel with
  | O => acc
  | S f =>
      let acc' := String (digit_char (n mod 10)) acc in
      if n <? 10 then acc' else dec_go f (n / 10) acc'
  end.

(** [str(z)] for an integer [z]. *)
Definition of_Z (z : Z) : string :=
  if z <? 0 then String "-" (dec_go (S (Z.to_nat (Z.log2 (- z)))) (- z) "")
  else dec_go (S (Z.to_nat (Z.log2 z))) z "".

End PyStr.

(** ** The fragment of [re] the controller uses

    Every pattern of the source is a sequence of quantified character
    classes with at most one capturing group.  The matcher backtracks in the
    priority order of [re]: a greedy quantifier tries the longest repetition
    first, the lazy one the shortest. *)

Module Re.

Inductive quantifier := Once | Opt | Star | Plus | LazyStar.

Inductive token :=
| Atom (cls : ascii -> bool) (q : quantifier)
| GroupOpen
| GroupClose.

Definition regex := list token.

(** A match in progress: where group 1 opened, and its text once closed. *)
Record captures := { opened : option string; group1 : option string }.
Definition no_captures := {| opened := None; group1 := None |}.

Section Quantifiers.
Context {R : Type} (cls : ascii -> bool) (k : string -> option R).

Definition once (s : string) : option R :=
  match s with
  | String c s' => if cls c then k s' else None
  | EmptyString => None
  end.

Definition opt (s : string) : option R :=
  match s with
  | String c s' =>
      if cls c then match k s' with Some r => Some r | None => k s end
      else k s
  | EmptyString => k s
  end.

Fixpoint star (s : string) : option R :=
  match s with
  | String c s' =>
      if cls c then match star s' with Some r => Some r | None => k s end
      else k s
  | EmptyString => k s
  end.

Definition plus (s : string) : option R :=
  match s with
  | String c s' => if cls c then star s' else None
  | EmptyString => None
  end.

Fixpoint lazy_star (s : string) : option R :=
  match k s with
  | Some r => Some r
  | None =>
      match s with
      | String c s' => if cls c then lazy_star s' else None
      | EmptyString => None
      end
  end.
End Quantifiers.

Definition close_group (g : captures) (s : string) : captures :=
  match opened g with
  | Some s0 =>
      {| opened := opened g;
         group1 := Some (PyStr.take (String.length s0 - String.length s) s0) |}
  | None => g
  end.

(** Match [r] at the start of [s]: the rest of the input after the first
    match in priority order, with the captures. *)
Fixpoint match_here (r : regex) (g : captures) (s : string)
  : option (string * captures) :=
  match r with
  | [] => Some (s, g)
  | Atom cls Once :: r' => once cls (match_here r' g) s
  | Atom cls Opt :: r' => opt cls (match_here r' g) s
  | Atom cls Star :: r' => star cls (match_here r' g) s
  | Atom cls Plus :: r' => plus cls (match_here r' g) s
  | Atom cls LazyStar :: r' => lazy_star cls (match_here r' g) s
  | GroupOpen :: r' => match_here r' {| opened := Some s; group1 := group1 g |} s
  | GroupClose :: r' => match_here r' (close_group g s) s
  end.

(** [re.search(r, s)]: the leftmost start position that matches. *)
Fixpoint search (r : regex) (s : string) : option (string * captures) :=
  match match_here r no_captures s with
  | Some m => Some m
  | None =>
      match s with
      | String _ s' => search r s'
      | EmptyString => None
      end
  end.

(** [re.sub(r, repl, s)] for a replacement without group references
    (the semantics of Python 3.7 and later for empty matches). *)
Fixpoint sub_go (fuel : nat) (r : regex) (repl s : string) : string :=
  match fuel with
  | O => s
  | S fuel' =>
      match s with
      | EmptyString =>
          match match_here r no_captures s with Some _ => repl | None => "" end
      | String c s' =>
          match match_here r no_captures s with
          | Some (rest, _) =>
              if (String.length rest <? String.length s)%nat
              then repl +:+ sub_go fuel' r repl rest
              else repl +:+ String c (sub_go fuel' r repl s')
          | None => String c (sub_go fuel' r repl s')
          end
      end
  end.
Definition sub (r : regex) (repl s : string) : string :=
  sub_go (S (String.length s)) r repl s.

(** A literal piece of a pattern. *)
Definition lit (s : string) : regex :=
  map (fun c => Atom (PyStr.is_char c) Once) (list_ascii_of_string s).

Definition any_but (set : string) (c : ascii) : bool :=
  negb (PyStr.one_of set c).

End Re.

(** ** Values, exceptions and the world outside the controller

    An [exn] is an instance of a class below [Exception], which is what
    every handler of the source names. *)

Inductive exn :=
| ValueError            (* also the "element not found" condition of [find_element] *)
| IndexError
| SyntaxError
| CalledProcessError    (* an [adb] command run with [check=True] exits non-zero *)
| ParseError            (* the pulled dump is not well-formed XML *)
| UnicodeDecodeError
| TimeoutExpired
| OtherException (name : string).   (* any other class below [Exception] *)

Inductive result (A : Type) :=
| Ok (a : A)
| Raise (e : exn).
Arguments Ok {A} a.
Arguments Raise {A} e.

(** Coordinates live in the cache as the tuple [find_element] computed or as
    the list [json.load] read back. *)
Inductive pyseq :=
| PyTuple (items : list Z)
| PyList (items : list Z).

Definition items (v : pyseq) : list Z :=
  match v with PyTuple l | PyList l => l end.

(** [tuple(v)] *)
Definition tuple (v : pyseq) : pyseq := PyTuple (items v).

(** [xml.etree.ElementTree.Element] *)
Inductive Element :=
| Elem (tag : string) (attrib : gmap string string) (children : list Element).

Definition tag (e : Element) : string := let 'Elem t _ _ := e in t.
Definition attrib (e : Element) : gmap string string := let 'Elem _ a _ := e in a.
Definition children (e : Element) : list Element := let 'Elem _ _ cs := e in cs.

(** A file of the cache directory.  A cache unit holds a JSON object from
    keys to arrays of integers, the only shape the controller writes.  The
    other three are content that [json.load] refuses and [ET.parse] does not
    turn into a tree: text that is not well-formed XML, and XML whose
    declaration names an encoding the parser has to ask Python for, a
    multi-byte one such as [gbk] or one Python does not know. *)
Inductive file :=
| JsonFile (doc : gmap string (list Z))
| XmlFile (root : Element)
| OtherFile
| MultiByteXml
| UnknownEncodingXml.

Inductive adb_command := DumpsysWindows | UiautomatorDump | Pull.

(** How the two commands of [_get_ui_hierarchy] end: the dump or the pull
    exits non-zero, or the pull leaves a file in [temp_ui.xml]. *)
Inductive dump_outcome :=
| DumpFails
| PullFails
| Pulled (f : file).

(** What one call meets outside the controller. *)
Record Env := {
  (** stdout of [adb shell dumpsys window windows] *)
  dumpsys_windows : string;
  (** what [adb shell uiautomator dump] and [adb pull] do *)
  ui_dump : dump_outcome;
  (** the answer of [Element.find] to a path into which a value with a
      double quote was spliced; the model leaves it open *)
  etree_quoted : list (string * string) -> Element -> result (option Element);
}.

(** The fields of [UiAutomatorController] the locator touches, the files of
    [cache_dir], and the [adb] commands run so far. *)
Record Controller := {
  device : string;
  use_cache : bool;
  disk : gmap string file;
  activity_cache : gmap string (gmap string pyseq);
  current_activity : option string;
  adb_trace : list adb_command;
}.

Definition set_disk (d : gmap string file) (c : Controller) : Controller :=
  {| device := device c; use_cache := use_cache c; disk := d;
     activity_cache := activity_cache c;
     current_activity := current_activity c; adb_trace := adb_trace c |}.
Definition set_activity_cache (m : gmap string (gmap string pyseq))
  (c : Controller) : Controller :=
  {| device := device c; use_cache := use_cache c; disk := disk c;
     activity_cache := m;
     current_activity := current_activity c; adb_trace := adb_trace c |}.
Definition set_current_activity (a : option string) (c : Controller) : Controller :=
  {| device := device c; use_cache := use_cache c; disk := disk c;
     activity_cache := activity_cache c;
     current_activity := a; adb_trace := adb_trace c |}.
Definition run_adb (cmd : adb_command) (c : Controller) : Controller :=
  {| device := device c; use_cache := use_cache c; disk := disk c;
     activity_cache := activity_cache c;
     current_activity := current_activity c;
     adb_trace := (adb_trace c ++ [cmd])%list |}.

(** A method of the controller: it may raise, and what it did to the
    controller before raising stays done. *)
Definition M (A : Type) : Type := Controller -> result A * Controller.

#[global] Instance M_ret : MRet M := fun A a c => (Ok a, c).
#[global] Instance M_bind : MBind M := fun A B f m c =>
  match m c with
  | (Ok a, c') => f a c'
  | (Raise e, c') => (Raise e, c')
  end.

Definition raise {A} (e : exn) : M A := fun c => (Raise e, c).
Definition get : M Controller := fun c => (Ok c, c).
Definition modify (f : Controller -> Controller) : M unit := fun c => (Ok tt, f c).
Definition lift {A} (r : result A) : M A := fun c => (r, c).

(** ** The screen identity resolver *)

Definition dquote : ascii := ascii_of_N 34.

(** [\s*/?\s*t\d+] *)
Definition task_id_pattern : Re.regex :=
  [Re.Atom PyStr.isspace Re.Star; Re.Atom (PyStr.is_char "/") Re.Opt;
   Re.Atom PyStr.isspace Re.Star; Re.Atom (PyStr.is_char "t") Re.Once;
   Re.Atom PyStr.isdigit Re.Plus].

(** The character class of the second substitution: backslash, slash,
    colon, star, question mark, double quote, angle brackets and bar. *)
Definition illegal_in_filename (c : ascii) : bool :=
  PyStr.one_of "\/:*?<>|" c || PyStr.is_char dquote c.

Definition illegal_pattern : Re.regex := [Re.Atom illegal_in_filename Re.Once].

Definition _sanitize_activity_name (name : string) : string :=
  let name := Re.sub task_id_pattern "" name in
  Re.sub illegal_pattern "_" name.

(** [ActivityRecord\{[^}]+\s+([^/]+/[^}]+)\}] *)
Definition pattern : Re.regex :=
  (Re.lit "ActivityRecord{" ++
   [Re.Atom (Re.any_but "}") Re.Plus; Re.Atom PyStr.isspace Re.Plus;
    Re.GroupOpen;
    Re.Atom (Re.any_but "/") Re.Plus; Re.Atom (PyStr.is_char "/") Re.Once;
    Re.Atom (Re.any_but "}") Re.Plus;
    Re.GroupClose;
    Re.Atom (PyStr.is_char "}") Re.Once])%list.

Definition newline : ascii := ascii_of_N 10.
Definition dot (c : ascii) : bool := negb (PyStr.is_char newline c).

(** [mCurrentFocus=.*?([^/]+/[^}\s]+)] *)
Definition pattern_alt : Re.regex :=
  (Re.lit "mCurrentFocus=" ++
   [Re.Atom dot Re.LazyStar;
    Re.GroupOpen;
    Re.Atom (Re.any_but "/") Re.Plus; Re.Atom (PyStr.is_char "/") Re.Once;
    Re.Atom (fun c => negb (PyStr.is_char "}" c || PyStr.isspace c)) Re.Plus;
    Re.GroupClose])%list.

Definition group (m : string * Re.captures) : string :=
  default "" (Re.group1 m.2).

(** The [for] loop of [_get_current_activity]: the first line with a marker
    that one of the two patterns matches gives the activity. *)
Fixpoint scan_lines (lines : list string) : option string :=
  match lines with
  | [] => None
  | line :: rest =>
      if PyStr.contains "ActivityRecord" line || PyStr.contains "mCurrentFocus" line
      then
        match Re.search pattern line with
        | Some m => Some (PyStr.strip PyStr.isspace (group m))
        | None =>
            match Re.search pattern_alt line with
            | Some m => Some (PyStr.strip PyStr.isspace (group m))
            | None => scan_lines rest
            end
        end
      else scan_lines rest
  end.

Definition _get_current_activity (env : Env) : M string :=
  modify (run_adb DumpsysWindows);;
  match scan_lines (PyStr.split (String newline "") (dumpsys_windows env)) with
  | Some activity =>
      let activity := _sanitize_activity_name activity in
      modify (set_current_activity (Some activity));;
      mret activity
  | None => mret ""
  end.

(** ** The element cache store *)

Definition cache_file_name (dev activity_name : string) : string :=
  dev +:+ "_" +:+ activity_name +:+ ".json".

(** Lines 96-101: the device and the activity a directory entry is named
    after, if it is named as a cache unit. *)
Definition cache_unit (name : string) : option (string * string) :=
  if PyStr.endswith ".json" name && negb (PyStr.startswith "temp_" name) then
    match PyStr.split1 "_" (PyStr.remove ".json" name) with
    | [device_id; activity_name] => Some (device_id, activity_name)
    | _ => None
    end
  else None.

(** The loop body of [_preload_activity_cache] for one directory entry. *)
Definition preload_file (dev : string) (d : gmap string file)
    (acc : gmap string (gmap string pyseq)) (name : string)
  : gmap string (gmap string pyseq) :=
  match cache_unit name with
  | Some (device_id, activity_name) =>
      if String.eqb device_id dev then
        match d !! name with
        | Some (JsonFile doc) => <[activity_name := PyList <$> doc]> acc
        | _ => acc
        end
      else acc
  | None => acc
  end.

(** [listing] is the answer of [os.listdir(cache_dir)], in the order the
    system gives it. *)
Definition _preload_activity_cache (use : bool) (dev : string)
    (d : gmap string file) (listing : list string)
  : gmap string (gmap string pyseq) :=
  if negb use then ∅ else foldl (preload_file dev d) ∅ listing.

(** The part of [__init__] that sets the locator up. *)
Definition new_controller (use : bool) (dev : string) (d : gmap string file)
    (listing : list string) : Controller :=
  {| device := dev; use_cache := use; disk := d;
     activity_cache := _preload_activity_cache use dev d listing;
     current_activity := None; adb_trace := [] |}.

Definition _save_activity_cache (activity_name : string)
    (cache_data : gmap string pyseq) : M unit :=
  c ← get;
  if negb (use_cache c) then mret tt
  else
    let activity_name := _sanitize_activity_name activity_name in
    let cache_file := cache_file_name (device c) activity_name in
    modify (set_disk (<[cache_file := JsonFile (items <$> cache_data)]> (disk c))).

(** ** The element locator *)

Record Query := {
  resource_id : option string;
  text : option string;
  class_name : option string;
}.

(** [if x:] on an optional string: [None] and [""] are both false. *)
Definition supplied (o : option string) : option string :=
  match o with
  | Some s => if PyStr.truthy s then Some s else None
  | None => None
  end.

Definition labelled (label : string) (o : option string) : list string :=
  match supplied o with
  | Some v => [label +:+ "=" +:+ v]
  | None => []
  end.

Definition _get_element_key (q : Query) : string :=
  let parts :=
    (labelled "id" (resource_id q) ++ labelled "text" (text q)
     ++ labelled "class" (class_name q))%list in
  PyStr.join "_" parts.

Definition condition (attr : string) (o : option string) : list (string * string) :=
  match supplied o with
  | Some v => [(attr, v)]
  | None => []
  end.

(** The [conditions] of [find_element], as attribute and required value. *)
Definition conditions (q : Query) : list (string * string) :=
  (condition "resource-id" (resource_id q) ++ condition "text" (text q)
   ++ condition "class" (class_name q))%list.

(** The path [find_element] hands to [Element.find]. *)
Definition xpath (q : Query) : string :=
  let conds :=
    map (fun '(a, v) => "@" +:+ a +:+ "=" +:+ String dquote v +:+ String dquote "")
        (conditions q) in
  match conds with
  | [] => ".//node"
  | _ => ".//node[" +:+ PyStr.join " and " conds +:+ "]"
  end.

(** [e.iter()]: the element and everything below it, in document order. *)
Fixpoint iter (e : Element) : list Element :=
  match e with
  | Elem _ _ cs => e :: flat_map iter cs
  end.

(** The elements [.//node] selects from [root]: the proper descendants
    with tag [node], in document order. *)
Definition descendant_nodes (root : Element) : list Element :=
  filter (fun e => tag e = "node") (flat_map iter (children root)).

Definition has_attribute (a v : string) (e : Element) : Prop :=
  attrib e !! a = Some v.
#[global] Instance has_attribute_dec a v e : Decision (has_attribute a v e).
Proof. unfold has_attribute. apply _. Defined.

(** [root.find(xpath q)] as [xml.etree.ElementPath] evaluates it.  A bare
    [.//node] and a single [[@attr="value"]] predicate select the first
    such node; a predicate joined with [and] is not in the grammar of
    ElementPath, which rejects it with [SyntaxError("invalid predicate")]. *)
Definition find (env : Env) (conds : list (string * string)) (root : Element)
  : result (option Element) :=
  if existsb (fun '(_, v) => PyStr.contains (String dquote "") v) conds
  then etree_quoted env conds root
  else
    match conds with
    | [] => Ok (head (descendant_nodes root))
    | [(a, v)] => Ok (head (filter (has_attribute a v) (descendant_nodes root)))
    | _ => Raise SyntaxError
    end.

(** What [ET.parse] raises for a file it does not turn into a tree:
    [ParseError] for text that is not well-formed XML,
    [ValueError] (multi-byte encodings are not supported), and
    [LookupError] (unknown encoding). *)
Definition refusal (f : file) : exn :=
  match f with
  | MultiByteXml => ValueError
  | UnknownEncodingXml => OtherException "LookupError"
  | _ => ParseError
  end.

Definition _get_ui_hierarchy (env : Env) : M Element :=
  modify (set_current_activity None);;
  modify (run_adb UiautomatorDump);;
  match ui_dump env with
  | DumpFails => raise CalledProcessError
  | PullFails => modify (run_adb Pull);; raise CalledProcessError
  | Pulled f =>
      modify (run_adb Pull);;
      c ← get;
      modify (set_disk (<["temp_ui.xml" := f]> (disk c)));;
      match f with
      | XmlFile root => mret root
      | _ => raise (refusal f)
      end
  end.

(** [x, y = map(int, s.split(","))] *)
Definition int_pair (s : string) : result (Z * Z) :=
  match PyStr.split "," s with
  | [a; b] =>
      match PyStr.int a, PyStr.int b with
      | Some x, Some y => Ok (x, y)
      | _, _ => Raise ValueError
      end
  | _ => Raise ValueError
  end.

(** Lines 183-190: from the [bounds] attribute to the centre. *)
Definition center_of (bounds : string) : result pyseq :=
  let coords := PyStr.split "][" (PyStr.strip (PyStr.one_of "[]") bounds) in
  match coords with
  | [] => Raise IndexError
  | c0 :: rest =>
      match int_pair c0 with
      | Raise e => Raise e
      | Ok (x1, y1) =>
          match rest with
          | [] => Raise IndexError
          | c1 :: _ =>
              match int_pair c1 with
              | Raise e => Raise e
              | Ok (x2, y2) => Ok (PyTuple [(x1 + x2) / 2; (y1 + y2) / 2])
              end
          end
      end
  end.

(** [self.activity_cache[activity]] once line 152 has made sure it exists. *)
Definition screen_cache (c : Controller) (activity : string) : gmap string pyseq :=
  default ∅ (activity_cache c !! activity).

(** Lines 144-160: the screen, the key, and the cached value if there is
    one.  With the cache off the screen stays unset, which line 193 reads
    as false. *)
Definition lookup_cache (q : Query) (env : Env)
  : M (string * string * option pyseq) :=
  c ← get;
  if use_cache c then
    activity ← _get_current_activity env;
    c ← get;
    (if PyStr.truthy activity && bool_decide (activity_cache c !! activity = None)
     then modify (set_activity_cache (<[activity := ∅]> (activity_cache c)))
     else mret tt);;
    let element_key := _get_element_key q in
    c ← get;
    if PyStr.truthy activity
    then mret (activity, element_key, screen_cache c activity !! element_key)
    else mret (activity, element_key, None)
  else mret ("", "", None).

Definition find_element (q : Query) (env : Env) : M pyseq :=
  '(activity, element_key, cached) ← lookup_cache q env;
  match cached with
  | Some v => mret (tuple v)
  | None =>
      root ← _get_ui_hierarchy env;
      found ← lift (find env (conditions q) root);
      match found with
      | None => raise ValueError
      | Some element =>
          let bounds := default "[]" (attrib element !! "bounds") in
          center ← lift (center_of bounds);
          c ← get;
          (if use_cache c && PyStr.truthy activity then
             let cache := <[element_key := center]> (screen_cache c activity) in
             modify (set_activity_cache (<[activity := cache]> (activity_cache c)));;
             _save_activity_cache activity cache
           else mret tt);;
          mret center
      end
  end.

Definition check_element_exists (q : Query) (env : Env) : M bool :=
  fun c =>
    match find_element q env c with
    | (Ok _, c') => (Ok true, c')
    | (Raise ValueError, c') => (Ok false, c')
    | (Raise e, c') => (Raise e, c')
    end.

(** A call with keyword arguments, in the order the caller wrote them.
    Python refuses a keyword given twice; parameters left out are [None]. *)
Inductive keyword := kw_resource_id | kw_text | kw_class_name.

#[global] Instance keyword_eq_dec : EqDecision keyword.
Proof. solve_decision. Defined.

Fixpoint keyword_value (kw : keyword) (args : list (keyword * string))
  : option string :=
  match args with
  | [] => None
  | (k, v) :: rest => if decide (k = kw) then Some v else keyword_value kw rest
  end.

Definition bind_keywords (args : list (keyword * string)) : option Query :=
  if bool_decide (NoDup (args.*1)) then
    Some {| resource_id := keyword_value kw_resource_id args;
            text := keyword_value kw_text args;
            class_name := keyword_value kw_class_name args |}
  else None.

(** ** The toast monitor *)

Module Toast.

(** The lines the monitor prints. *)
Inductive log_line :=
| AlreadyRunning          (* start_toast_monitor, line 338 *)
| MonitorStarted          (* line 344 *)
| WaitingForThread        (* line 350 *)
| MonitorStopped          (* line 357 *)
| ThreadStarted           (* line 373 *)
| StreamClosed            (* line 381 *)
| ToastDetected (toast_text : string)   (* line 399 *)
| ListenerError (e : exn)               (* line 405 *)
| DecodeError (e : exn)                 (* line 409 *)
| ThreadStopped                         (* line 418 *)
| ThreadException (e : exn).            (* line 421 *)

(** What [process.stdout.readline()] does in one pass of the loop. *)
Inductive read :=
| Line (line : string)     (* [""] is the empty read of a closed stream *)
| ReadRaises (e : exn).

(** Where the listener thread is. *)
Inductive thread_state :=
| NoThread
| Started        (* alive, its body not yet entered *)
| InReadline     (* alive, blocked in [readline] *)
| Finished.

Definition is_alive (t : thread_state) : bool :=
  match t with Started | InReadline => true | NoThread | Finished => false end.

Section Monitor.
(** [W] is whatever the registered listeners act on. *)
Context {W : Type}.

(** A registered callable: called with the toast text, it changes its
    world and returns ([None]) or raises. *)
Definition listener := string -> W -> option exn * W.

Record Monitor := {
  toast_queue : list string;           (* [queue.Queue], next to get first *)
  toast_listeners : list listener;
  is_monitoring_toast : bool;
  toast_monitor_thread : thread_state; (* the thread created last *)
  threads_started : nat;               (* [Thread.start()] calls so far *)
  calls : list (nat * string);         (* listener calls so far: index and argument *)
  log : list log_line;
  world : W;
}.

Definition set_is_monitoring_toast (b : bool) (m : Monitor) : Monitor :=
  {| toast_queue := toast_queue m; toast_listeners := toast_listeners m;
     is_monitoring_toast := b;
     toast_monitor_thread := toast_monitor_thread m;
     threads_started := threads_started m; calls := calls m;
     log := log m; world := world m |}.
Definition set_thread (t : thread_state) (m : Monitor) : Monitor :=
  {| toast_queue := toast_queue m; toast_listeners := toast_listeners m;
     is_monitoring_toast := is_monitoring_toast m;
     toast_monitor_thread := t;
     threads_started := threads_started m; calls := calls m;
     log := log m; world := world m |}.
Definition print (l : log_line) (m : Monitor) : Monitor :=
  {| toast_queue := toast_queue m; toast_listeners := toast_listeners m;
     is_monitoring_toast := is_monitoring_toast m;
     toast_monitor_thread := toast_monitor_thread m;
     threads_started := threads_started m; calls := calls m;
     log := (log m ++ [l])%list; world := world m |}.
Definition put (toast_text : string) (m : Monitor) : Monitor :=
  {| toast_queue := (toast_queue m ++ [toast_text])%list;
     toast_listeners := toast_listeners m;
     is_monitoring_toast := is_monitoring_toast m;
     toast_monitor_thread := toast_monitor_thread m;
     threads_started := threads_started m; calls := calls m;
     log := log m; world := world m |}.

(** [listener(toast_text)] inside its [try], lines 402-405. *)
Definition call_listener (i : nat) (f : listener) (toast_text : string)
    (m : Monitor) : Monitor :=
  let '(r, w) := f toast_text (world m) in
  let m :=
    {| toast_queue := toast_queue m; toast_listeners := toast_listeners m;
       is_monitoring_toast := is_monitoring_toast m;
       toast_monitor_thread := toast_monitor_thread m;
       threads_started := threads_started m;
       calls := (calls m ++ [(i, toast_text)])%list;
       log := log m; world := w |} in
  match r with
  | None => m
  | Some e => print (ListenerError e) m
  end.

(** The [for] loop of line 401 from the listener of index [i] on. *)
Fixpoint notify (i : nat) (ls : list listener) (toast_text : string)
    (m : Monitor) : Monitor :=
  match ls with
  | [] => m
  | f :: rest => notify (S i) rest toast_text (call_listener i f toast_text m)
  end.

Definition _parse_toast_text (line : string) : option string :=
  match PyStr.find "Text: [" line with
  | None => None
  | Some text_start =>
      let tail := PyStr.drop (text_start + String.length "Text: [") line in
      match PyStr.find "];" tail with
      | None => None
      | Some len =>
          let toast_text := PyStr.strip PyStr.isspace (PyStr.take len tail) in
          if PyStr.truthy toast_text then Some toast_text else None
      end
  end.

(** Lines 396-398: the toast a line of the event stream carries. *)
Definition toast_of_line (line : string) : option string :=
  if PyStr.contains "TYPE_NOTIFICATION_STATE_CHANGED" line
     && PyStr.contains "ClassName: android.widget.Toast" line
  then _parse_toast_text line
  else None.

(** One pass of the body of the [while] loop, lines 376-413, given what
    [readline] did: the monitor after it, and the exception that leaves
    the inner [try], if one does. *)
Definition iteration (r : read) (m : Monitor) : Monitor * option exn :=
  match r with
  | Line line =>
      if negb (PyStr.truthy line) then (print StreamClosed m, None)
      else
        match toast_of_line line with
        | Some toast_text =>
            let m := print (ToastDetected toast_text) m in
            let m := put toast_text m in
            (notify 0 (toast_listeners m) toast_text m, None)
        | None => (m, None)
        end
  | ReadRaises UnicodeDecodeError => (print (DecodeError UnicodeDecodeError) m, None)
  | ReadRaises TimeoutExpired => (m, None)
  | ReadRaises e => (m, Some e)
  end.

(** Lines 420-422: the handler around the whole thread body. *)
Definition thread_fault (e : exn) (m : Monitor) : Monitor :=
  set_thread Finished (set_is_monitoring_toast false (print (ThreadException e) m)).

(** The thread at the head of its loop with [reads] still to come: it
    leaves when the flag is down, and blocks in [readline] when the
    reads are used up. *)
Fixpoint loop_head (reads : list read) (m : Monitor) : Monitor :=
  if is_monitoring_toast m then
    match reads with
    | [] => set_thread InReadline m
    | r :: rest =>
        match iteration r m with
        | (m', None) => loop_head rest m'
        | (m', Some e) => thread_fault e m'
        end
    end
  else set_thread Finished (print ThreadStopped m).

(** The thread blocked in [readline] when [reads] arrive. *)
Definition resume (reads : list read) (m : Monitor) : Monitor :=
  match reads with
  | [] => m
  | r :: rest =>
      match iteration r m with
      | (m', None) => loop_head rest m'
      | (m', Some e) => thread_fault e m'
      end
  end.

(** The thread body from its start, up to the point where it blocks or
    ends.  (The terminated process is taken to exit within the two
    seconds line 417 waits for it.) *)
Definition _monitor_toast (reads : list read) (m : Monitor) : Monitor :=
  loop_head reads (print ThreadStarted m).

(** A live thread going on with [reads]. *)
Definition run_thread (reads : list read) (m : Monitor) : Monitor :=
  match toast_monitor_thread m with
  | Started => _monitor_toast reads m
  | InReadline => resume reads m
  | NoThread | Finished => m
  end.

Definition start_toast_monitor (m : Monitor) : Monitor :=
  if is_monitoring_toast m then print AlreadyRunning m
  else
    let m := set_is_monitoring_toast true m in
    let m :=
      {| toast_queue := toast_queue m; toast_listeners := toast_listeners m;
         is_monitoring_toast := is_monitoring_toast m;
         toast_monitor_thread := Started;
         threads_started := S (threads_started m); calls := calls m;
         log := log m; world := world m |} in
    print MonitorStarted m.

(** [stop_toast_monitor].  [nudge] tells whether the two volume key
    events go through; [unblocking] is the read that ends the wait of a
    blocked thread, after which [join] returns. *)
Definition stop_toast_monitor (nudge : bool) (unblocking : read)
    (m : Monitor) : result unit * Monitor :=
  let m := set_is_monitoring_toast false m in
  if is_alive (toast_monitor_thread m) then
    let m := print WaitingForThread m in
    if nudge then
      let m := run_thread [unblocking] m in
      (Ok tt, print MonitorStopped m)
    else (Raise CalledProcessError, m)
  else (Ok tt, print MonitorStopped m).

Definition add_toast_listener (f : listener) (m : Monitor) : Monitor :=
  {| toast_queue := toast_queue m;
     toast_listeners := (toast_listeners m ++ [f])%list;
     is_monitoring_toast := is_monitoring_toast m;
     toast_monitor_thread := toast_monitor_thread m;
     threads_started := threads_started m; calls := calls m;
     log := log m; world := world m |}.

End Monitor.
Arguments Monitor : clear implicits.
Arguments listener : clear implicits.

(** *** Waiting on the queue

    The waiting thread sees the queue through time: [arrivals] are the
    messages the listener puts, each with the time of its [put], in the
    order of the queue; [now] is the clock of [time.time()] in ticks. *)
Record Waiter := {
  now : Z;
  arrivals : list (Z * string);
  pops : list (Z * option string);   (* [get_toast] calls so far: timeout, answer *)
}.

(** [self.toast_queue.get(timeout=timeout)] with [queue.Empty] as [None]:
    a message already there is taken at once; one that arrives before
    the wait runs out is taken when it arrives. *)
Definition queue_get (timeout : Z) (w : Waiter) : option string * Waiter :=
  match arrivals w with
  | (t, msg) :: rest =>
      if (t <=? now w) || (t <? now w + timeout)
      then (Some msg, {| now := Z.max (now w) t; arrivals := rest; pops := pops w |})
      else (None, {| now := now w + timeout; arrivals := arrivals w; pops := pops w |})
  | [] => (None, {| now := now w + timeout; arrivals := []; pops := pops w |})
  end.

(** [get_toast]; a negative timeout makes [Queue.get] raise [ValueError],
    which [get_toast] does not catch. *)
Definition get_toast (timeout : Z) (w : Waiter) : result (option string) * Waiter :=
  if timeout <? 0 then (Raise ValueError, w)
  else
    let '(r, w) := queue_get timeout w in
    (Ok r, {| now := now w; arrivals := arrivals w;
              pops := (pops w ++ [(timeout, r)])%list |}).

(** [toast and expected_text in toast] *)
Definition matches (expected_text : string) (toast : option string) : bool :=
  match toast with
  | Some t => PyStr.truthy t && PyStr.contains expected_text t
  | None => false
  end.

(** The [while] loop of [wait_for_toast]; [None] when the fuel runs out. *)
Fixpoint wait_loop (fuel : nat) (expected_text : string) (timeout start_time : Z)
    (w : Waiter) : option (result bool * Waiter) :=
  match fuel with
  | O => None
  | S fuel' =>
      if now w - start_time <? timeout then
        match get_toast timeout w with
        | (Raise e, w') => Some (Raise e, w')
        | (Ok toast, w') =>
            if matches expected_text toast then Some (Ok true, w')
            else wait_loop fuel' expected_text timeout start_time w'
        end
      else Some (Ok false, w)
  end.

Definition wait_for_toast (expected_text : string) (timeout : Z) (w : Waiter)
  : option (result bool * Waiter) :=
  wait_loop (2 + length (arrivals w)) expected_text timeout (now w) w.

End Toast.

(** ** Auxiliary notions for the statements and proofs *)

Definition starts_digit (s : string) : bool :=
  match s with String d _ => PyStr.isdigit d | EmptyString => false end.

(** No [t] of [s] is followed by a digit, so [task_id_pattern] finds
    nothing in [s]. *)
Fixpoint task_free (s : string) : bool :=
  match s with
  | String c s' => negb (PyStr.is_char "t" c && starts_digit s') && task_free s'
  | EmptyString => true
  end.

Fixpoint map_string (f : ascii -> ascii) (s : string) : string :=
  match s with
  | String c s' => String (f c) (map_string f s')
  | EmptyString => ""
  end.

Definition legalise (c : ascii) : ascii :=
  if illegal_in_filename c then "_"%char else c.

Fixpoint all_chars (p : ascii -> bool) (s : string) : bool :=
  match s with
  | String c s' => p c && all_chars p s'
  | EmptyString => true
  end.

(** The characters of a decimal literal as [str] prints it. *)
Definition numeral_char (c : ascii) : bool :=
  PyStr.isdigit c || PyStr.is_char "-" c.

(** The screen [_get_current_activity] reports in [env]; [""] when no line
    matches. *)
Definition screen_of (env : Env) : string :=
  match scan_lines (PyStr.split (String newline "") (dumpsys_windows env)) with
  | Some activity => _sanitize_activity_name activity
  | None => ""
  end.

(** The value line 158 finds in the cache, if it finds one. *)
Definition cached (q : Query) (env : Env) (c : Controller) : option pyseq :=
  if use_cache c && PyStr.truthy (screen_of env)
  then screen_cache c (screen_of env) !! _get_element_key q
  else None.

(** The [bounds] attribute of a node with corners [(x1, y1)] and [(x2, y2)]. *)
Definition bounds_string (x1 y1 x2 y2 : Z) : string :=
  "[" +:+ PyStr.of_Z x1 +:+ "," +:+ PyStr.of_Z y1 +:+ "]["
  +:+ PyStr.of_Z x2 +:+ "," +:+ PyStr.of_Z y2 +:+ "]".

(** A node meets every condition of the list. *)
Definition satisfies (conds : list (string * string)) (e : Element) : Prop :=
  Forall (fun '(a, v) => has_attribute a v e) conds.

Definition quote_free (conds : list (string * string)) : Prop :=
  Forall (fun '(_, v) => PyStr.contains (String dquote "") v = false) conds.

(** The controller after [_get_current_activity] ran in [env]. *)
Definition resolved (env : Env) (c : Controller) : Controller :=
  match scan_lines (PyStr.split (String newline "") (dumpsys_windows env)) with
  | Some activity =>
      set_current_activity (Some (_sanitize_activity_name activity))
        (run_adb DumpsysWindows c)
  | None => run_adb DumpsysWindows c
  end.

(** The controller after lines 144-160 of [find_element]. *)
Definition looked_up (env : Env) (c : Controller) : Controller :=
  if use_cache c then
    let c1 := resolved env c in
    if PyStr.truthy (screen_of env)
       && bool_decide (activity_cache c1 !! screen_of env = None)
    then set_activity_cache (<[screen_of env := ∅]> (activity_cache c1)) c1
    else c1
  else c.

(** The controller after [_get_ui_hierarchy] pulled [f]. *)
Definition dumped (f : file) (c : Controller) : Controller :=
  let c := run_adb Pull (run_adb UiautomatorDump (set_current_activity None c)) in
  set_disk (<["temp_ui.xml" := f]> (disk c)) c.

(** *** Sample screens

    A login screen with one button, the same screen after the button went
    away, and the window line [dumpsys] prints for it. *)

Definition login_window : string :=
  "  * ActivityRecord{9f3c2a u0 com.example/.LoginActivity t45}".

Definition button (label bounds : string) : Element :=
  Elem "node" (<["text" := label]> {["bounds" := bounds]}) [].

Definition login_screen : Element :=
  Elem "hierarchy" ∅ [button "OK" "[10,20][30,60]"].

Definition grown_screen : Element :=
  Elem "hierarchy" ∅ [button "Cancel" "[0,0][100,200]"].

Definition empty_screen : Element := Elem "hierarchy" ∅ [].

Definition showing (window : string) (root : Element) : Env :=
  {| dumpsys_windows := window;
     ui_dump := Pulled (XmlFile root);
     etree_quoted := fun _ _ => Raise SyntaxError |}.

(** A controller that starts with an empty cache directory, and the same
    controller after it located [q] on the login screen. *)
Definition fresh_on (dev : string) : Controller := new_controller true dev ∅ [].
Definition fresh : Controller := fresh_on "emulator-5554".
Definition located_on (dev : string) (q : Query) : Controller :=
  (find_element q (showing login_window login_screen) (fresh_on dev)).2.
Definition located (q : Query) : Controller := located_on "emulator-5554" q.

(** The serial [adb devices] prints for a phone paired over Wi-Fi. *)
Definition wireless_device : string := "adb-R5CN30-AbCdEf._adb-tls-connect._tcp".

Definition by_text (label : string) : Query :=
  {| resource_id := None; text := Some label; class_name := None |}.

Definition no_predicates : Query :=
  {| resource_id := None; text := None; class_name := None |}.

Definition by_id_and_text (id label : string) : Query :=
  {| resource_id := Some id; text := Some label; class_name := None |}.

(** A dump whose only node has no [bounds] attribute. *)
Definition bare_screen : Element := Elem "hierarchy" ∅ [Elem "node" ∅ []].

(** *** The states of the monitor and sample runs *)

(** The two states of the monitor. *)
Inductive run_state := Stopped | Running.

Definition state_of {W} (m : Toast.Monitor W) : run_state :=
  if Toast.is_monitoring_toast m then Running else Stopped.

(** A listener that raises on every call and one that counts its calls. *)
Definition failing_listener : Toast.listener nat :=
  fun _ w => (Some (OtherException "RuntimeError"), w).
Definition counting_listener : Toast.listener nat :=
  fun _ w => (None, S w).

Definition toast_line : string :=
  "EventType: TYPE_NOTIFICATION_STATE_CHANGED; EventTime: 1; PackageName: com.example; ClassName: android.widget.Toast$TN; Text: [ Login failed ]; ContentDescription: null".

Definition idle_monitor : Toast.Monitor nat :=
  {| Toast.toast_queue := [];
     Toast.toast_listeners := [failing_listener; counting_listener];
     Toast.is_monitoring_toast := false;
     Toast.toast_monitor_thread := Toast.NoThread;
     Toast.threads_started := 0;
     Toast.calls := [];
     Toast.log := [];
     Toast.world := 0%nat |}.

Definition listening_monitor : Toast.Monitor nat :=
  Toast.run_thread [] (Toast.start_toast_monitor idle_monitor).

(** What a run of the loop of [wait_for_toast] leaves behind: the pops it
    made, each with the full [timeout], the last one the first to match
    when the answer is [True], none matching and the time used up when it is
    [False]. *)
Definition waited (expected_text : string) (timeout start_time : Z)
    (w w' : Toast.Waiter) (answer : bool) : Prop :=
  exists made,
    Toast.pops w' = (Toast.pops w ++ made)%list
    /\ Forall (fun p => p.1 = timeout) made
    /\ if answer then
         exists earlier toast,
           made = (earlier ++ [(timeout, Some toast)])%list
           /\ PyStr.truthy toast = true
           /\ PyStr.contains expected_text toast = true
           /\ Forall (fun p => Toast.matches expected_text p.2 = false) earlier
       else
         Forall (fun p => Toast.matches expected_text p.2 = false) made
         /\ timeout <= Toast.now w' - start_time.

(** ** Further notions: the locator in full *)

(** The controller after [find_element] searched the dump [root], found a
    node with centre [center] and stored it for the screen of [env]. *)
Definition stored (q : Query) (env : Env) (root : Element) (center : pyseq)
    (c : Controller) : Controller :=
  let c1 := dumped (XmlFile root) (looked_up env c) in
  let cache := <[_get_element_key q := center]> (screen_cache c1 (screen_of env)) in
  let c2 := set_activity_cache (<[screen_of env := cache]> (activity_cache c1)) c1 in
  set_disk (<[cache_file_name (device c2) (screen_of env)
              := JsonFile (items <$> cache)]> (disk c2)) c2.

(** Every outcome of [find_element], path by path. *)
Definition find_element_paths (q : Query) (env : Env) (c : Controller)
  : result pyseq * Controller :=
  match cached q env c with
  | Some v => (Ok (tuple v), looked_up env c)
  | None =>
      let c1 := looked_up env c in
      match ui_dump env with
      | DumpFails =>
          (Raise CalledProcessError,
           run_adb UiautomatorDump (set_current_activity None c1))
      | PullFails =>
          (Raise CalledProcessError,
           run_adb Pull (run_adb UiautomatorDump (set_current_activity None c1)))
      | Pulled (XmlFile root) =>
          match find env (conditions q) root with
          | Raise e => (Raise e, dumped (XmlFile root) c1)
          | Ok None => (Raise ValueError, dumped (XmlFile root) c1)
          | Ok (Some element) =>
              match center_of (default "[]" (attrib element !! "bounds")) with
              | Raise e => (Raise e, dumped (XmlFile root) c1)
              | Ok center =>
                  (Ok center,
                   if use_cache c && PyStr.truthy (screen_of env)
                   then stored q env root center c
                   else dumped (XmlFile root) c1)
              end
          end
      | Pulled f => (Raise (refusal f), dumped f c1)
      end
  end.

(** ** Further notions: collecting toasts

    [get_all_toasts_in_time] on the clock of [Toast.Waiter]: time passes
    only while a [get] waits, so the two readings of [time.time()] in one
    pass of the loop (lines 468 and 469) give the same tick. *)

(** The [while] loop of [get_all_toasts_in_time]; [None] when the fuel runs
    out. *)
Fixpoint collect_loop (fuel : nat) (timeout start_time : Z)
    (all_toasts : list string) (w : Toast.Waiter)
  : option (result (list string) * Toast.Waiter) :=
  match fuel with
  | O => None
  | S fuel' =>
      if Toast.now w - start_time <? timeout then
        match Toast.get_toast (timeout - (Toast.now w - start_time)) w with
        | (Raise e, w') => Some (Raise e, w')
        | (Ok toast, w') =>
            let all_toasts :=
              match toast with
              | Some t => if PyStr.truthy t then (all_toasts ++ [t])%list else all_toasts
              | None => all_toasts
              end in
            collect_loop fuel' timeout start_time all_toasts w'
        end
      else Some (Ok all_toasts, w)
  end.

Definition get_all_toasts_in_time (timeout : Z) (w : Toast.Waiter)
  : option (result (list string) * Toast.Waiter) :=
  collect_loop (2 + length (Toast.arrivals w)) timeout (Toast.now w) [] w.

(** The messages at the head of the queue put before [deadline], and the
    queue from the first message that is not. *)
Fixpoint before (deadline : Z) (arrivals : list (Z * string)) : list (Z * string) :=
  match arrivals with
  | (t, msg) :: rest => if t <? deadline then (t, msg) :: before deadline rest else []
  | [] => []
  end.

Fixpoint from (deadline : Z) (arrivals : list (Z * string)) : list (Z * string) :=
  match arrivals with
  | (t, msg) :: rest => if t <? deadline then from deadline rest else arrivals
  | [] => []
  end.

(** The non-empty texts of a list of arrivals. *)
Definition texts (arrivals : list (Z * string)) : list string :=
  filter (fun t => PyStr.truthy t = true) (arrivals.*2).

(** The messages a list of [get_toast] calls took from the queue. *)
Definition taken (made : list (Z * option string)) : list string :=
  omap snd made.

(** ** The spec's words for waiting on the queue

    [next(timeout)] as the spec has it, a blocking pop from the toast queue
    with a timeout that returns none on timeout, said of the queue of a
    waiter: the message at the head is taken when it is there or comes
    before the wait runs out, and the clock stands where the wait ended;
    otherwise nothing is taken and [timeout] has passed.  The pop is
    recorded with the timeout it was given. *)
Definition next_spec (timeout : Z) (w : Toast.Waiter) (r : option string)
    (w1 : Toast.Waiter) : Prop :=
  Toast.pops w1 = (Toast.pops w ++ [(timeout, r)])%list
  /\ match r with
     | Some msg =>
         exists t,
           Toast.arrivals w = (t, msg) :: Toast.arrivals w1
           /\ (t <= Toast.now w \/ t < Toast.now w + timeout)
           /\ Toast.now w1 = Z.max (Toast.now w) t
     | None =>
         Toast.arrivals w1 = Toast.arrivals w
         /\ Toast.now w1 = Toast.now w + timeout
         /\ match Toast.arrivals w with
            | (t, _) :: _ => Toast.now w < t /\ Toast.now w + timeout <= t
            | [] => True
            end
     end.

(** [waitFor(expectedSubstring, timeout)] as the spec has it: pop after pop,
    each with the timeout of the call, until the time since [start_time]
    has reached [timeout]; true at the first message that contains the
    text, false when the time runs out first. *)
Inductive waitFor_spec (expected_text : string) (timeout start_time : Z)
  : Toast.Waiter -> bool -> Toast.Waiter -> Prop :=
| waitFor_timed_out (w : Toast.Waiter) :
    timeout <= Toast.now w - start_time ->
    waitFor_spec expected_text timeout start_time w false w
| waitFor_found (w w1 : Toast.Waiter) (toast : option string) :
    Toast.now w - start_time < timeout ->
    next_spec timeout w toast w1 ->
    Toast.matches expected_text toast = true ->
    waitFor_spec expected_text timeout start_time w true w1
| waitFor_again (w w1 w' : Toast.Waiter) (toast : option string) (answer : bool) :
    Toast.now w - start_time < timeout ->
    next_spec timeout w toast w1 ->
    Toast.matches expected_text toast = false ->
    waitFor_spec expected_text timeout start_time w1 answer w' ->
    waitFor_spec expected_text timeout start_time w answer w'.

(** ** Further notions: the stream of the monitor *)

(** The reads the loop of [_monitor_toast] survives: lines, the empty read
    of a closed stream, and the two exceptions its inner handlers name. *)
Definition benign (r : Toast.read) : bool :=
  match r with
  | Toast.Line _ => true
  | Toast.ReadRaises UnicodeDecodeError | Toast.ReadRaises TimeoutExpired => true
  | Toast.ReadRaises _ => false
  end.

(** The toast a read carries, and the toasts of a stream, in order. *)
Definition toast_of_read (r : Toast.read) : option string :=
  match r with
  | Toast.Line line => Toast.toast_of_line line
  | Toast.ReadRaises _ => None
  end.

Definition toasts_of (reads : list Toast.read) : list string :=
  omap toast_of_read reads.

(** The listener calls for [toasts] with [n] listeners registered: for each
    toast in turn, the listeners in the order of their registration. *)
Definition deliveries (n : nat) (toasts : list string) : list (nat * string) :=
  flat_map (fun t => map (fun i => (i, t)) (seq 0 n)) toasts.

(** ** The connected devices and the screen size *)

Definition tab : ascii := ascii_of_N 9.

(** [s] is empty or begins with white space. *)
Definition starts_blank (s : string) : bool :=
  match s with String c _ => PyStr.isspace c | EmptyString => true end.

(** [s.split()]: the maximal runs of characters that are not white space.
    A character that is not white space is a word of its own when white
    space or the end follows, and goes in front of the first word of the
    rest otherwise. *)
Fixpoint words (s : string) : list string :=
  match s with
  | EmptyString => []
  | String c s' =>
      if PyStr.isspace c then words s'
      else if starts_blank s' then String c "" :: words s'
      else match words s' with
           | w :: ws => String c w :: ws
           | [] => [String c ""]
           end
  end.

(** The comprehension of line 55: [line.split()[0]] for the lines that are
    not blank and hold the text [device]. *)
Fixpoint devices_of (lines : list string) : result (list string) :=
  match lines with
  | [] => Ok []
  | line :: rest =>
      if PyStr.truthy (PyStr.strip PyStr.isspace line) && PyStr.contains "device" line
      then
        match words line with
        | [] => Raise IndexError
        | serial :: _ =>
            match devices_of rest with
            | Ok serials => Ok (serial :: serials)
            | Raise e => Raise e
            end
        end
      else devices_of rest
  end.

(** [_get_connected_devices], given what [adb devices] prints. *)
Definition _get_connected_devices (stdout : string) : result (list string) :=
  let lines := tail (PyStr.split (String newline "") (PyStr.strip PyStr.isspace stdout)) in
  devices_of lines.

(** [devices[device_index]] *)
Definition list_item {A} (l : list A) (index : Z) : result A :=
  let i := if index <? 0 then index + Z.of_nat (length l) else index in
  if i <? 0 then Raise IndexError
  else match l !! Z.to_nat i with
       | Some x => Ok x
       | None => Raise IndexError
       end.

(** Lines 22-26 of [__init__]: the device the controller binds to. *)
Definition select_device (stdout : string) (device_index : Z) : result string :=
  match _get_connected_devices stdout with
  | Raise e => Raise e
  | Ok devices =>
      match devices with
      | [] => Raise (OtherException "ConnectionError")
      | _ => list_item devices device_index
      end
  end.

(** [(\d+)x(\d+)]; the matcher records the first group, and the second is
    what the last token matched. *)
Definition size_pattern : Re.regex :=
  [Re.GroupOpen; Re.Atom PyStr.isdigit Re.Plus; Re.GroupClose;
   Re.Atom (PyStr.is_char "x") Re.Once; Re.Atom PyStr.isdigit Re.Plus].

(** The two groups of a match of [size_pattern] that began at [start] and
    left [rest]. *)
Definition size_groups (start rest : string) (g : Re.captures) : string * string :=
  let whole := PyStr.take (String.length start - String.length rest) start in
  let width := default "" (Re.group1 g) in
  (width, PyStr.drop (String.length width + 1) whole).

(** [sys.int_info.default_max_str_digits]: [int] raises [ValueError] for a
    literal with more digits.  [PyStr.int] has no such limit, so what is
    said of [get_screen_size] raising nothing is said of outputs within
    it. *)
Definition int_max_str_digits : nat := 4300.

(** [get_screen_size], given what [adb shell wm size] prints. *)
Definition get_screen_size (stdout : string) : result pyseq :=
  let output := PyStr.strip PyStr.isspace stdout in
  match Re.search size_pattern output with
  | Some (rest, g) =>
      let '(g1, g2) := size_groups (default "" (Re.opened g)) rest g in
      match PyStr.int g1, PyStr.int g2 with
      | Some width, Some height => Ok (PyTuple [width; height])
      | _, _ => Raise ValueError
      end
  | None => Ok (PyTuple [1080; 1920])
  end.

(** The listing [adb devices] prints: a heading, a line with serial, tab
    and state for each device, and an empty line. *)
Definition line_of (entry : string * string) : string :=
  entry.1 +:+ String tab entry.2.

Definition adb_devices (heading : string) (entries : list (string * string)) : string :=
  PyStr.join (String newline "") (heading :: map line_of entries)
  +:+ String newline (String newline "").

(** A serial or a state: not empty, no white space. *)
Definition token (s : string) : bool :=
  PyStr.truthy s && all_chars (fun c => negb (PyStr.isspace c)) s.

(** A heading: one line that neither begins nor ends with white space. *)
Definition is_heading (s : string) : bool :=
  all_chars dot s && negb (starts_blank s) && String.eqb (PyStr.rstrip PyStr.isspace s) s.

(** The serials of the entries whose line holds the text [device]. *)
Definition ready (entries : list (string * string)) : list string :=
  (filter (fun e => PyStr.contains "device" (line_of e) = true) entries).*1.

(** A line of the listing as the function needs it: no white space at
    either end, no newline inside. *)
Definition solid (s : string) : Prop :=
  PyStr.rstrip PyStr.isspace s = s /\ starts_blank s = false /\ all_chars dot s = true.

(** ** Input events and pop-up handlers

    The controller together with what it sent to [adb shell input], and
    the two dictionaries of handlers. *)

Inductive input_event :=
| Tap (x y : string).     (* [adb shell input tap x y] *)

Record Device := {
  controller : Controller;
  input_trace : list input_event;
}.

Definition set_controller (c : Controller) (d : Device) : Device :=
  {| controller := c; input_trace := input_trace d |}.
Definition send (e : input_event) (d : Device) : Device :=
  {| controller := controller d; input_trace := (input_trace d ++ [e])%list |}.

(** [x, y = v] *)
Definition unpack_pair (v : pyseq) : result (Z * Z) :=
  match items v with
  | [x; y] => Ok (x, y)
  | _ => Raise ValueError
  end.

(** [click_element]; [input_ok] tells whether the [input] command, run
    with [check=True], exits with status zero. *)
Definition click_element (q : Query) (env : Env) (input_ok : bool) (d : Device)
  : result unit * Device :=
  match find_element q env (controller d) with
  | (Raise e, c) => (Raise e, set_controller c d)
  | (Ok center, c) =>
      match unpack_pair center with
      | Raise e => (Raise e, set_controller c d)
      | Ok (x, y) =>
          let d := send (Tap (PyStr.of_Z x) (PyStr.of_Z y)) (set_controller c d) in
          if input_ok then (Ok tt, d) else (Raise CalledProcessError, d)
      end
  end.

(** A registered callable: it runs against the device in the world of the
    moment it is called. *)
Definition action := Env -> bool -> Device -> result unit * Device.

(** A dictionary from texts to actions, in the order of insertion. *)
Definition handlers := list (string * action).

(** [handlers[text] = act] *)
Fixpoint set_item (text : string) (act : action) (hs : handlers) : handlers :=
  match hs with
  | [] => [(text, act)]
  | (t, old) :: rest =>
      if String.eqb t text then (t, act) :: rest
      else (t, old) :: set_item text act rest
  end.

Record Popups := {
  popup_handlers : handlers;
  permission_handlers : handlers;
}.

Definition register_popup_handler (text : string) (act : action) (p : Popups) : Popups :=
  {| popup_handlers := set_item text act (popup_handlers p);
     permission_handlers := permission_handlers p |}.

Definition register_permission_handler (text : string) (act : action) (p : Popups)
  : Popups :=
  {| popup_handlers := popup_handlers p;
     permission_handlers := set_item text act (permission_handlers p) |}.

(** One of the two [for] loops of [_handle_popups]: [Some r] when the
    function returns or raises inside the loop, [None] when the loop runs
    out. *)
Fixpoint handle_loop (env : Env) (input_ok : bool) (hs : handlers) (d : Device)
  : option (result unit) * Device :=
  match hs with
  | [] => (None, d)
  | (text, act) :: rest =>
      match check_element_exists (by_text text) env (controller d) with
      | (Raise e, c) => (Some (Raise e), set_controller c d)
      | (Ok true, c) =>
          let '(r, d) := act env input_ok (set_controller c d) in (Some r, d)
      | (Ok false, c) => handle_loop env input_ok rest (set_controller c d)
      end
  end.

Definition _handle_popups (env : Env) (input_ok : bool) (p : Popups) (d : Device)
  : result unit * Device :=
  match handle_loop env input_ok (permission_handlers p) d with
  | (Some r, d) => (r, d)
  | (None, d) =>
      match handle_loop env input_ok (popup_handlers p) d with
      | (Some r, d) => (r, d)
      | (None, d) => (Ok tt, d)
      end
  end.

(** The controller [c'] answers every query as [c] does: the same switch
    and the same screen caches. *)
Definition same_answers (c c' : Controller) : Prop :=
  use_cache c' = use_cache c /\ forall s, screen_cache c' s = screen_cache c s.

(** A screen with a permission dialog, a handler that taps a button, and
    handlers registered as a test would register them. *)
Definition permission_dialog : Element :=
  Elem "hierarchy" ∅
    [button "Camera access" "[0,0][1080,200]";
     button "Allow" "[600,1200][1000,1300]";
     button "OK" "[10,20][30,60]"].

Definition tap_on (label : string) : action :=
  fun env input_ok => click_element (by_text label) env input_ok.

Definition sample_popups : Popups :=
  register_permission_handler "Allow" (tap_on "Allow")
    (register_popup_handler "OK" (tap_on "OK")
       (register_permission_handler "Always allow" (tap_on "Always allow")
          {| popup_handlers := []; permission_handlers := [] |})).

Definition fresh_device : Device := {| controller := fresh; input_trace := [] |}.

(** ** Facts about strings *)

Lemma append_nil_l (a : string) : "" +:+ a = a.
Proof. reflexivity. Qed.

Lemma append_cons (c : ascii) (a b : string) :
  String c a +:+ b = String c (a +:+ b).
Proof. reflexivity. Qed.

Lemma length_append (a b : string) :
  String.length (a +:+ b) = (String.length a + String.length b)%nat.
Proof.
  induction a as [|c a IH]; [done |].
  rewrite append_cons. simpl. by rewrite IH.
Qed.

Lemma append_nil_r (a : string) : a +:+ "" = a.
Proof. induction a as [|c a IH]; [done |]. by rewrite append_cons, IH. Qed.

Lemma append_assoc (a b c : string) : (a +:+ b) +:+ c = a +:+ (b +:+ c).
Proof. induction a as [|x a IH]; [done |]. by rewrite !append_cons, IH. Qed.

Lemma lstrip_length (p : ascii -> bool) (s : string) :
  (String.length (PyStr.lstrip p s) <= String.length s)%nat.
Proof. induction s as [|c s IH]; simpl; [lia | destruct (p c); simpl; lia]. Qed.

Lemma lstrip_head (p : ascii -> bool) (s : string) (c : ascii) (r : string) :
  PyStr.lstrip p s = String c r -> p c = false.
Proof.
  induction s as [|x s IH]; simpl; [done |].
  destruct (p x) eqn:Hx; [done | intros [= -> _]; done].
Qed.

(** ** Facts about the matcher *)

Section MatcherFacts.
Context {R : Type} (cls : ascii -> bool) (k : string -> option R).

Lemma star_total (s : string) :
  (forall t, is_Some (k t)) -> Re.star cls k s = k (PyStr.lstrip cls s).
Proof.
  intros Hk. induction s as [|c s IH]; simpl; [done |].
  destruct (cls c); [| done].
  rewrite IH. by destruct (Hk (PyStr.lstrip cls s)) as [r ->].
Qed.

Lemma star_suffix (s : string) (r : R) :
  Re.star cls k s = Some r -> exists p t, s = p +:+ t /\ k t = Some r.
Proof.
  induction s as [|c s IH]; simpl.
  - intros H. by exists "", "".
  - destruct (cls c).
    + destruct (Re.star cls k s) as [r'|] eqn:Hs.
      * intros [= ->]. destruct (IH eq_refl) as (p & t & -> & Ht).
        by exists (String c p), t.
      * intros H. by exists "", (String c s).
    + intros H. by exists "", (String c s).
Qed.

Lemma opt_suffix (s : string) (r : R) :
  Re.opt cls k s = Some r -> exists p t, s = p +:+ t /\ k t = Some r.
Proof.
  destruct s as [|c s]; simpl.
  - intros H. by exists "", "".
  - destruct (cls c).
    + destruct (k s) as [r'|] eqn:Hs.
      * intros [= ->]. by exists (String c ""), s.
      * intros H. by exists "", (String c s).
    + intros H. by exists "", (String c s).
Qed.

Lemma star_skip (c : ascii) (s : string) :
  cls c = false -> Re.star cls k (String c s) = k (String c s).
Proof. intros H. simpl. by rewrite H. Qed.

Lemma opt_skip (c : ascii) (s : string) :
  cls c = false -> Re.opt cls k (String c s) = k (String c s).
Proof. intros H. simpl. by rewrite H. Qed.
End MatcherFacts.

Lemma task_free_append (p : string) (d : ascii) (s : string) :
  PyStr.isdigit d = true -> task_free (p +:+ String "t" (String d s)) = false.
Proof.
  intros Hd. induction p as [|c p IH].
  - rewrite append_nil_l. simpl. by rewrite Hd.
  - rewrite append_cons. simpl. rewrite IH. by rewrite andb_false_r.
Qed.

Lemma task_match_inv (g g' : Re.captures) (s rest : string) :
  Re.match_here task_id_pattern g s = Some (rest, g') ->
  exists p d t,
    s = p +:+ String "t" (String d t) /\ PyStr.isdigit d = true
    /\ rest = PyStr.lstrip PyStr.isdigit t.
Proof.
  unfold task_id_pattern. cbn [Re.match_here]. intros H.
  apply star_suffix in H as (p1 & s1 & -> & H).
  apply opt_suffix in H as (p2 & s2 & -> & H).
  apply star_suffix in H as (p3 & s3 & -> & H).
  destruct s3 as [|c s3]; [done |]. cbn [Re.once] in H.
  destruct (PyStr.is_char "t" c) eqn:Hc; [| done].
  apply Ascii.eqb_eq in Hc as <-.
  destruct s3 as [|d t]; [done |]. cbn [Re.plus] in H.
  destruct (PyStr.isdigit d) eqn:Hd; [| done].
  rewrite star_total in H by (intros ?; eexists; reflexivity). injection H as <- _.
  exists (p1 +:+ p2 +:+ p3), d, t. by rewrite !append_assoc.
Qed.

Lemma task_match_complete (g : Re.captures) (d : ascii) (t : string) :
  PyStr.isdigit d = true ->
  is_Some (Re.match_here task_id_pattern g (String "t" (String d t))).
Proof.
  intros Hd. unfold task_id_pattern. cbn [Re.match_here].
  rewrite star_skip, opt_skip, star_skip by reflexivity.
  cbn [Re.once Re.plus]. change (PyStr.is_char "t" "t") with true. cbv iota.
  rewrite Hd, star_total by (intros ?; eexists; reflexivity). by eexists.
Qed.

Lemma task_free_no_match (g : Re.captures) (s : string) :
  task_free s = true -> Re.match_here task_id_pattern g s = None.
Proof.
  intros Hs. destruct (Re.match_here task_id_pattern g s) as [[rest g']|] eqn:H; [| done].
  apply task_match_inv in H as (p & d & t & -> & Hd & _).
  by rewrite task_free_append in Hs.
Qed.

Lemma sub_task_free (fuel : nat) (s : string) :
  (String.length s < fuel)%nat -> task_free s = true ->
  Re.sub_go fuel task_id_pattern "" s = s.
Proof.
  revert s. induction fuel as [|fuel IH]; intros s Hlen Hs; [lia |].
  cbn [Re.sub_go]. rewrite task_free_no_match by done.
  destruct s as [|c s]; [done |].
  simpl in Hs, Hlen. apply andb_true_iff in Hs as [_ Hs].
  rewrite IH; [done | lia | done].
Qed.

Lemma sub_task_result (fuel : nat) (s : string) :
  (String.length s < fuel)%nat ->
  task_free (Re.sub_go fuel task_id_pattern "" s) = true
  /\ (starts_digit (Re.sub_go fuel task_id_pattern "" s) = true -> starts_digit s = true).
Proof.
  revert s. induction fuel as [|fuel IH]; intros s Hlen; [lia |].
  cbn [Re.sub_go].
  destruct (Re.match_here task_id_pattern Re.no_captures s) as [[rest g']|] eqn:Hm.
  - apply task_match_inv in Hm as (p & d & t & -> & Hd & ->).
    assert (String.length (PyStr.lstrip PyStr.isdigit t)
            < String.length (p +:+ String "t" (String d t)))%nat as Hlt.
    { rewrite length_append. simpl. pose proof (lstrip_length PyStr.isdigit t). lia. }
    destruct (p +:+ String "t" (String d t)) as [|c s'] eqn:Hs.
    { simpl in Hlt. lia. }
    apply Nat.ltb_lt in Hlt as Hlt'. rewrite Hlt', append_nil_l.
    destruct (IH (PyStr.lstrip PyStr.isdigit t)) as [Hfree Hhead]; [lia |].
    split; [done |]. intros Hdig. apply Hhead in Hdig.
    destruct (PyStr.lstrip PyStr.isdigit t) as [|x r] eqn:Hl; [done |].
    apply lstrip_head in Hl. simpl in Hdig. congruence.
  - destruct s as [|c s]; [done |].
    destruct (IH s) as [Hfree Hhead]; [simpl in Hlen; lia |].
    split; [| done].
    cbn [task_free]. rewrite Hfree, andb_true_r. apply negb_true_iff.
    destruct (PyStr.is_char "t" c) eqn:Hc; [| done].
    destruct (starts_digit (Re.sub_go fuel task_id_pattern "" s)) eqn:Hdig; [| done].
    apply Ascii.eqb_eq in Hc as <-. specialize (Hhead eq_refl).
    destruct s as [|d t]; [done |]. simpl in Hhead.
    destruct (task_match_complete Re.no_captures d t Hhead) as [r Hr]. congruence.
Qed.

Lemma sub_illegal (fuel : nat) (s : string) :
  (String.length s < fuel)%nat ->
  Re.sub_go fuel illegal_pattern "_" s = map_string legalise s.
Proof.
  revert s. induction fuel as [|fuel IH]; intros s Hlen; [lia |].
  destruct s as [|c s]; [done |].
  cbn [Re.sub_go illegal_pattern Re.match_here Re.once map_string].
  simpl in Hlen. unfold legalise at 1.
  destruct (illegal_in_filename c).
  - assert ((String.length s <? String.length (String c s))%nat = true) as ->.
    { apply Nat.ltb_lt. simpl. lia. }
    by rewrite IH by lia.
  - by rewrite IH by lia.
Qed.

Lemma legalise_idemp (c : ascii) : legalise (legalise c) = legalise c.
Proof.
  unfold legalise. destruct (illegal_in_filename c) eqn:Hc; [done | by rewrite Hc].
Qed.

Lemma map_legalise_idemp (s : string) :
  map_string legalise (map_string legalise s) = map_string legalise s.
Proof. induction s as [|c s IH]; simpl; [done | by rewrite legalise_idemp, IH]. Qed.

Lemma legalise_t (c : ascii) :
  PyStr.is_char "t" (legalise c) = true -> PyStr.is_char "t" c = true.
Proof. unfold legalise. by destruct (illegal_in_filename c). Qed.

Lemma legalise_digit (c : ascii) :
  PyStr.isdigit (legalise c) = true -> PyStr.isdigit c = true.
Proof. unfold legalise. by destruct (illegal_in_filename c). Qed.

Lemma starts_digit_legalise (s : string) :
  starts_digit (map_string legalise s) = true -> starts_digit s = true.
Proof. destruct s as [|d s]; [done |]. apply legalise_digit. Qed.

Lemma task_free_legalise (s : string) :
  task_free s = true -> task_free (map_string legalise s) = true.
Proof.
  induction s as [|c s IH]; [done |].
  cbn [task_free map_string].
  intros [Hc Hs]%andb_true_iff. rewrite (IH Hs), andb_true_r.
  apply negb_true_iff. apply negb_true_iff in Hc.
  destruct (PyStr.is_char "t" (legalise c)) eqn:Ht; [| reflexivity].
  destruct (starts_digit (map_string legalise s)) eqn:Hd; [| reflexivity].
  apply legalise_t in Ht. apply starts_digit_legalise in Hd.
  by rewrite Ht, Hd in Hc.
Qed.

Lemma map_string_length (f : ascii -> ascii) (s : string) :
  String.length (map_string f s) = String.length s.
Proof. induction s as [|c s IH]; simpl; [done | by rewrite IH]. Qed.

Lemma sanitize_spec (s : string) :
  _sanitize_activity_name s = map_string legalise (Re.sub task_id_pattern "" s).
Proof. unfold _sanitize_activity_name, Re.sub. apply sub_illegal. lia. Qed.

Lemma sanitize_task_free (s : string) :
  task_free (_sanitize_activity_name s) = true.
Proof.
  rewrite sanitize_spec. apply task_free_legalise.
  unfold Re.sub. apply sub_task_result. lia.
Qed.

Lemma sanitize_fixed (s : string) :
  task_free s = true -> map_string legalise s = s -> _sanitize_activity_name s = s.
Proof.
  intros Hfree Hlegal. rewrite sanitize_spec. unfold Re.sub.
  rewrite sub_task_free; [done | lia | done].
Qed.

Lemma sanitize_idempotent (s : string) :
  _sanitize_activity_name (_sanitize_activity_name s) = _sanitize_activity_name s.
Proof.
  apply sanitize_fixed; [apply sanitize_task_free |].
  rewrite sanitize_spec. apply map_legalise_idemp.
Qed.

(** ** Decimal literals *)

Lemma digit_char_spec (d : Z) :
  0 <= d < 10 ->
  PyStr.isdigit (PyStr.digit_char d) = true
  /\ PyStr.digit_value (PyStr.digit_char d) = d.
Proof.
  intros Hd.
  assert (d = 0 \/ d = 1 \/ d = 2 \/ d = 3 \/ d = 4 \/ d = 5 \/ d = 6
          \/ d = 7 \/ d = 8 \/ d = 9) as Hcases by lia.
  repeat (destruct Hcases as [-> | Hcases]; [by vm_compute |]).
  subst d. by vm_compute.
Qed.

Lemma all_chars_append (p : ascii -> bool) (a b : string) :
  all_chars p (a +:+ b) = all_chars p a && all_chars p b.
Proof.
  induction a as [|c a IH]; [done |].
  rewrite append_cons. simpl. by rewrite IH, andb_assoc.
Qed.

Lemma all_chars_weaken (p q : ascii -> bool) (s : string) :
  (forall c, p c = true -> q c = true) ->
  all_chars p s = true -> all_chars q s = true.
Proof.
  intros Hpq. induction s as [|c s IH]; [done |]. simpl.
  intros [Hc Hs]%andb_true_iff. by rewrite (Hpq c Hc), IH.
Qed.

Lemma dec_go_digits (fuel : nat) (n : Z) (acc : string) :
  0 <= n -> all_chars PyStr.isdigit acc = true ->
  all_chars PyStr.isdigit (PyStr.dec_go fuel n acc) = true.
Proof.
  revert n acc. induction fuel as [|fuel IH]; intros n acc Hn Hacc; [done |].
  cbn [PyStr.dec_go].
  assert (all_chars PyStr.isdigit (String (PyStr.digit_char (n `mod` 10)) acc) = true) as H.
  { simpl. rewrite Hacc, andb_true_r. apply digit_char_spec.
    apply Z.mod_pos_bound. lia. }
  destruct (n <? 10); [done |]. apply IH; [| done].
  apply Z.div_pos; lia.
Qed.

Lemma dec_go_nonempty (fuel : nat) (n : Z) (acc : string) :
  PyStr.truthy (PyStr.dec_go (S fuel) n acc) = true.
Proof.
  revert n acc. induction fuel as [|fuel IH]; intros n acc.
  - cbn [PyStr.dec_go]. by destruct (n <? 10).
  - change (PyStr.dec_go (S (S fuel)) n acc)
      with (let acc' := String (PyStr.digit_char (n `mod` 10)) acc in
            if n <? 10 then acc' else PyStr.dec_go (S fuel) (n / 10) acc').
    cbv zeta. destruct (n <? 10); [done | apply IH].
Qed.

Lemma int_digits_dec (fuel : nat) (n : Z) (acc : string) (b : bool) :
  0 <= n < 2 ^ Z.of_nat (S fuel) ->
  PyStr.int_digits 0 b (PyStr.dec_go (S fuel) n acc) = PyStr.int_digits n true acc.
Proof.
  revert n acc b. induction fuel as [|fuel IH]; intros n acc b Hn.
  - cbn [PyStr.dec_go]. change (2 ^ Z.of_nat 1) with 2 in Hn.
    assert ((n <? 10) = true) as -> by lia.
    rewrite Z.mod_small by lia. cbn [PyStr.int_digits].
    destruct (digit_char_spec n) as [-> ->]; [lia |]. f_equal; lia.
  - change (PyStr.dec_go (S (S fuel)) n acc)
      with (let acc' := String (PyStr.digit_char (n `mod` 10)) acc in
            if n <? 10 then acc' else PyStr.dec_go (S fuel) (n / 10) acc').
    cbv zeta.
    assert (0 <= n `mod` 10 < 10) as Hmod by (apply Z.mod_pos_bound; lia).
    destruct (n <? 10) eqn:Hlt.
    + apply Z.ltb_lt in Hlt. rewrite Z.mod_small by lia. cbn [PyStr.int_digits].
      destruct (digit_char_spec n) as [-> ->]; [lia |]. f_equal; lia.
    + apply Z.ltb_ge in Hlt. rewrite IH.
      * cbn [PyStr.int_digits].
        destruct (digit_char_spec (n `mod` 10)) as [-> ->]; [done |].
        f_equal; pose proof (Z.div_mod n 10); lia.
      * split; [apply Z.div_pos; lia |].
        rewrite Nat2Z.inj_succ, Z.pow_succ_r in Hn by lia.
        apply Z.div_lt_upper_bound; lia.
Qed.

Lemma log2_fuel (n : Z) : 0 <= n -> 0 <= n < 2 ^ Z.of_nat (S (Z.to_nat (Z.log2 n))).
Proof.
  intros Hn. split; [done |].
  rewrite Nat2Z.inj_succ, Z2Nat.id by apply Z.log2_nonneg.
  destruct (decide (n = 0)) as [-> | Hne]; [done |].
  apply Z.log2_spec. lia.
Qed.

Lemma of_Z_numeral (z : Z) : all_chars numeral_char (PyStr.of_Z z) = true.
Proof.
  unfold PyStr.of_Z. destruct (z <? 0) eqn:Hz.
  - apply Z.ltb_lt in Hz. cbn [all_chars].
    change (numeral_char "-") with true. cbn [andb].
    apply (all_chars_weaken PyStr.isdigit).
    { intros c Hc. unfold numeral_char. by rewrite Hc. }
    apply dec_go_digits; [lia | done].
  - apply Z.ltb_ge in Hz. apply (all_chars_weaken PyStr.isdigit).
    { intros c Hc. unfold numeral_char. by rewrite Hc. }
    by apply dec_go_digits.
Qed.

Lemma of_Z_nonempty (z : Z) : PyStr.truthy (PyStr.of_Z z) = true.
Proof. unfold PyStr.of_Z. destruct (z <? 0); [done | apply dec_go_nonempty]. Qed.

Lemma lstrip_keep (p : ascii -> bool) (s : string) :
  match s with String c _ => p c = false | EmptyString => True end ->
  PyStr.lstrip p s = s.
Proof. destruct s as [|c s]; [done |]. simpl. by intros ->. Qed.

Lemma rstrip_keep (p : ascii -> bool) (s : string) :
  all_chars (fun c => negb (p c)) s = true -> PyStr.rstrip p s = s.
Proof.
  induction s as [|c s IH]; [done |]. simpl.
  intros [Hc Hs]%andb_true_iff. rewrite (IH Hs).
  apply negb_true_iff in Hc. rewrite Hc. by destruct s.
Qed.

Lemma rstrip_append (p : ascii -> bool) (a b : string) :
  PyStr.truthy (PyStr.rstrip p b) = true ->
  PyStr.rstrip p (a +:+ b) = a +:+ PyStr.rstrip p b.
Proof.
  intros Hb. induction a as [|x a IH]; [done |].
  rewrite !append_cons. cbn [PyStr.rstrip]. rewrite IH.
  destruct (a +:+ PyStr.rstrip p b) as [|y r] eqn:Hr; [| done].
  destruct a; [| done]. rewrite append_nil_l in Hr. by rewrite Hr in Hb.
Qed.

Lemma rstrip_drop (p : ascii -> bool) (u t : string) :
  all_chars (fun c => negb (p c)) u = true -> all_chars p t = true ->
  PyStr.rstrip p (u +:+ t) = u.
Proof.
  intros Hu Ht.
  assert (PyStr.rstrip p t = "") as Hempty.
  { induction t as [|c t IH]; [done |]. simpl in *.
    apply andb_true_iff in Ht as [-> Ht]. by rewrite IH. }
  induction u as [|c u IH].
  - by rewrite append_nil_l.
  - rewrite append_cons. cbn [PyStr.rstrip]. simpl in Hu.
    apply andb_true_iff in Hu as [Hc Hu]. rewrite (IH Hu).
    apply negb_true_iff in Hc. rewrite Hc. by destruct u.
Qed.

Lemma strip_numeral (z : Z) (p : ascii -> bool) :
  (forall c, numeral_char c = true -> p c = false) ->
  PyStr.strip p (PyStr.of_Z z) = PyStr.of_Z z.
Proof.
  intros Hp. unfold PyStr.strip.
  pose proof (of_Z_numeral z) as Hnum.
  assert (all_chars (fun c => negb (p c)) (PyStr.of_Z z) = true) as Hall.
  { apply (all_chars_weaken numeral_char); [| done].
    intros c Hc. by rewrite (Hp c Hc). }
  rewrite lstrip_keep; [by apply rstrip_keep |].
  destruct (PyStr.of_Z z) as [|c r]; [done |].
  simpl in Hall. apply andb_true_iff in Hall as [Hc _]. by apply negb_true_iff.
Qed.

Lemma int_of_Z (z : Z) : PyStr.int (PyStr.of_Z z) = Some z.
Proof.
  unfold PyStr.int. rewrite strip_numeral.
  2:{ intros c. unfold numeral_char, PyStr.isdigit, PyStr.is_char, PyStr.int_blank.
      intros [Hc | Hc]%orb_true_iff.
      - apply andb_true_iff in Hc as [H1 H2].
        apply N.leb_le in H1. apply N.leb_le in H2.
        repeat (apply orb_false_iff; split); try (apply N.eqb_neq; lia).
        apply andb_false_iff. right. apply N.leb_gt. lia.
      - apply Ascii.eqb_eq in Hc as <-. done. }
  unfold PyStr.of_Z. destruct (z <? 0) eqn:Hz.
  - apply Z.ltb_lt in Hz. change (PyStr.is_char "-" "-") with true. cbv iota.
    rewrite int_digits_dec by (apply log2_fuel; lia). simpl. f_equal. lia.
  - apply Z.ltb_ge in Hz.
    pose proof (dec_go_digits (S (Z.to_nat (Z.log2 z))) z "" Hz eq_refl) as Hdig.
    pose proof (dec_go_nonempty (Z.to_nat (Z.log2 z)) z "") as Hne.
    destruct (PyStr.dec_go (S (Z.to_nat (Z.log2 z))) z "") as [|c r] eqn:Hdec; [done |].
    simpl in Hdig. apply andb_true_iff in Hdig as [Hc _].
    assert (PyStr.is_char "-" c = false) as ->.
    { apply Ascii.eqb_neq. intros <-. done. }
    assert (PyStr.is_char "+" c = false) as ->.
    { apply Ascii.eqb_neq. intros <-. done. }
    rewrite <- Hdec. by rewrite int_digits_dec by (apply log2_fuel; lia).
Qed.

(** ** Splitting a [bounds] attribute *)

Lemma split_go_field (c0 : ascii) (sep' u t : string) :
  all_chars (fun c => negb (PyStr.is_char c0 c)) u = true ->
  PyStr.split_go (String c0 sep') 0 (u +:+ t)
  = let '(f, r) := PyStr.split_go (String c0 sep') 0 t in (u +:+ f, r).
Proof.
  intros Hu. induction u as [|c u IH].
  - rewrite append_nil_l. by destruct (PyStr.split_go (String c0 sep') 0 t).
  - simpl in Hu. apply andb_true_iff in Hu as [Hc Hu]. apply negb_true_iff in Hc.
    rewrite append_cons. cbn [PyStr.split_go PyStr.startswith].
    unfold PyStr.is_char in Hc. rewrite Hc. cbn [andb]. rewrite (IH Hu).
    by destruct (PyStr.split_go (String c0 sep') 0 t).
Qed.

Lemma split_go_last (c0 : ascii) (sep' u : string) :
  all_chars (fun c => negb (PyStr.is_char c0 c)) u = true ->
  PyStr.split_go (String c0 sep') 0 u = (u, []).
Proof.
  intros Hu. rewrite <- (append_nil_r u) at 1.
  rewrite split_go_field by done. cbn [PyStr.split_go]. by rewrite append_nil_r.
Qed.

Lemma numeral_not (c0 : ascii) (s : string) :
  numeral_char c0 = false ->
  all_chars numeral_char s = true ->
  all_chars (fun c => negb (PyStr.is_char c0 c)) s = true.
Proof.
  intros Hc0. apply all_chars_weaken. intros c Hc. apply negb_true_iff.
  apply Ascii.eqb_neq. intros <-. congruence.
Qed.

Lemma int_pair_of_Z (x y : Z) :
  int_pair (PyStr.of_Z x +:+ "," +:+ PyStr.of_Z y) = Ok (x, y).
Proof.
  unfold int_pair, PyStr.split.
  rewrite split_go_field by (apply numeral_not; [done | apply of_Z_numeral]).
  change ("," +:+ PyStr.of_Z y) with (String "," (PyStr.of_Z y)).
  cbn [PyStr.split_go PyStr.startswith]. change (Ascii.eqb "," ",") with true.
  cbn [andb String.length Nat.sub].
  rewrite split_go_last by (apply numeral_not; [done | apply of_Z_numeral]).
  rewrite append_nil_r. by rewrite !int_of_Z.
Qed.

Lemma strip_bounds (x1 y1 x2 y2 : Z) :
  PyStr.strip (PyStr.one_of "[]") (bounds_string x1 y1 x2 y2)
  = (PyStr.of_Z x1 +:+ "," +:+ PyStr.of_Z y1) +:+ "]["
    +:+ (PyStr.of_Z x2 +:+ "," +:+ PyStr.of_Z y2).
Proof.
  unfold PyStr.strip, bounds_string.
  change ("[" +:+ ?s) with (String "[" s).
  cbn [PyStr.lstrip]. change (PyStr.one_of "[]" "[") with true. cbv iota.
  assert (forall z t, PyStr.lstrip (PyStr.one_of "[]") (PyStr.of_Z z +:+ t)
                      = PyStr.of_Z z +:+ t) as Hl.
  { intros z t. apply lstrip_keep.
    pose proof (of_Z_numeral z) as Hnum. pose proof (of_Z_nonempty z) as Hne.
    destruct (PyStr.of_Z z) as [|c r]; [done |]. rewrite append_cons.
    simpl in Hnum. apply andb_true_iff in Hnum as [Hc _].
    destruct (PyStr.one_of "[]" c) eqn:Hb; [| done].
    unfold PyStr.one_of in Hb. simpl in Hb.
    rewrite orb_false_r in Hb. apply orb_true_iff in Hb as [Hb | Hb];
      apply Ascii.eqb_eq in Hb; subst c; done. }
  rewrite Hl.
  assert (PyStr.rstrip (PyStr.one_of "[]") (PyStr.of_Z y2 +:+ "]") = PyStr.of_Z y2) as Hr.
  { apply rstrip_drop; [| done].
    apply (all_chars_weaken numeral_char); [| apply of_Z_numeral].
    intros c Hc. apply negb_true_iff.
    destruct (PyStr.one_of "[]" c) eqn:Hb; [| done].
    unfold PyStr.one_of in Hb. simpl in Hb.
    rewrite orb_false_r in Hb. apply orb_true_iff in Hb as [Hb | Hb];
      apply Ascii.eqb_eq in Hb; subst c; done. }
  rewrite <- !append_assoc.
  rewrite (append_assoc _ (PyStr.of_Z y2) "]").
  rewrite rstrip_append; rewrite Hr; [| apply of_Z_nonempty].
  by rewrite !append_assoc.
Qed.

Lemma center_of_bounds (x1 y1 x2 y2 : Z) :
  center_of (bounds_string x1 y1 x2 y2)
  = Ok (PyTuple [(x1 + x2) / 2; (y1 + y2) / 2]).
Proof.
  unfold center_of. rewrite strip_bounds. unfold PyStr.split.
  assert (forall x y c0, numeral_char c0 = false -> PyStr.is_char c0 "," = false ->
            all_chars (fun c => negb (PyStr.is_char c0 c))
              (PyStr.of_Z x +:+ "," +:+ PyStr.of_Z y) = true) as Hfield.
  { intros x y c0 Hc0 Hcomma. rewrite !all_chars_append.
    rewrite (numeral_not c0 (PyStr.of_Z x)), (numeral_not c0 (PyStr.of_Z y))
      by (done || apply of_Z_numeral).
    simpl. by rewrite Hcomma. }
  rewrite split_go_field by (by apply Hfield).
  change ("][" +:+ ?s) with (String "]" (String "[" s)).
  cbn [PyStr.split_go PyStr.startswith]. change (Ascii.eqb "]" "]") with true.
  change (Ascii.eqb "[" "[") with true.
  cbn [andb String.length Nat.sub].
  rewrite split_go_last by (by apply Hfield).
  rewrite append_nil_r, !int_pair_of_Z. done.
Qed.

(** ** The locator step by step *)

Arguments _sanitize_activity_name : simpl never.
Arguments cache_file_name : simpl never.
Arguments screen_of : simpl never.
Arguments _get_element_key : simpl never.

Ltac run :=
  unfold mbind, M_bind, mret, M_ret, modify, get, lift, raise; cbn beta iota.

Lemma get_current_activity_eq (env : Env) (c : Controller) :
  _get_current_activity env c = (Ok (screen_of env), resolved env c).
Proof.
  unfold _get_current_activity, screen_of, resolved. run.
  by destruct (scan_lines _).
Qed.

Lemma lookup_cache_eq (q : Query) (env : Env) (c : Controller) :
  lookup_cache q env c
  = (Ok (if use_cache c then screen_of env else "",
         if use_cache c then _get_element_key q else "",
         cached q env c),
     looked_up env c).
Proof.
  unfold lookup_cache, cached, looked_up. run.
  destruct (use_cache c) eqn:Huse; [| done].
  rewrite get_current_activity_eq.
  assert (use_cache (resolved env c) = true) as Huse'.
  { unfold resolved. by destruct (scan_lines _). }
  assert (forall s, screen_cache (resolved env c) s = screen_cache c s) as Hsame.
  { intros s. unfold resolved. by destruct (scan_lines _). }
  destruct (PyStr.truthy (screen_of env)) eqn:Ht; cbn [andb].
  - destruct (bool_decide _) eqn:Hd; cbn beta iota.
    + apply bool_decide_eq_true in Hd. do 3 f_equal.
      rewrite <- Hsame. unfold screen_cache. cbn.
      by rewrite lookup_insert_eq, Hd.
    + by rewrite Hsame.
  - done.
Qed.

Lemma resolved_fields (env : Env) (c : Controller) :
  device (resolved env c) = device c
  /\ use_cache (resolved env c) = use_cache c
  /\ disk (resolved env c) = disk c
  /\ activity_cache (resolved env c) = activity_cache c
  /\ adb_trace (resolved env c) = (adb_trace c ++ [DumpsysWindows])%list.
Proof. unfold resolved. by destruct (scan_lines _). Qed.

Lemma looked_up_fields (env : Env) (c : Controller) :
  device (looked_up env c) = device c
  /\ use_cache (looked_up env c) = use_cache c
  /\ disk (looked_up env c) = disk c
  /\ adb_trace (looked_up env c)
     = (if use_cache c then (adb_trace c ++ [DumpsysWindows])%list else adb_trace c).
Proof.
  unfold looked_up. destruct (resolved_fields env c) as (Hd & Hu & Hk & _ & Ht).
  destruct (use_cache c) eqn:Huse; [| by rewrite Huse].
  by destruct (_ && _).
Qed.

Lemma looked_up_screen_cache (env : Env) (c : Controller) (s : string) :
  screen_cache (looked_up env c) s = screen_cache c s.
Proof.
  unfold looked_up. destruct (resolved_fields env c) as (_ & _ & _ & Ha & _).
  destruct (use_cache c); [| done].
  destruct (_ && _) eqn:Hb; unfold screen_cache; cbn; rewrite Ha; [| done].
  apply andb_true_iff in Hb as [_ Hb]. apply bool_decide_eq_true in Hb.
  rewrite Ha in Hb. destruct (decide (s = screen_of env)) as [-> | Hne].
  - by rewrite lookup_insert_eq, Hb.
  - by rewrite lookup_insert_ne.
Qed.

Lemma looked_up_activity_cache (env : Env) (c : Controller) :
  use_cache c = true -> PyStr.truthy (screen_of env) = true ->
  activity_cache (looked_up env c) !! screen_of env
  = Some (screen_cache c (screen_of env)).
Proof.
  intros Huse Ht. unfold looked_up. rewrite Huse, Ht.
  destruct (resolved_fields env c) as (_ & _ & _ & Ha & _). cbn [andb].
  destruct (bool_decide _) eqn:Hb; cbn; unfold screen_cache; rewrite Ha.
  - apply bool_decide_eq_true in Hb. rewrite Ha in Hb.
    by rewrite lookup_insert_eq, Hb.
  - apply bool_decide_eq_false in Hb. rewrite Ha in Hb.
    by destruct (activity_cache c !! screen_of env).
Qed.

(** A hit: the stored value comes back and the device is asked for nothing
    but the current window. *)
Lemma find_element_hit (q : Query) (env : Env) (c : Controller) (v : pyseq) :
  cached q env c = Some v ->
  find_element q env c = (Ok (tuple v), looked_up env c).
Proof.
  intros Hv. unfold find_element. run. by rewrite lookup_cache_eq, Hv.
Qed.

Lemma get_ui_hierarchy_eq (env : Env) (c : Controller) :
  _get_ui_hierarchy env c
  = match ui_dump env with
    | DumpFails =>
        (Raise CalledProcessError,
         run_adb UiautomatorDump (set_current_activity None c))
    | PullFails =>
        (Raise CalledProcessError,
         run_adb Pull (run_adb UiautomatorDump (set_current_activity None c)))
    | Pulled (XmlFile root) => (Ok root, dumped (XmlFile root) c)
    | Pulled f => (Raise (refusal f), dumped f c)
    end.
Proof.
  unfold _get_ui_hierarchy, dumped. run.
  destruct (ui_dump env) as [| | [doc | root | | |]]; done.
Qed.

(** A miss where the search finds nothing. *)
Lemma find_element_not_found (q : Query) (env : Env) (c : Controller) (root : Element) :
  cached q env c = None ->
  ui_dump env = Pulled (XmlFile root) ->
  find env (conditions q) root = Ok None ->
  find_element q env c = (Raise ValueError, dumped (XmlFile root) (looked_up env c)).
Proof.
  intros Hmiss Hdump Hfind. unfold find_element. run.
  by rewrite lookup_cache_eq, Hmiss, get_ui_hierarchy_eq, Hdump, Hfind.
Qed.

(** A miss where the search finds [element]: its centre is the result, and
    with a screen at hand the entry is stored and the unit written. *)
Lemma find_element_found (q : Query) (env : Env) (c : Controller)
    (root element : Element) (center : pyseq) :
  cached q env c = None ->
  ui_dump env = Pulled (XmlFile root) ->
  find env (conditions q) root = Ok (Some element) ->
  center_of (default "[]" (attrib element !! "bounds")) = Ok center ->
  exists c',
    find_element q env c = (Ok center, c')
    /\ (use_cache c = true -> PyStr.truthy (screen_of env) = true ->
        activity_cache c' !! screen_of env
        = Some (<[_get_element_key q := center]> (screen_cache c (screen_of env)))
        /\ disk c' !! cache_file_name (device c) (screen_of env)
           = Some (JsonFile (items <$> <[_get_element_key q := center]>
                                          (screen_cache c (screen_of env)))))
    /\ use_cache c' = use_cache c.
Proof.
  intros Hmiss Hdump Hfind Hcenter. unfold find_element. run.
  rewrite lookup_cache_eq, Hmiss, get_ui_hierarchy_eq, Hdump, Hfind, Hcenter.
  destruct (looked_up_fields env c) as (Hdev & Huse & _ & _).
  cbn [use_cache dumped set_disk run_adb set_current_activity].
  rewrite Huse. destruct (use_cache c) eqn:Hc; cbn [andb].
  - destruct (PyStr.truthy (screen_of env)) eqn:Ht.
    + unfold _save_activity_cache. run. cbn. rewrite Huse. cbn.
      eexists. split; [reflexivity |]. cbn. split; [| done].
      intros _ _.
      assert (screen_cache (dumped (XmlFile root) (looked_up env c)) (screen_of env)
              = screen_cache c (screen_of env)) as ->.
      { by rewrite <- (looked_up_screen_cache env c). }
      assert (_sanitize_activity_name (screen_of env) = screen_of env) as ->.
      { unfold screen_of. destruct (scan_lines _); [| done].
        by rewrite sanitize_idempotent. }
      rewrite Hdev. split; apply lookup_insert_eq.
    + eexists. split; [reflexivity |]. cbn. split; [done |]. by rewrite Huse.
  - eexists. split; [reflexivity |]. cbn. split; [done |]. by rewrite Huse.
Qed.

(** ** The claims about the locator *)

Lemma center_of_tuple (bounds : string) (r : pyseq) :
  center_of bounds = Ok r -> tuple r = r.
Proof.
  unfold center_of. intros H.
  repeat match type of H with
         | match ?x with _ => _ end = _ => destruct x; try discriminate
         end.
  by injection H as <-.
Qed.

Lemma find_element_miss_inv (q : Query) (env : Env) (c c1 : Controller) (r : pyseq) :
  cached q env c = None ->
  find_element q env c = (Ok r, c1) ->
  exists root element,
    ui_dump env = Pulled (XmlFile root)
    /\ find env (conditions q) root = Ok (Some element)
    /\ center_of (default "[]" (attrib element !! "bounds")) = Ok r.
Proof.
  intros Hmiss. unfold find_element, _save_activity_cache. run.
  rewrite lookup_cache_eq, Hmiss, get_ui_hierarchy_eq.
  destruct (ui_dump env) as [| | [doc | root | | |]]; try discriminate.
  destruct (find env (conditions q) root) as [[element |] | e] eqn:Hfind;
    try discriminate.
  destruct (center_of _) as [center | e] eqn:Hcenter; [| discriminate].
  intros H. exists root, element. repeat split; try done.
  rewrite Hcenter. f_equal.
  destruct (use_cache _ && _); [destruct (negb _) |]; by injection H as <- _.
Qed.

Lemma resolver_reports (env : Env) (c : Controller) (s : string) :
  (_get_current_activity env c).1 = Ok s -> screen_of env = s.
Proof. rewrite get_current_activity_eq. by intros [= ->]. Qed.

(** C1.  Once a query was resolved on a screen, with the cache on, a second
    [find_element] for it while the resolver still reports that screen finds
    its key in the screen's cache, returns the same coordinates as the first
    call, and asks the device for the current window only: no dump is
    requested, no file is pulled, and the cache directory and every screen
    cache stay as they were. *)
Theorem cache_hit_idempotent (q : Query) (env1 env2 : Env) (c c1 : Controller)
    (screen : string) (r : pyseq) :
  use_cache c = true ->
  PyStr.truthy screen = true ->
  (_get_current_activity env1 c).1 = Ok screen ->
  find_element q env1 c = (Ok r, c1) ->
  (_get_current_activity env2 c1).1 = Ok screen ->
  exists v c2,
    screen_cache c1 screen !! _get_element_key q = Some v
    /\ r = tuple v
    /\ find_element q env2 c1 = (Ok r, c2)
    /\ adb_trace c2 = (adb_trace c1 ++ [DumpsysWindows])%list
    /\ disk c2 = disk c1
    /\ forall s, screen_cache c2 s = screen_cache c1 s.
Proof.
  intros Huse Ht Hs1 Hfirst Hs2.
  apply resolver_reports in Hs1. apply resolver_reports in Hs2.
  assert (exists v, screen_cache c1 screen !! _get_element_key q = Some v
                    /\ r = tuple v /\ use_cache c1 = true) as (v & Hv & Hr & Huse1).
  { destruct (cached q env1 c) as [v |] eqn:Hc.
    - rewrite (find_element_hit _ _ _ _ Hc) in Hfirst. injection Hfirst as <- <-.
      exists v. rewrite looked_up_screen_cache.
      destruct (looked_up_fields env1 c) as (_ & -> & _).
      unfold cached in Hc. rewrite Huse, Hs1, Ht in Hc. done.
    - destruct (find_element_miss_inv _ _ _ _ _ Hc Hfirst)
        as (root & element & Hdump & Hfind & Hcenter).
      destruct (find_element_found _ _ _ _ _ _ Hc Hdump Hfind Hcenter)
        as (c' & Heq & Hstore & Huse').
      rewrite Heq in Hfirst. injection Hfirst as <-.
      rewrite Hs1 in Hstore. destruct (Hstore Huse Ht) as [Hcache _].
      exists r. unfold screen_cache. rewrite Hcache. cbn.
      rewrite lookup_insert_eq. rewrite (center_of_tuple _ _ Hcenter).
      by rewrite Huse'. }
  assert (cached q env2 c1 = Some v) as Hhit.
  { unfold cached. by rewrite Huse1, Hs2, Ht. }
  exists v, (looked_up env2 c1). rewrite (find_element_hit _ _ _ _ Hhit), Hr.
  destruct (looked_up_fields env2 c1) as (_ & _ & Hdisk & Htrace).
  rewrite Huse1 in Htrace. repeat split; try done.
  intros s. apply looked_up_screen_cache.
Qed.

Lemma cache_hit_idempotent_witness :
  exists v c2,
    screen_cache
      (find_element (by_text "OK") (showing login_window login_screen)
         fresh).2
      "com.example_.LoginActivity" !! _get_element_key (by_text "OK") = Some v
    /\ PyTuple [20; 40] = tuple v
    /\ find_element (by_text "OK") (showing login_window empty_screen)
         (find_element (by_text "OK") (showing login_window login_screen)
            fresh).2
       = (Ok (PyTuple [20; 40]), c2)
    /\ adb_trace c2 = [DumpsysWindows; UiautomatorDump; Pull; DumpsysWindows]
    /\ disk c2
       = disk (find_element (by_text "OK") (showing login_window login_screen)
                 fresh).2
    /\ forall s, screen_cache c2 s
                 = screen_cache
                     (find_element (by_text "OK") (showing login_window login_screen)
                        fresh).2 s.
Proof.
  apply (cache_hit_idempotent (by_text "OK")
           (showing login_window login_screen) (showing login_window empty_screen)
           fresh
           (find_element (by_text "OK") (showing login_window login_screen)
              fresh).2
           "com.example_.LoginActivity" (PyTuple [20; 40]));
    vm_compute; reflexivity.
Defined.

Lemma quote_free_existsb (conds : list (string * string)) :
  quote_free conds ->
  existsb (fun '(_, v) => PyStr.contains (String dquote "") v) conds = false.
Proof.
  induction 1 as [| [a v] conds Hv _ IH]; [done |]. simpl. by rewrite Hv, IH.
Qed.

Lemma find_nothing (env : Env) (conds : list (string * string)) (root : Element) :
  (length conds <= 1)%nat -> quote_free conds ->
  (forall n, n ∈ descendant_nodes root -> ~ satisfies conds n) ->
  find env conds root = Ok None.
Proof.
  intros Hlen Hq Hnone. unfold find. rewrite quote_free_existsb by done.
  destruct conds as [| [a v] [| cond conds]]; [| | simpl in Hlen; lia].
  - destruct (descendant_nodes root) as [| n nodes]; [done |].
    destruct (Hnone n); [left | constructor].
  - destruct (filter _ _) as [| n nodes] eqn:Hf; [done |].
    assert (n ∈ filter (has_attribute a v) (descendant_nodes root)) as Hin
      by (rewrite Hf; left).
    apply list_elem_of_filter in Hin as [Hattr Hin].
    destruct (Hnone n Hin). by repeat constructor.
Qed.

Lemma dumped_disk (f : file) (c : Controller) (name : string) :
  name <> "temp_ui.xml" -> disk (dumped f c) !! name = disk c !! name.
Proof. intros Hne. unfold dumped. cbn. by rewrite lookup_insert_ne. Qed.

(** C2, as the code has it.  When the query has at most one predicate, is
    not answered from the cache (the cache is off, no screen is resolved, or
    the screen's cache has no entry under its key) and no node of the dump
    meets it, [find_element] raises [ValueError], [check_element_exists]
    returns [False], no screen cache gets an entry, and no file of the cache
    directory but the scratch dump [temp_ui.xml] changes. *)
Theorem not_found_on_miss (q : Query) (env : Env) (c : Controller) (root : Element) :
  (length (conditions q) <= 1)%nat ->
  quote_free (conditions q) ->
  cached q env c = None ->
  ui_dump env = Pulled (XmlFile root) ->
  (forall n, n ∈ descendant_nodes root -> ~ satisfies (conditions q) n) ->
  exists c',
    find_element q env c = (Raise ValueError, c')
    /\ check_element_exists q env c = (Ok false, c')
    /\ (forall s, screen_cache c' s = screen_cache c s)
    /\ (forall name, name <> "temp_ui.xml" -> disk c' !! name = disk c !! name).
Proof.
  intros Hlen Hq Hmiss Hdump Hnone.
  pose proof (find_nothing env _ root Hlen Hq Hnone) as Hfind.
  pose proof (find_element_not_found q env c root Hmiss Hdump Hfind) as Heq.
  eexists. split; [exact Heq |]. split; [| split].
  - unfold check_element_exists. by rewrite Heq.
  - intros s. rewrite <- (looked_up_screen_cache env c s). done.
  - intros name Hne. rewrite dumped_disk by done.
    by destruct (looked_up_fields env c) as (_ & _ & -> & _).
Qed.

Lemma not_found_on_miss_witness :
  exists c',
    find_element (by_text "OK") (showing login_window empty_screen)
      fresh = (Raise ValueError, c')
    /\ check_element_exists (by_text "OK") (showing login_window empty_screen)
         fresh = (Ok false, c')
    /\ (forall s, screen_cache c' s
                  = screen_cache fresh s)
    /\ (forall name, name <> "temp_ui.xml" ->
          disk c' !! name = disk fresh !! name).
Proof.
  apply (not_found_on_miss (by_text "OK") (showing login_window empty_screen)
           fresh empty_screen).
  - vm_compute. lia.
  - repeat constructor.
  - vm_compute. reflexivity.
  - reflexivity.
  - intros n Hn. vm_compute in Hn. by apply elem_of_nil in Hn.
Defined.

(** C2, as stated, fails on a stale entry.  After the OK button of the login
    screen was located once, the button goes away; no node of the new dump
    has the text, yet [find_element] returns the coordinates it stored and
    [check_element_exists] answers [True]. *)
Lemma stale_entry_is_found :
  descendant_nodes empty_screen = []
  /\ (find_element (by_text "OK") (showing login_window empty_screen)
        (located (by_text "OK"))).1
     = Ok (PyTuple [20; 40])
  /\ (find_element (by_text "OK") (showing login_window empty_screen)
        (located (by_text "OK"))).1
     <> Raise ValueError
  /\ (check_element_exists (by_text "OK") (showing login_window empty_screen)
        (located (by_text "OK"))).1
     = Ok true.
Proof. vm_compute. done. Qed.

(** The centre of the node the search matched is what the call returns. *)
Lemma find_element_center (q : Query) (env : Env) (c : Controller)
    (root element : Element) (x1 y1 x2 y2 : Z) :
  cached q env c = None ->
  ui_dump env = Pulled (XmlFile root) ->
  find env (conditions q) root = Ok (Some element) ->
  attrib element !! "bounds" = Some (bounds_string x1 y1 x2 y2) ->
  (find_element q env c).1 = Ok (PyTuple [(x1 + x2) / 2; (y1 + y2) / 2]).
Proof.
  intros Hmiss Hdump Hfind Hbounds.
  destruct (find_element_found q env c root element
              (PyTuple [(x1 + x2) / 2; (y1 + y2) / 2]) Hmiss Hdump Hfind)
    as (c' & -> & _); [| done].
  rewrite Hbounds. apply center_of_bounds.
Qed.

(** Two predicates make a path with [and], which [Element.find] rejects:
    the call raises [SyntaxError] whatever the dump holds, and
    [check_element_exists] lets it through. *)
Example two_predicates_rejected :
  xpath (by_id_and_text "btn" "OK")
  = ".//node[@resource-id=" +:+ String dquote "btn" +:+ String dquote ""
    +:+ " and @text=" +:+ String dquote "OK" +:+ String dquote "" +:+ "]"
  /\ (find_element (by_id_and_text "btn" "OK")
        (showing login_window login_screen) fresh).1 = Raise SyntaxError
  /\ (check_element_exists (by_id_and_text "btn" "OK")
        (showing login_window login_screen) fresh).1 = Raise SyntaxError.
Proof. vm_compute. done. Qed.

(** A matched node without [bounds] makes [int] fail on the empty string:
    the call raises [ValueError] and [check_element_exists] answers [False]
    although the node is there. *)
Example node_without_bounds :
  (find_element no_predicates (showing login_window bare_screen) fresh).1
  = Raise ValueError
  /\ (check_element_exists no_predicates (showing login_window bare_screen) fresh).1
     = Ok false.
Proof. vm_compute. done. Qed.

(** C5.  When the search of [find_element] matches a node whose [bounds]
    attribute reads [[x1,y1][x2,y2]], the call returns the pair
    [((x1 + x2) // 2, (y1 + y2) // 2)], the division rounding down; so the
    box [[10,20][30,60]] gives [(20, 40)] and [[0,0][1,1]] gives [(0, 0)]. *)
Theorem midpoint_of_bounds (q : Query) (env : Env) (c : Controller)
    (root element : Element) (x1 y1 x2 y2 : Z) :
  cached q env c = None ->
  ui_dump env = Pulled (XmlFile root) ->
  find env (conditions q) root = Ok (Some element) ->
  attrib element !! "bounds" = Some (bounds_string x1 y1 x2 y2) ->
  (find_element q env c).1 = Ok (PyTuple [(x1 + x2) / 2; (y1 + y2) / 2])
  /\ center_of "[10,20][30,60]" = Ok (PyTuple [20; 40])
  /\ center_of "[0,0][1,1]" = Ok (PyTuple [0; 0]).
Proof.
  intros Hmiss Hdump Hfind Hbounds.
  split; [by apply (find_element_center q env c root element) | done].
Qed.

Lemma midpoint_of_bounds_witness :
  bounds_string 10 20 30 60 = "[10,20][30,60]"
  /\ (find_element (by_text "OK") (showing login_window login_screen) fresh).1
     = Ok (PyTuple [20; 40]).
Proof.
  split; [reflexivity |].
  apply (midpoint_of_bounds (by_text "OK") (showing login_window login_screen)
           fresh login_screen (button "OK" "[10,20][30,60]") 10 20 30 60);
    vm_compute; reflexivity.
Defined.

(** Division rounds down below zero too, as [//] does. *)
Example center_of_negative : center_of "[-5,2][0,7]" = Ok (PyTuple [-3; 4]).
Proof. reflexivity. Qed.

Lemma no_predicates_conditions (q : Query) :
  supplied (resource_id q) = None -> supplied (text q) = None ->
  supplied (class_name q) = None ->
  conditions q = [] /\ _get_element_key q = "" /\ xpath q = ".//node".
Proof.
  intros H1 H2 H3. unfold xpath, _get_element_key, conditions, condition, labelled.
  by rewrite H1, H2, H3.
Qed.

(** C10, as the code has it.  A call with no predicate (each of the three
    is [None] or empty) is not rejected: its key is the empty string and its
    path the bare [.//node].  When it is not answered from the cache and the
    first node of the dump in document order has the bounds
    [[x1,y1][x2,y2]], the call returns the midpoint of that node. *)
Theorem unconditioned_search (q : Query) (env : Env) (c : Controller)
    (root first : Element) (others : list Element) (x1 y1 x2 y2 : Z) :
  supplied (resource_id q) = None ->
  supplied (text q) = None ->
  supplied (class_name q) = None ->
  cached q env c = None ->
  ui_dump env = Pulled (XmlFile root) ->
  descendant_nodes root = first :: others ->
  attrib first !! "bounds" = Some (bounds_string x1 y1 x2 y2) ->
  _get_element_key q = ""
  /\ xpath q = ".//node"
  /\ (find_element q env c).1 = Ok (PyTuple [(x1 + x2) / 2; (y1 + y2) / 2]).
Proof.
  intros H1 H2 H3 Hmiss Hdump Hnodes Hbounds.
  destruct (no_predicates_conditions q H1 H2 H3) as (Hconds & Hkey & Hpath).
  repeat split; try done.
  apply (find_element_center q env c root first); try done.
  rewrite Hconds. unfold find. cbn [existsb]. by rewrite Hnodes.
Qed.

Lemma unconditioned_search_witness :
  _get_element_key no_predicates = ""
  /\ xpath no_predicates = ".//node"
  /\ (find_element no_predicates (showing login_window login_screen)
        fresh).1
     = Ok (PyTuple [(10 + 30) / 2; (20 + 60) / 2]).
Proof.
  apply (unconditioned_search no_predicates (showing login_window login_screen)
           fresh login_screen
           (button "OK" "[10,20][30,60]") [] 10 20 30 60);
    vm_compute; reflexivity.
Defined.

(** C10, as stated, fails once the empty key is in the screen's cache: after
    a first call without predicates on the login screen, the screen changes,
    and the second call returns the stored point, not the midpoint
    [(50, 100)] of the node that now comes first. *)
Lemma unconditioned_search_stale :
  head (descendant_nodes grown_screen) = Some (button "Cancel" "[0,0][100,200]")
  /\ center_of "[0,0][100,200]" = Ok (PyTuple [50; 100])
  /\ (find_element no_predicates (showing login_window grown_screen)
        (located no_predicates)).1
     = Ok (PyTuple [20; 40])
  /\ (find_element no_predicates (showing login_window grown_screen)
        (located no_predicates)).1
     <> Ok (PyTuple [50; 100]).
Proof. vm_compute. done. Qed.

Lemma keyword_value_elem_of (kw : keyword) (v : string) (args : list (keyword * string)) :
  NoDup (args.*1) ->
  keyword_value kw args = Some v <-> (kw, v) ∈ args.
Proof.
  induction args as [| [k w] args IH]; intros Hnd.
  - split; [done | by intros ?%elem_of_nil].
  - rewrite fmap_cons in Hnd. apply NoDup_cons in Hnd as [Hk Hnd].
    cbn [keyword_value]. destruct (decide (k = kw)) as [-> | Hne].
    + split.
      * intros [= ->]. left.
      * intros [[= ->] | Hin]%elem_of_cons; [done |].
        destruct Hk. apply list_elem_of_fmap. by exists (kw, v).
    + rewrite (IH Hnd). split.
      * by right.
      * intros [[= -> ->] | Hin]%elem_of_cons; done.
Qed.

Lemma keyword_value_perm (kw : keyword) (args1 args2 : list (keyword * string)) :
  args1 ≡ₚ args2 -> NoDup (args1.*1) ->
  keyword_value kw args1 = keyword_value kw args2.
Proof.
  intros Hp Hnd1.
  assert (NoDup (args2.*1)) as Hnd2 by (by rewrite <- Hp).
  apply option_eq. intros v.
  rewrite !keyword_value_elem_of by done. by rewrite Hp.
Qed.

(** C4.  Whatever the order in which a caller writes the keyword arguments
    of a query, the key is the same: the supplied predicates as [id=...],
    [text=...] and [class=...], in this order, joined with underscores. *)
Theorem key_is_canonical (args1 args2 : list (keyword * string)) (q1 q2 : Query) :
  args1 ≡ₚ args2 ->
  bind_keywords args1 = Some q1 ->
  bind_keywords args2 = Some q2 ->
  _get_element_key q1 = _get_element_key q2
  /\ _get_element_key q1
     = PyStr.join "_"
         (labelled "id" (keyword_value kw_resource_id args1)
          ++ labelled "text" (keyword_value kw_text args1)
          ++ labelled "class" (keyword_value kw_class_name args1)).
Proof.
  unfold bind_keywords. intros Hp H1 H2.
  destruct (bool_decide (NoDup (args1.*1))) eqn:Hnd1; [| done].
  destruct (bool_decide (NoDup (args2.*1))); [| done].
  apply bool_decide_eq_true in Hnd1.
  injection H1 as <-. injection H2 as <-.
  split; [| done].
  unfold _get_element_key. cbn [resource_id text class_name].
  by rewrite !(keyword_value_perm _ args1 args2).
Qed.

Lemma key_is_canonical_witness :
  _get_element_key
    {| resource_id := Some "btn"; text := Some "OK"; class_name := Some "Button" |}
  = _get_element_key
      {| resource_id := Some "btn"; text := Some "OK"; class_name := Some "Button" |}
  /\ _get_element_key
       {| resource_id := Some "btn"; text := Some "OK"; class_name := Some "Button" |}
     = PyStr.join "_" (["id=btn"] ++ ["text=OK"] ++ ["class=Button"]).
Proof.
  apply (key_is_canonical
           [(kw_class_name, "Button"); (kw_resource_id, "btn"); (kw_text, "OK")]
           [(kw_text, "OK"); (kw_class_name, "Button"); (kw_resource_id, "btn")]).
  - apply NoDup_Permutation.
    + by apply (bool_decide_unpack _).
    + by apply (bool_decide_unpack _).
    + intros x. rewrite !elem_of_cons, !elem_of_nil. tauto.
  - reflexivity.
  - reflexivity.
Defined.

Example key_of_three :
  _get_element_key
    {| resource_id := Some "btn"; text := Some "OK"; class_name := Some "Button" |}
  = "id=btn_text=OK_class=Button".
Proof. reflexivity. Qed.

Example key_skips_absent :
  _get_element_key {| resource_id := Some "btn"; text := Some ""; class_name := None |}
  = "id=btn".
Proof. reflexivity. Qed.

(** C9.  Sanitizing twice is sanitizing once.  So the identity the resolver
    returns is left as it is by the second sanitization in
    [_save_activity_cache], and the unit is written under the very name the
    screen's cache has in memory. *)
Theorem sanitize_twice (s : string) (env : Env) (c c' : Controller)
    (cache_data : gmap string pyseq) :
  _sanitize_activity_name (_sanitize_activity_name s) = _sanitize_activity_name s
  /\ exists activity c1,
       _get_current_activity env c = (Ok activity, c1)
       /\ _sanitize_activity_name activity = activity
       /\ _save_activity_cache activity cache_data c'
          = (Ok (),
             if use_cache c'
             then set_disk (<[cache_file_name (device c') activity
                              := JsonFile (items <$> cache_data)]> (disk c')) c'
             else c').
Proof.
  split; [apply sanitize_idempotent |].
  exists (screen_of env), (resolved env c).
  assert (_sanitize_activity_name (screen_of env) = screen_of env) as Hfix.
  { unfold screen_of. destruct (scan_lines _); [| done]. apply sanitize_idempotent. }
  split; [apply get_current_activity_eq |]. split; [done |].
  unfold _save_activity_cache. run. rewrite Hfix. by destruct (use_cache c').
Qed.

(** ** The claims about the toast monitor *)

Section MonitorFacts.
Context {W : Type}.
Implicit Types (m : Toast.Monitor W) (f : Toast.listener W).

Lemma call_listener_spec i f toast_text m :
  Toast.toast_queue (Toast.call_listener i f toast_text m) = Toast.toast_queue m
  /\ Toast.toast_listeners (Toast.call_listener i f toast_text m)
     = Toast.toast_listeners m
  /\ Toast.is_monitoring_toast (Toast.call_listener i f toast_text m)
     = Toast.is_monitoring_toast m
  /\ Toast.toast_monitor_thread (Toast.call_listener i f toast_text m)
     = Toast.toast_monitor_thread m
  /\ Toast.threads_started (Toast.call_listener i f toast_text m)
     = Toast.threads_started m
  /\ Toast.calls (Toast.call_listener i f toast_text m)
     = (Toast.calls m ++ [(i, toast_text)])%list
  /\ exists l, Toast.log (Toast.call_listener i f toast_text m)
               = (Toast.log m ++ l)%list
               /\ forall e w, f toast_text (Toast.world m) = (Some e, w) ->
                              l = [Toast.ListenerError e].
Proof.
  unfold Toast.call_listener.
  destruct (f toast_text (Toast.world m)) as [[e |] w]; cbn.
  - repeat split; try done. exists [Toast.ListenerError e].
    split; [done |]. by intros ? ? [= -> _].
  - repeat split; try done. exists []. split; [by rewrite app_nil_r | done].
Qed.

Lemma notify_spec i (ls : list (Toast.listener W)) toast_text m :
  Toast.toast_queue (Toast.notify i ls toast_text m) = Toast.toast_queue m
  /\ Toast.toast_listeners (Toast.notify i ls toast_text m)
     = Toast.toast_listeners m
  /\ Toast.is_monitoring_toast (Toast.notify i ls toast_text m)
     = Toast.is_monitoring_toast m
  /\ Toast.toast_monitor_thread (Toast.notify i ls toast_text m)
     = Toast.toast_monitor_thread m
  /\ Toast.threads_started (Toast.notify i ls toast_text m)
     = Toast.threads_started m
  /\ Toast.calls (Toast.notify i ls toast_text m)
     = (Toast.calls m ++ imap (fun j _ => ((i + j)%nat, toast_text)) ls)%list
  /\ exists l, Toast.log (Toast.notify i ls toast_text m) = (Toast.log m ++ l)%list.
Proof.
  revert i m. induction ls as [| f ls IH]; intros i m; cbn [Toast.notify].
  - repeat split; try done; [by rewrite app_nil_r | exists []; by rewrite app_nil_r].
  - destruct (IH (S i) (Toast.call_listener i f toast_text m))
      as (Hq & Hl & Hf & Ht & Hn & Hc & l2 & Hlog).
    destruct (call_listener_spec i f toast_text m)
      as (Hq' & Hl' & Hf' & Ht' & Hn' & Hc' & l1 & Hlog' & _).
    rewrite Hq, Hl, Hf, Ht, Hn, Hc, Hlog, Hq', Hl', Hf', Ht', Hn', Hc', Hlog'.
    repeat split; try done.
    + rewrite <- app_assoc. f_equal. cbn [imap app]. f_equal.
      * f_equal. lia.
      * apply imap_ext. intros j x _. cbn. f_equal. lia.
    + exists (l1 ++ l2)%list. by rewrite app_assoc.
Qed.

Lemma iteration_keeps_flag r m :
  Toast.is_monitoring_toast (Toast.iteration r m).1 = Toast.is_monitoring_toast m.
Proof.
  destruct r as [line | e]; cbn [Toast.iteration].
  - destruct (negb _); [done |].
    destruct (Toast.toast_of_line line) as [t |]; [| done]. cbn [fst].
    by destruct (notify_spec 0
                   (Toast.toast_listeners (Toast.put t (Toast.print (Toast.ToastDetected t) m)))
                   t (Toast.put t (Toast.print (Toast.ToastDetected t) m)))
      as (_ & _ & -> & _).
  - by destruct e.
Qed.

Lemma loop_head_stopped reads m :
  Toast.is_monitoring_toast m = false ->
  Toast.loop_head reads m = Toast.set_thread Toast.Finished (Toast.print Toast.ThreadStopped m).
Proof. intros H. destruct reads; cbn [Toast.loop_head]; by rewrite H. Qed.

Lemma resume_stopped r m :
  Toast.is_monitoring_toast m = false ->
  Toast.is_monitoring_toast (Toast.resume [r] m) = false
  /\ Toast.toast_monitor_thread (Toast.resume [r] m) = Toast.Finished.
Proof.
  intros H. unfold Toast.resume.
  pose proof (iteration_keeps_flag r m) as Hflag.
  destruct (Toast.iteration r m) as [m' [e |]]; cbn [fst] in Hflag.
  - done.
  - rewrite loop_head_stopped by congruence. cbn. split; [congruence | done].
Qed.

End MonitorFacts.

Lemma toast_line_nonempty (line toast_text : string) :
  Toast.toast_of_line line = Some toast_text -> PyStr.truthy line = true.
Proof. by destruct line. Qed.



(** C8.  The monitor is Running or Stopped, as its flag says.  [start] on a
    Running monitor prints a line and changes nothing else: no thread is
    started.  [start] on a Stopped monitor starts one thread and makes the
    monitor Running.  [stop] makes it Stopped, whether the nudge goes
    through or not, and a fault that leaves the loop of the listener thread
    makes it Stopped and ends the thread. *)
Theorem monitor_state_machine {W : Type} (m : Toast.Monitor W) (nudge : bool)
    (unblocking : Toast.read) (e : exn) (reads : list Toast.read) :
  (state_of m = Running \/ state_of m = Stopped)
  /\ (state_of m = Running ->
      Toast.start_toast_monitor m = Toast.print Toast.AlreadyRunning m
      /\ state_of (Toast.start_toast_monitor m) = Running
      /\ Toast.threads_started (Toast.start_toast_monitor m) = Toast.threads_started m
      /\ Toast.toast_monitor_thread (Toast.start_toast_monitor m)
         = Toast.toast_monitor_thread m)
  /\ (state_of m = Stopped ->
      state_of (Toast.start_toast_monitor m) = Running
      /\ Toast.threads_started (Toast.start_toast_monitor m)
         = S (Toast.threads_started m)
      /\ Toast.toast_monitor_thread (Toast.start_toast_monitor m) = Toast.Started)
  /\ state_of (Toast.stop_toast_monitor nudge unblocking m).2 = Stopped
  /\ (e <> UnicodeDecodeError -> e <> TimeoutExpired ->
      state_of (Toast.resume (Toast.ReadRaises e :: reads) m) = Stopped
      /\ Toast.toast_monitor_thread (Toast.resume (Toast.ReadRaises e :: reads) m)
         = Toast.Finished
      /\ Toast.ThreadException e ∈ Toast.log (Toast.resume (Toast.ReadRaises e :: reads) m)).
Proof.
  unfold state_of. split; [| split; [| split; [| split]]].
  - destruct (Toast.is_monitoring_toast m); auto.
  - unfold Toast.start_toast_monitor.
    destruct (Toast.is_monitoring_toast m) eqn:Hon; [| done]. intros _. cbn.
    by rewrite Hon.
  - unfold Toast.start_toast_monitor.
    by destruct (Toast.is_monitoring_toast m) eqn:Hon.
  - unfold Toast.stop_toast_monitor, Toast.run_thread.
    destruct m as [queue ls flag thread n cs lg w]. cbn.
    destruct thread, nudge; cbn; try done.
    match goal with
    | |- context [Toast.iteration unblocking ?m0] =>
        pose proof (iteration_keeps_flag unblocking m0) as Hflag;
        destruct (Toast.iteration unblocking m0) as [m' [e0 |]]
    end; cbn in *; [done | rewrite Hflag; cbn; by rewrite Hflag].
  - intros H1 H2. unfold Toast.resume.
    assert (Toast.iteration (Toast.ReadRaises e) m = (m, Some e)) as ->.
    { by destruct e. }
    cbn. repeat split; try done. set_solver.
Qed.

Lemma monitor_state_machine_witness :
  Toast.start_toast_monitor listening_monitor
  = Toast.print Toast.AlreadyRunning listening_monitor
  /\ Toast.threads_started (Toast.start_toast_monitor idle_monitor) = 1%nat
  /\ state_of (Toast.stop_toast_monitor true (Toast.Line toast_line) listening_monitor).2
     = Stopped
  /\ state_of (Toast.resume [Toast.ReadRaises (OtherException "OSError")] listening_monitor)
     = Stopped.
Proof.
  destruct (monitor_state_machine listening_monitor true (Toast.Line toast_line)
              (OtherException "OSError") []) as (_ & Hrun & _ & Hstop & Hfault).
  destruct (monitor_state_machine idle_monitor true (Toast.Line toast_line)
              (OtherException "OSError") []) as (_ & _ & Hidle & _).
  destruct (Hrun eq_refl) as (Heq & _).
  destruct (Hidle eq_refl) as (_ & Hn & _).
  destruct Hfault as (Hf & _); [done | done |].
  repeat split; done.
Defined.

(** *** Waiting for a toast *)

Lemma queue_get_spec (timeout : Z) (w : Toast.Waiter) :
  0 <= timeout ->
  Toast.pops (Toast.queue_get timeout w).2 = Toast.pops w
  /\ Toast.now w <= Toast.now (Toast.queue_get timeout w).2
  /\ match (Toast.queue_get timeout w).1 with
     | Some _ =>
         S (length (Toast.arrivals (Toast.queue_get timeout w).2))
         = length (Toast.arrivals w)
     | None =>
         Toast.now (Toast.queue_get timeout w).2 = Toast.now w + timeout
         /\ Toast.arrivals (Toast.queue_get timeout w).2 = Toast.arrivals w
     end.
Proof.
  intros Ht. unfold Toast.queue_get.
  destruct (Toast.arrivals w) as [| [t msg] rest] eqn:Harr; cbn.
  - repeat split; try done; lia.
  - destruct (_ || _); cbn; repeat split; try done; lia.
Qed.

Lemma wait_loop_spec (fuel : nat) (expected_text : string) (timeout start_time : Z)
    (w : Toast.Waiter) :
  start_time <= Toast.now w ->
  (length (Toast.arrivals w) + 2 <= fuel)%nat
  \/ ((1 <= fuel)%nat /\ timeout <= Toast.now w - start_time) ->
  exists answer w',
    Toast.wait_loop fuel expected_text timeout start_time w = Some (Ok answer, w')
    /\ waited expected_text timeout start_time w w' answer.
Proof.
  revert w. induction fuel as [| fuel IH]; intros w Hstart Hfuel; [lia |].
  cbn [Toast.wait_loop].
  destruct (Toast.now w - start_time <? timeout) eqn:Hlt.
  - apply Z.ltb_lt in Hlt. destruct Hfuel as [Hfuel | [_ Hdone]]; [| lia].
    assert (0 <= timeout) as Hpos by lia.
    unfold Toast.get_toast. assert ((timeout <? 0) = false) as -> by lia.
    destruct (queue_get_spec timeout w Hpos) as (Hpops & Hnow & Hget).
    destruct (Toast.queue_get timeout w) as [toast w1]. cbn [fst snd] in *.
    set (w2 := {| Toast.now := Toast.now w1; Toast.arrivals := Toast.arrivals w1;
                  Toast.pops := (Toast.pops w1 ++ [(timeout, toast)])%list |}).
    destruct (Toast.matches expected_text toast) eqn:Hm.
    + exists true, w2. split; [done |].
      exists [(timeout, toast)]. cbn. rewrite Hpops. split; [done |].
      split; [by repeat constructor |].
      destruct toast as [t |]; [| done]. cbn in Hm.
      apply andb_true_iff in Hm as [Htruthy Hin].
      by exists [], t.
    + destruct (IH w2) as (answer & w' & Hrun & made & Hmade & Hfull & Hans).
      { cbn. lia. }
      { cbn. destruct toast as [t |].
        - left. lia.
        - right. destruct Hget as [-> _]. lia. }
      exists answer, w'. split; [done |].
      exists ((timeout, toast) :: made). cbn in Hmade.
      rewrite Hmade, Hpops, <- app_assoc. split; [done |].
      split; [by constructor |].
      destruct answer.
      * destruct Hans as (earlier & t & -> & Htruthy & Hin & Hearlier).
        exists ((timeout, toast) :: earlier), t. repeat split; try done.
        by constructor.
      * destruct Hans as [Hnone Htime]. split; [by constructor | done].
  - apply Z.ltb_ge in Hlt. exists false, w. split; [done |].
    exists []. rewrite app_nil_r. repeat split; try done; lia.
Qed.

Lemma get_toast_next (timeout : Z) (w : Toast.Waiter) :
  0 <= timeout ->
  exists r w1, Toast.get_toast timeout w = (Ok r, w1) /\ next_spec timeout w r w1.
Proof.
  intros Ht. unfold Toast.get_toast, Toast.queue_get, next_spec.
  assert ((timeout <? 0) = false) as -> by lia.
  destruct (Toast.arrivals w) as [| [t msg] rest] eqn:Harr.
  - eexists _, _. split; [reflexivity |]. by cbn.
  - destruct ((t <=? Toast.now w) || (t <? Toast.now w + timeout)) eqn:Hdue.
    + eexists _, _. split; [reflexivity |]. cbn. split; [done |].
      exists t. split; [done |]. split; [| done].
      apply orb_true_iff in Hdue as [H | H]; [left | right]; lia.
    + eexists _, _. split; [reflexivity |]. cbn.
      apply orb_false_iff in Hdue as [H1 H2]. repeat split; lia.
Qed.

Lemma next_spec_functional (timeout : Z) (w : Toast.Waiter)
    (r1 r2 : option string) (w1 w2 : Toast.Waiter) :
  next_spec timeout w r1 w1 -> next_spec timeout w r2 w2 -> r1 = r2 /\ w1 = w2.
Proof.
  unfold next_spec. destruct w1 as [n1 a1 p1], w2 as [n2 a2 p2]. cbn.
  intros [Hp1 H1] [Hp2 H2].
  destruct r1 as [m1 |], r2 as [m2 |].
  - destruct H1 as (t1 & Ha1 & _ & Hn1), H2 as (t2 & Ha2 & _ & Hn2).
    rewrite Ha1 in Ha2. injection Ha2 as <- <- <-. by subst.
  - destruct H1 as (t1 & Ha1 & Hdue & _), H2 as (_ & _ & Hnone).
    rewrite Ha1 in Hnone. lia.
  - destruct H2 as (t2 & Ha2 & Hdue & _), H1 as (_ & _ & Hnone).
    rewrite Ha2 in Hnone. lia.
  - destruct H1 as (-> & -> & _), H2 as (-> & -> & _). by subst.
Qed.

Lemma waitFor_functional (expected_text : string) (timeout start_time : Z)
    (w w1 w2 : Toast.Waiter) (a1 a2 : bool) :
  waitFor_spec expected_text timeout start_time w a1 w1 ->
  waitFor_spec expected_text timeout start_time w a2 w2 ->
  a1 = a2 /\ w1 = w2.
Proof.
  intros H1. revert a2 w2.
  induction H1 as [w Hout | w w1 toast Hin Hnext Hm | w w1 w' toast answer Hin Hnext Hm _ IH];
    intros a2 w2 H2.
  - inversion H2; subst; [done | lia | lia].
  - inversion H2 as [| ? ? toast2 _ Hnext2 Hm2 | ? ? ? toast2 ? _ Hnext2 Hm2 ?]; subst;
      [lia | |].
    + by destruct (next_spec_functional _ _ _ _ _ _ Hnext Hnext2) as [_ ->].
    + destruct (next_spec_functional _ _ _ _ _ _ Hnext Hnext2) as [-> _]. congruence.
  - inversion H2 as [| ? ? toast2 _ Hnext2 Hm2 | ? ? ? toast2 ? _ Hnext2 Hm2 Hrest]; subst;
      [lia | |].
    + destruct (next_spec_functional _ _ _ _ _ _ Hnext Hnext2) as [-> _]. congruence.
    + destruct (next_spec_functional _ _ _ _ _ _ Hnext Hnext2) as [_ <-].
      by apply IH.
Qed.

(** The loop of [wait_for_toast] does what the spec's [waitFor] says. *)
Lemma wait_loop_refines (fuel : nat) (expected_text : string) (timeout start_time : Z)
    (w : Toast.Waiter) :
  start_time <= Toast.now w ->
  (length (Toast.arrivals w) + 2 <= fuel)%nat
  \/ ((1 <= fuel)%nat /\ timeout <= Toast.now w - start_time) ->
  exists answer w',
    Toast.wait_loop fuel expected_text timeout start_time w = Some (Ok answer, w')
    /\ waitFor_spec expected_text timeout start_time w answer w'.
Proof.
  revert w. induction fuel as [| fuel IH]; intros w Hstart Hfuel; [lia |].
  cbn [Toast.wait_loop].
  destruct (Toast.now w - start_time <? timeout) eqn:Hlt.
  - apply Z.ltb_lt in Hlt. destruct Hfuel as [Hfuel | [_ Hdone]]; [| lia].
    destruct (get_toast_next timeout w) as (toast & w1 & -> & Hnext); [lia |].
    destruct (Toast.matches expected_text toast) eqn:Hm.
    + exists true, w1. split; [done |]. by apply (waitFor_found _ _ _ w w1 toast).
    + destruct (IH w1) as (answer & w' & Hrun & Hspec).
      { destruct Hnext as [_ Hnext]. destruct toast as [msg |].
        - destruct Hnext as (t & _ & _ & ->). lia.
        - destruct Hnext as (_ & -> & _). lia. }
      { destruct Hnext as [_ Hnext]. destruct toast as [msg |].
        - destruct Hnext as (t & Harr & _ & _). left. rewrite Harr in Hfuel.
          simpl in Hfuel. lia.
        - destruct Hnext as (_ & Hnow & _). right. lia. }
      exists answer, w'. split; [done |].
      by apply (waitFor_again _ _ _ w w1 w' toast answer).
  - apply Z.ltb_ge in Hlt. exists false, w. split; [done |]. by constructor.
Qed.

(** What the spec's [waitFor] comes to, in terms of the pops made and the
    messages they took. *)
Lemma waitFor_facts (expected_text : string) (timeout start_time : Z)
    (w w' : Toast.Waiter) (answer : bool) :
  waitFor_spec expected_text timeout start_time w answer w' ->
  exists made popped,
    Toast.pops w' = (Toast.pops w ++ made)%list
    /\ Forall (fun p => p.1 = timeout) made
    /\ Toast.arrivals w = (popped ++ Toast.arrivals w')%list
    /\ taken made = popped.*2
    /\ (made = [] <-> timeout <= Toast.now w - start_time)
    /\ if answer then
         exists earlier toast,
           made = (earlier ++ [(timeout, Some toast)])%list
           /\ PyStr.truthy toast = true
           /\ PyStr.contains expected_text toast = true
           /\ Forall (fun p => Toast.matches expected_text p.2 = false) earlier
       else
         Forall (fun p => Toast.matches expected_text p.2 = false) made
         /\ timeout <= Toast.now w' - start_time.
Proof.
  induction 1 as [w Hout | w w1 toast Hin [Hpops Hnext] Hm
                  | w w1 w' toast answer Hin [Hpops Hnext] Hm _ IH].
  - exists [], []. rewrite app_nil_r. repeat split; try done.
  - destruct toast as [msg |]; [| done]. cbn in Hm.
    apply andb_true_iff in Hm as [Htruthy Hcontains].
    destruct Hnext as (t & Harr & _ & _).
    exists [(timeout, Some msg)], [(t, msg)]. split; [done |].
    split; [by repeat constructor |]. split; [done |]. split; [done |].
    split; [split; [done | lia] |].
    by exists [], msg.
  - destruct IH as (made & popped & Hp & Hall & Harr & Htaken & _ & Hans).
    exists ((timeout, toast) :: made),
      (match toast with Some msg => (match Toast.arrivals w with
                                     | (t, _) :: _ => [(t, msg)]
                                     | [] => []
                                     end)
                      | None => [] end ++ popped)%list.
    split; [by rewrite Hp, Hpops, <- app_assoc |].
    split; [by constructor |].
    split; [| split; [| split; [split; [done | lia] |]]].
    + destruct toast as [msg |].
      * destruct Hnext as (t & Hw & _ & _). rewrite Hw. cbn. by rewrite Harr.
      * destruct Hnext as (Hw & _ & _). cbn. by rewrite <- Hw.
    + unfold taken in *. destruct toast as [msg |]; cbn; [| done].
      destruct Hnext as (t & Hw & _ & _). rewrite Hw. cbn. by rewrite Htaken.
    + destruct answer.
      * destruct Hans as (earlier & t & -> & Htruthy & Hcontains & Hearlier).
        exists ((timeout, toast) :: earlier), t. repeat split; try done.
        by constructor.
      * destruct Hans as [Hnone Htime]. split; [by constructor | done].
Qed.



(** A toast that does not match arrives one tick before the time is up: the
    next pop waits the full ten ticks again, and the call answers [False]
    only at tick 19. *)
Example wait_for_toast_overrun :
  Toast.wait_for_toast "Welcome" 10
    {| Toast.now := 0; Toast.arrivals := [(9, "Login failed")]; Toast.pops := [] |}
  = Some (Ok false,
          {| Toast.now := 19; Toast.arrivals := [];
             Toast.pops := [(10, Some "Login failed"); (10, None)] |}).
Proof. reflexivity. Qed.

Example wait_for_toast_hit :
  Toast.wait_for_toast "failed" 10
    {| Toast.now := 0;
       Toast.arrivals := [(2, "Sending"); (4, "Login failed"); (5, "Retry")];
       Toast.pops := [] |}
  = Some (Ok true,
          {| Toast.now := 4; Toast.arrivals := [(5, "Retry")];
             Toast.pops := [(10, Some "Sending"); (10, Some "Login failed")] |}).
Proof. reflexivity. Qed.

(** ** Naming and reading cache units *)

Lemma endswith_append (p a : string) : PyStr.endswith p (a +:+ p) = true.
Proof.
  induction a as [| c a IH].
  - rewrite append_nil_l. destruct p as [| x p]; [done |].
    cbn [PyStr.endswith]. by rewrite String.eqb_refl.
  - rewrite append_cons. cbn [PyStr.endswith]. rewrite IH. apply orb_true_r.
Qed.

Lemma contains_char_cons (c d : ascii) (s : string) :
  PyStr.contains (String c "") (String d s) = false ->
  Ascii.eqb c d = false /\ PyStr.contains (String c "") s = false.
Proof.
  cbn [PyStr.contains PyStr.startswith]. rewrite andb_true_r.
  by intros [? ?]%orb_false_iff.
Qed.

Lemma startswith_exact (c : ascii) (p q dev rest : string) :
  all_chars (fun x => negb (Ascii.eqb x c)) p = true ->
  PyStr.contains (String c "") dev = false ->
  PyStr.startswith (p +:+ String c q) (dev +:+ String c rest) = true ->
  dev = p.
Proof.
  revert dev. induction p as [| a p IH]; intros dev Hp Hdev Hstart.
  - destruct dev as [| d dev]; [done |].
    apply contains_char_cons in Hdev as [Hd _].
    rewrite append_nil_l, append_cons in Hstart. cbn [PyStr.startswith] in Hstart.
    by rewrite Hd in Hstart.
  - simpl in Hp. apply andb_true_iff in Hp as [Ha Hp]. apply negb_true_iff in Ha.
    destruct dev as [| d dev].
    + rewrite append_nil_l, append_cons in Hstart. cbn [PyStr.startswith] in Hstart.
      by rewrite Ha in Hstart.
    + apply contains_char_cons in Hdev as [_ Hdev].
      rewrite !append_cons in Hstart. cbn [PyStr.startswith] in Hstart.
      apply andb_true_iff in Hstart as [Had Hstart].
      apply Ascii.eqb_eq in Had as ->. f_equal. by apply IH.
Qed.

Lemma contains_cons (old : string) (c : ascii) (s : string) :
  PyStr.contains old (String c s) = false ->
  PyStr.startswith old (String c s) = false /\ PyStr.contains old s = false.
Proof. cbn [PyStr.contains]. by intros [? ?]%orb_false_iff. Qed.

(** A match of [old] cannot begin inside [s] and run into what follows when
    the character that follows occurs nowhere in [old] after its first. *)
Lemma startswith_straddle (p s : string) (c0 : ascii) (t : string) :
  PyStr.startswith p (s +:+ String c0 t) = true ->
  PyStr.startswith p s = true \/ PyStr.one_of p c0 = true.
Proof.
  revert p. induction s as [| a s IH]; intros p Hp.
  - rewrite append_nil_l in Hp. destruct p as [| b p]; [by left |]. right.
    cbn [PyStr.startswith] in Hp. apply andb_true_iff in Hp as [Hb _].
    apply Ascii.eqb_eq in Hb as ->. unfold PyStr.one_of. cbn.
    by rewrite Ascii.eqb_refl.
  - destruct p as [| b p]; [by left |].
    rewrite append_cons in Hp. cbn [PyStr.startswith] in Hp |- *.
    apply andb_true_iff in Hp as [Hb Hp]. rewrite Hb.
    destruct (IH p Hp) as [H | H]; [by left |]. right.
    unfold PyStr.one_of in *. cbn. rewrite H. apply orb_true_r.
Qed.

Lemma remove_go_keep (o : ascii) (old' s : string) (c0 : ascii) (t : string) :
  PyStr.contains (String o old') s = false ->
  PyStr.one_of old' c0 = false ->
  PyStr.remove_go (String o old') 0 (s +:+ String c0 t)
  = s +:+ PyStr.remove_go (String o old') 0 (String c0 t).
Proof.
  intros Hs Hc0. induction s as [| a s IH]; [reflexivity |].
  apply contains_cons in Hs as [Hstart Hs].
  rewrite !append_cons. cbn [PyStr.remove_go].
  assert (PyStr.startswith (String o old') (String a (s +:+ String c0 t)) = false) as ->.
  { destruct (PyStr.startswith (String o old') (String a (s +:+ String c0 t)))
      eqn:H; [| done].
    cbn [PyStr.startswith] in H, Hstart.
    apply andb_true_iff in H as [Ho H]. rewrite Ho in Hstart. cbn [andb] in Hstart.
    apply startswith_straddle in H as [H | H]; congruence. }
  by rewrite IH.
Qed.

Lemma find_first_char (c : ascii) (a t : string) :
  PyStr.contains (String c "") a = false ->
  PyStr.find (String c "") (a +:+ String c t) = Some (String.length a).
Proof.
  induction a as [| d a IH]; intros Ha.
  - rewrite append_nil_l. cbn. by rewrite Ascii.eqb_refl.
  - apply contains_char_cons in Ha as [Hd Ha].
    rewrite append_cons. cbn [PyStr.find PyStr.startswith].
    rewrite Hd. cbn [andb]. by rewrite IH.
Qed.

Lemma take_append (a t : string) : PyStr.take (String.length a) (a +:+ t) = a.
Proof.
  induction a as [| c a IH]; [by destruct t |].
  rewrite append_cons. cbn. by rewrite IH.
Qed.

Lemma drop_append (a t : string) : PyStr.drop (String.length a) (a +:+ t) = t.
Proof.
  induction a as [| c a IH]; [by destruct t |].
  rewrite append_cons. cbn. by rewrite IH.
Qed.

Lemma cache_unit_of_name (dev activity_name : string) :
  PyStr.contains "_" dev = false ->
  dev <> "temp" ->
  PyStr.contains ".json" dev = false ->
  PyStr.contains ".json" activity_name = false ->
  cache_unit (cache_file_name dev activity_name) = Some (dev, activity_name).
Proof.
  intros Hunder Htemp Hdev Hact. unfold cache_unit, cache_file_name.
  assert (PyStr.endswith ".json" (dev +:+ "_" +:+ activity_name +:+ ".json") = true) as ->.
  { rewrite <- !append_assoc. apply endswith_append. }
  change (dev +:+ "_" +:+ activity_name +:+ ".json")
    with (dev +:+ String "_" (activity_name +:+ String "." "json")).
  assert (PyStr.startswith "temp_" (dev +:+ String "_" (activity_name +:+ String "." "json"))
          = false) as ->.
  { destruct (PyStr.startswith "temp_" _) eqn:H; [| done]. destruct Htemp.
    by apply (startswith_exact "_" "temp" "" dev (activity_name +:+ String "." "json")). }
  cbn [andb negb]. unfold PyStr.remove.
  rewrite (remove_go_keep "." "json" dev "_") by done.
  cbn [PyStr.remove_go PyStr.startswith]. change (Ascii.eqb "." "_") with false.
  cbn [andb].
  rewrite (remove_go_keep "." "json" activity_name "." "json") by done.
  change (PyStr.remove_go ".json" 0 ".json") with "".
  rewrite append_nil_r. unfold PyStr.split1.
  rewrite find_first_char by done.
  rewrite take_append.
  replace (String.length dev + String.length "_")%nat
    with (String.length (dev +:+ "_")) by apply length_append.
  change (dev +:+ String "_" activity_name) with (dev +:+ "_" +:+ activity_name).
  by rewrite <- append_assoc, drop_append.
Qed.

(** What [_preload_activity_cache] keeps for [activity_name] when exactly one
    name of the listing reads as its unit. *)
Lemma preload_unit (dev : string) (d : gmap string file) (listing : list string)
    (name activity_name : string) (doc : gmap string (list Z))
    (acc : gmap string (gmap string pyseq)) :
  cache_unit name = Some (dev, activity_name) ->
  d !! name = Some (JsonFile doc) ->
  (forall other, other ∈ listing -> other <> name ->
     cache_unit other <> Some (dev, activity_name)) ->
  foldl (preload_file dev d) acc listing !! activity_name
  = if bool_decide (name ∈ listing) then Some (PyList <$> doc) else acc !! activity_name.
Proof.
  intros Hunit Hfile. revert acc.
  induction listing as [| f listing IH]; intros acc Hothers.
  - by rewrite bool_decide_eq_false_2 by apply not_elem_of_nil.
  - cbn [foldl]. rewrite IH by (intros other Hin; apply Hothers; by right).
    destruct (decide (f = name)) as [-> | Hne].
    + rewrite (bool_decide_eq_true_2 (name ∈ name :: listing)) by left.
      destruct (bool_decide (name ∈ listing)); [done |].
      unfold preload_file. rewrite Hunit, String.eqb_refl, Hfile.
      apply lookup_insert_eq.
    + assert (preload_file dev d acc f !! activity_name = acc !! activity_name) as Hsame.
      { unfold preload_file.
        destruct (cache_unit f) as [[device_id a] |] eqn:Hf; [| done].
        destruct (String.eqb device_id dev) eqn:Hd; [| done].
        apply String.eqb_eq in Hd as ->.
        destruct (d !! f) as [[doc' | | | |] |]; try done.
        apply lookup_insert_ne. intros ->.
        by apply (Hothers f); [left | |]. }
      rewrite Hsame.
      destruct (bool_decide (name ∈ listing)) eqn:Hin.
      * apply bool_decide_eq_true in Hin.
        by rewrite bool_decide_eq_true_2 by (by right).
      * apply bool_decide_eq_false in Hin.
        rewrite bool_decide_eq_false_2; [done |].
        intros [? | ?]%elem_of_cons; done.
Qed.

(** Saving a screen cache and loading it into a new controller gives the
    same keys and coordinates back, for a device whose identifier has no
    underscore and is not [temp], when neither the identifier nor the screen
    name contains [.json], the screen name is sanitized, and no other file
    of the directory reads as the same unit. *)
Lemma round_trip_plain_serial (c : Controller) (activity_name : string)
    (cache_data : gmap string pyseq) (listing : list string) :
  use_cache c = true ->
  PyStr.contains "_" (device c) = false ->
  device c <> "temp" ->
  PyStr.contains ".json" (device c) = false ->
  PyStr.contains ".json" activity_name = false ->
  _sanitize_activity_name activity_name = activity_name ->
  cache_file_name (device c) activity_name ∈ listing ->
  (forall other, other ∈ listing ->
     other <> cache_file_name (device c) activity_name ->
     cache_unit other <> Some (device c, activity_name)) ->
  activity_cache
    (new_controller true (device c)
       (disk (_save_activity_cache activity_name cache_data c).2) listing)
    !! activity_name
  = Some (PyList <$> (items <$> cache_data)).
Proof.
  intros Huse Hunder Htemp Hdev Hact Hsan Hin Hothers.
  unfold _save_activity_cache. run. rewrite Huse, Hsan. cbn.
  rewrite (preload_unit (device c) _ listing
             (cache_file_name (device c) activity_name) activity_name
             (items <$> cache_data)).
  - by rewrite bool_decide_eq_true_2.
  - by apply cache_unit_of_name.
  - apply lookup_insert_eq.
  - done.
Qed.

(** C3, at a device whose serial has an underscore.  The controller locates
    the OK button on a phone paired over Wi-Fi and writes the unit of the
    login screen.  A new controller for the same device, reading the same
    directory, takes the unit for one of the device named by the part of
    the serial before its first underscore, and loads nothing. *)
Theorem round_trip_underscore_serial :
  activity_cache (located_on wireless_device (by_text "OK")) !! "com.example_.LoginActivity"
  = Some {["text=OK" := PyTuple [20; 40]]}
  /\ disk (located_on wireless_device (by_text "OK"))
       !! cache_file_name wireless_device "com.example_.LoginActivity"
     = Some (JsonFile {["text=OK" := [20; 40]]})
  /\ cache_unit (cache_file_name wireless_device "com.example_.LoginActivity")
     = Some ("adb-R5CN30-AbCdEf.", "adb-tls-connect._tcp_com.example_.LoginActivity")
  /\ activity_cache
       (new_controller true wireless_device
          (disk (located_on wireless_device (by_text "OK")))
          [cache_file_name wireless_device "com.example_.LoginActivity"; "temp_ui.xml"])
     = ∅.
Proof. vm_compute. done. Qed.

(** The same run on an emulator, whose serial has no underscore. *)
Example round_trip_emulator :
  activity_cache
    (new_controller true "emulator-5554" (disk (located (by_text "OK")))
       [cache_file_name "emulator-5554" "com.example_.LoginActivity"; "temp_ui.xml"])
  = {["com.example_.LoginActivity" := {["text=OK" := PyList [20; 40]]}]}.
Proof. vm_compute. done. Qed.

(** ** Further properties of the locator *)

Lemma screen_of_sanitized (env : Env) :
  _sanitize_activity_name (screen_of env) = screen_of env.
Proof.
  unfold screen_of. destruct (scan_lines _); [| done]. apply sanitize_idempotent.
Qed.

Lemma find_element_eq (q : Query) (env : Env) (c : Controller) :
  find_element q env c = find_element_paths q env c.
Proof.
  unfold find_element_paths, find_element, _save_activity_cache. run.
  rewrite lookup_cache_eq. destruct (cached q env c) as [v |]; [done |].
  rewrite get_ui_hierarchy_eq.
  destruct (ui_dump env) as [| | [doc | root | | |]]; try done.
  destruct (find env (conditions q) root) as [[element |] | e]; try done.
  destruct (center_of _) as [center | e]; [| done].
  destruct (looked_up_fields env c) as (Hdev & Huse & _ & _).
  cbn [use_cache dumped set_disk run_adb set_current_activity].
  rewrite Huse. destruct (use_cache c); cbn [andb]; [| done].
  destruct (PyStr.truthy (screen_of env)) eqn:Ht; [| done].
  cbn. rewrite Huse. cbn. by rewrite screen_of_sanitized.
Qed.

Lemma dumped_screen_cache (f : file) (c : Controller) (s : string) :
  screen_cache (dumped f c) s = screen_cache c s.
Proof. done. Qed.

Lemma stored_screen_cache (q : Query) (env : Env) (root : Element)
    (center : pyseq) (c : Controller) (s : string) :
  screen_cache (stored q env root center c) s
  = if decide (s = screen_of env)
    then <[_get_element_key q := center]> (screen_cache c s)
    else screen_cache c s.
Proof.
  unfold stored, screen_cache. cbn.
  destruct (decide (s = screen_of env)) as [-> | Hne].
  - rewrite lookup_insert_eq. cbn. f_equal.
    apply (looked_up_screen_cache env c (screen_of env)).
  - rewrite lookup_insert_ne by done. apply (looked_up_screen_cache env c s).
Qed.

(** What [find_element] leaves of a screen's cache: the cache as it was, or,
    for the current screen after a successful search, the cache with the
    new entry. *)
Lemma find_element_screen_cache (q : Query) (env : Env) (c : Controller) (s : string) :
  screen_cache (find_element q env c).2 s = screen_cache c s
  \/ (exists center,
        s = screen_of env /\ cached q env c = None
        /\ use_cache c = true /\ PyStr.truthy (screen_of env) = true
        /\ (find_element q env c).1 = Ok center
        /\ screen_cache (find_element q env c).2 s
           = <[_get_element_key q := center]> (screen_cache c s)).
Proof.
  rewrite find_element_eq. unfold find_element_paths.
  destruct (cached q env c) as [v |] eqn:Hc; cbn [fst snd].
  { left. apply looked_up_screen_cache. }
  destruct (ui_dump env) as [| | [doc | root | | |]]; cbn [fst snd];
    try (left; apply (looked_up_screen_cache env c s)).
  destruct (find env (conditions q) root) as [[element |] | e]; cbn [fst snd];
    try (left; apply (looked_up_screen_cache env c s)).
  destruct (center_of _) as [center | e]; cbn [fst snd];
    try (left; apply (looked_up_screen_cache env c s)).
  destruct (use_cache c) eqn:Huse; cbn [andb];
    [| left; apply (looked_up_screen_cache env c s)].
  destruct (PyStr.truthy (screen_of env)) eqn:Ht;
    [| left; apply (looked_up_screen_cache env c s)].
  rewrite stored_screen_cache.
  destruct (decide (s = screen_of env)) as [-> | Hne]; [| by left].
  right. by exists center.
Qed.

Lemma looked_up_other_screens (env : Env) (c : Controller) (s : string) :
  s <> screen_of env ->
  activity_cache (looked_up env c) !! s = activity_cache c !! s.
Proof.
  intros Hne. unfold looked_up.
  destruct (resolved_fields env c) as (_ & _ & _ & Ha & _).
  destruct (use_cache c); [| done].
  destruct (_ && _); cbn; rewrite ?lookup_insert_ne by done; by rewrite Ha.
Qed.

Lemma find_element_other_screens (q : Query) (env : Env) (c : Controller) (s : string) :
  s <> screen_of env ->
  activity_cache (find_element q env c).2 !! s = activity_cache c !! s.
Proof.
  intros Hne. pose proof (looked_up_other_screens env c s Hne) as Hl.
  rewrite find_element_eq. unfold find_element_paths.
  destruct (cached q env c) as [v |]; [done |].
  destruct (ui_dump env) as [| | [doc | root | | |]]; try done.
  destruct (find env (conditions q) root) as [[element |] | e]; try done.
  destruct (center_of _) as [center | e]; [| done].
  cbn [snd]. destruct (use_cache c && PyStr.truthy (screen_of env)); [| done].
  unfold stored. cbn. by rewrite lookup_insert_ne.
Qed.

(** X1.  [find_element] never drops or changes an entry of a screen cache,
    whatever it returns or raises, and it leaves the cache of every screen
    but the one the resolver reports exactly as it was, be it empty or not
    there at all.  To the cache of the screen the resolver reports it does
    nothing, or it adds the centre it returns under a key that was not
    there. *)
Theorem cache_only_grows (q : Query) (env : Env) (c : Controller) :
  (forall s key v,
     screen_cache c s !! key = Some v ->
     screen_cache (find_element q env c).2 s !! key = Some v)
  /\ (forall s,
        s <> screen_of env ->
        activity_cache (find_element q env c).2 !! s = activity_cache c !! s)
  /\ (screen_cache (find_element q env c).2 (screen_of env)
      = screen_cache c (screen_of env)
      \/ exists center,
           (find_element q env c).1 = Ok center
           /\ screen_cache c (screen_of env) !! _get_element_key q = None
           /\ screen_cache (find_element q env c).2 (screen_of env)
              = <[_get_element_key q := center]> (screen_cache c (screen_of env))).
Proof.
  assert (cached q env c = None -> use_cache c = true ->
          PyStr.truthy (screen_of env) = true ->
          screen_cache c (screen_of env) !! _get_element_key q = None) as Hkey.
  { intros Hmiss Huse Ht. unfold cached in Hmiss. by rewrite Huse, Ht in Hmiss. }
  split; [| split].
  - intros s key v Hv.
    destruct (find_element_screen_cache q env c s)
      as [-> | (center & -> & Hmiss & Huse & Ht & _ & ->)]; [done |].
    rewrite lookup_insert_ne; [done |]. intros <-.
    rewrite (Hkey Hmiss Huse Ht) in Hv. done.
  - intros s Hne. by apply find_element_other_screens.
  - destruct (find_element_screen_cache q env c (screen_of env))
      as [H | (center & _ & Hmiss & Huse & Ht & Hok & H)]; [by left |].
    right. exists center. split; [done |]. split; [by apply Hkey | done].
Qed.

Lemma cache_only_grows_witness :
  (forall s key v,
     screen_cache (located (by_text "OK")) s !! key = Some v ->
     screen_cache
       (find_element (by_text "Cancel") (showing login_window grown_screen)
          (located (by_text "OK"))).2 s !! key = Some v)
  /\ (forall s,
        s <> screen_of (showing login_window grown_screen) ->
        activity_cache
          (find_element (by_text "Cancel") (showing login_window grown_screen)
             (located (by_text "OK"))).2 !! s
        = activity_cache (located (by_text "OK")) !! s)
  /\ (screen_cache
        (find_element (by_text "Cancel") (showing login_window grown_screen)
           (located (by_text "OK"))).2 (screen_of (showing login_window grown_screen))
      = screen_cache (located (by_text "OK")) (screen_of (showing login_window grown_screen))
      \/ exists center,
           (find_element (by_text "Cancel") (showing login_window grown_screen)
              (located (by_text "OK"))).1 = Ok center
           /\ screen_cache (located (by_text "OK"))
                (screen_of (showing login_window grown_screen))
                !! _get_element_key (by_text "Cancel") = None
           /\ screen_cache
                (find_element (by_text "Cancel") (showing login_window grown_screen)
                   (located (by_text "OK"))).2
                (screen_of (showing login_window grown_screen))
              = <[_get_element_key (by_text "Cancel") := center]>
                  (screen_cache (located (by_text "OK"))
                     (screen_of (showing login_window grown_screen)))).
Proof.
  apply (cache_only_grows (by_text "Cancel") (showing login_window grown_screen)
           (located (by_text "OK"))).
Defined.

Lemma looked_up_bypass (env : Env) (c : Controller) :
  use_cache c = false \/ screen_of env = "" ->
  activity_cache (looked_up env c) = activity_cache c.
Proof.
  intros H. unfold looked_up.
  destruct (resolved_fields env c) as (_ & _ & _ & Ha & _).
  destruct (use_cache c); [| done].
  destruct H as [H | ->]; [done |]. by cbn.
Qed.

Lemma cached_bypass (q : Query) (env : Env) (c : Controller) :
  use_cache c = false \/ screen_of env = "" -> cached q env c = None.
Proof.
  unfold cached. intros [-> | ->]; [done |]. by rewrite andb_false_r.
Qed.

(** X2.  With the cache off, or when the resolver finds no screen,
    [find_element] goes to the device for a dump, and whatever comes of the
    search it leaves the in-memory cache as it was and writes no cache unit:
    only the scratch dump can change in the directory. *)
Theorem cache_bypass (q : Query) (env : Env) (c : Controller) :
  use_cache c = false \/ (_get_current_activity env c).1 = Ok "" ->
  activity_cache (find_element q env c).2 = activity_cache c
  /\ (forall name, name <> "temp_ui.xml" ->
        disk (find_element q env c).2 !! name = disk c !! name)
  /\ exists rest,
       adb_trace (find_element q env c).2
       = (adb_trace c ++ (if use_cache c then [DumpsysWindows] else [])
          ++ UiautomatorDump :: rest)%list.
Proof.
  intros H.
  assert (use_cache c = false \/ screen_of env = "") as Hby.
  { destruct H as [H | H]; [by left |]. right. by apply resolver_reports in H. }
  pose proof (looked_up_bypass env c Hby) as Ha.
  destruct (looked_up_fields env c) as (_ & _ & Hd & Ht).
  assert (use_cache c && PyStr.truthy (screen_of env) = false) as Hoff.
  { destruct Hby as [-> | ->]; [done | apply andb_false_r]. }
  rewrite find_element_eq. unfold find_element_paths.
  rewrite (cached_bypass q env c Hby), Hoff.
  destruct (ui_dump env) as [| | [doc | root | | |]]; cbn [fst snd].
  4: destruct (find env (conditions q) root) as [[element |] | e]; cbn [fst snd].
  4: destruct (center_of _) as [center | e]; cbn [fst snd].
  all: unfold dumped; cbn; rewrite ?Ha, ?Hd, ?Ht.
  all: split; [done |].
  all: split; [intros name Hne; by rewrite ?lookup_insert_ne |].
  all: destruct (use_cache c); rewrite <- ?app_assoc; cbn; eauto.
Qed.

Lemma cache_bypass_witness :
  activity_cache
    (find_element (by_text "OK") (showing "no window here" login_screen)
       (located (by_text "OK"))).2
  = activity_cache (located (by_text "OK"))
  /\ (forall name, name <> "temp_ui.xml" ->
        disk (find_element (by_text "OK") (showing "no window here" login_screen)
                (located (by_text "OK"))).2 !! name
        = disk (located (by_text "OK")) !! name)
  /\ exists rest,
       adb_trace
         (find_element (by_text "OK") (showing "no window here" login_screen)
            (located (by_text "OK"))).2
       = (adb_trace (located (by_text "OK"))
          ++ (if use_cache (located (by_text "OK")) then [DumpsysWindows] else [])
          ++ UiautomatorDump :: rest)%list.
Proof.
  apply (cache_bypass (by_text "OK") (showing "no window here" login_screen)
           (located (by_text "OK"))).
  right. vm_compute. reflexivity.
Defined.

(** X3.  A successful search with the cache on and a screen at hand stores
    the new entry in the screen's cache and writes the whole cache of the
    screen, earlier entries included, to the screen's unit: after the call
    the unit holds exactly what the cache holds in memory. *)
Theorem store_writes_whole_cache (q : Query) (env : Env) (c : Controller)
    (screen : string) (center : pyseq) :
  use_cache c = true ->
  PyStr.truthy screen = true ->
  (_get_current_activity env c).1 = Ok screen ->
  screen_cache c screen !! _get_element_key q = None ->
  (find_element q env c).1 = Ok center ->
  exists cache,
    activity_cache (find_element q env c).2 !! screen = Some cache
    /\ disk (find_element q env c).2 !! cache_file_name (device c) screen
       = Some (JsonFile (items <$> cache))
    /\ cache !! _get_element_key q = Some center
    /\ forall key v, screen_cache c screen !! key = Some v -> cache !! key = Some v.
Proof.
  intros Huse Ht Hs Hmiss Hok. apply resolver_reports in Hs. subst screen.
  assert (cached q env c = None) as Hc.
  { unfold cached. by rewrite Huse, Ht. }
  destruct (find_element q env c) as [r c'] eqn:Hrun. cbn [fst snd] in *. subst r.
  destruct (find_element_miss_inv q env c c' center Hc Hrun)
    as (root & element & Hdump & Hfind & Hcenter).
  destruct (find_element_found q env c root element center Hc Hdump Hfind Hcenter)
    as (c'' & Heq & Hstore & _).
  rewrite Hrun in Heq. injection Heq as <-.
  destruct (Hstore Huse Ht) as [Hmem Hdisk].
  eexists. split; [exact Hmem |]. split; [exact Hdisk |].
  split; [apply lookup_insert_eq |].
  intros key v Hv. rewrite lookup_insert_ne; [done |]. intros <-. congruence.
Qed.

Lemma store_writes_whole_cache_witness :
  exists cache,
    activity_cache
      (find_element (by_text "Cancel") (showing login_window grown_screen)
         (located (by_text "OK"))).2 !! "com.example_.LoginActivity" = Some cache
    /\ disk (find_element (by_text "Cancel") (showing login_window grown_screen)
               (located (by_text "OK"))).2
         !! cache_file_name (device (located (by_text "OK"))) "com.example_.LoginActivity"
       = Some (JsonFile (items <$> cache))
    /\ cache !! _get_element_key (by_text "Cancel") = Some (PyTuple [50; 100])
    /\ forall key v,
         screen_cache (located (by_text "OK")) "com.example_.LoginActivity" !! key = Some v ->
         cache !! key = Some v.
Proof.
  apply (store_writes_whole_cache (by_text "Cancel")
           (showing login_window grown_screen) (located (by_text "OK"))
           "com.example_.LoginActivity" (PyTuple [50; 100]));
    vm_compute; reflexivity.
Defined.

Lemma check_element_exists_eq (q : Query) (env : Env) (c : Controller) :
  check_element_exists q env c
  = match find_element q env c with
    | (Ok _, c') => (Ok true, c')
    | (Raise ValueError, c') => (Ok false, c')
    | (Raise e, c') => (Raise e, c')
    end.
Proof. done. Qed.

(** X4.  A matched node that has no [bounds] attribute makes the call raise
    [ValueError], the very exception that means "not found": so
    [check_element_exists] answers [False] although the node is in the dump,
    and nothing is stored for the query. *)
Theorem matched_node_without_bounds (q : Query) (env : Env) (c : Controller)
    (root element : Element) :
  cached q env c = None ->
  ui_dump env = Pulled (XmlFile root) ->
  find env (conditions q) root = Ok (Some element) ->
  attrib element !! "bounds" = None ->
  (find_element q env c).1 = Raise ValueError
  /\ (check_element_exists q env c).1 = Ok false
  /\ forall s, screen_cache (find_element q env c).2 s = screen_cache c s.
Proof.
  intros Hc Hdump Hfind Hb. rewrite check_element_exists_eq, find_element_eq.
  unfold find_element_paths. rewrite Hc, Hdump, Hfind, Hb. cbn.
  repeat split. intros s. apply (looked_up_screen_cache env c s).
Qed.

Lemma matched_node_without_bounds_witness :
  (find_element no_predicates (showing login_window bare_screen) fresh).1
  = Raise ValueError
  /\ (check_element_exists no_predicates (showing login_window bare_screen) fresh).1
     = Ok false
  /\ forall s,
       screen_cache (find_element no_predicates (showing login_window bare_screen) fresh).2 s
       = screen_cache fresh s.
Proof.
  apply (matched_node_without_bounds no_predicates (showing login_window bare_screen)
           fresh bare_screen (Elem "node" ∅ []));
    vm_compute; reflexivity.
Defined.

(** X5.  A query with two or more predicates (none holding a double quote)
    that is not answered from the cache never finds anything: the path it
    builds joins the predicates with [and], [Element.find] rejects it, and
    both [find_element] and [check_element_exists] raise [SyntaxError]
    whatever the dump holds; nothing is stored. *)
Theorem several_predicates_rejected (q : Query) (env : Env) (c : Controller)
    (root : Element) :
  (2 <= length (conditions q))%nat ->
  quote_free (conditions q) ->
  cached q env c = None ->
  ui_dump env = Pulled (XmlFile root) ->
  (find_element q env c).1 = Raise SyntaxError
  /\ (check_element_exists q env c).1 = Raise SyntaxError
  /\ forall s, screen_cache (find_element q env c).2 s = screen_cache c s.
Proof.
  intros Hlen Hq Hc Hdump.
  assert (find env (conditions q) root = Raise SyntaxError) as Hfind.
  { unfold find. rewrite quote_free_existsb by done.
    destruct (conditions q) as [| [a v] [| cond conds]]; simpl in Hlen; [lia | lia | done]. }
  rewrite check_element_exists_eq, find_element_eq.
  unfold find_element_paths. rewrite Hc, Hdump, Hfind. cbn.
  repeat split. intros s. apply (looked_up_screen_cache env c s).
Qed.

Lemma several_predicates_rejected_witness :
  (find_element (by_id_and_text "btn" "OK") (showing login_window login_screen) fresh).1
  = Raise SyntaxError
  /\ (check_element_exists (by_id_and_text "btn" "OK")
        (showing login_window login_screen) fresh).1 = Raise SyntaxError
  /\ forall s,
       screen_cache
         (find_element (by_id_and_text "btn" "OK")
            (showing login_window login_screen) fresh).2 s
       = screen_cache fresh s.
Proof.
  apply (several_predicates_rejected (by_id_and_text "btn" "OK")
           (showing login_window login_screen) fresh login_screen).
  - vm_compute. lia.
  - repeat constructor.
  - vm_compute. reflexivity.
  - reflexivity.
Defined.

(** X6.  When the dump cannot be taken, [find_element] raises the failure:
    [CalledProcessError] when the dump or the pull command fails, and
    otherwise what [ET.parse] raises for the pulled file, [ParseError] for
    text that is not well-formed XML, [ValueError] for XML declared in a
    multi-byte encoding, [LookupError] for an unknown encoding.
    [check_element_exists] lets the failure through instead of answering
    [False], except the [ValueError], which it takes for an absent element.
    No screen cache changes. *)
Theorem snapshot_failure_propagates (q : Query) (env : Env) (c : Controller) :
  cached q env c = None ->
  (forall root, ui_dump env <> Pulled (XmlFile root)) ->
  exists e,
    match ui_dump env with
    | DumpFails | PullFails => e = CalledProcessError
    | Pulled f => e = refusal f
    end
    /\ (find_element q env c).1 = Raise e
    /\ (check_element_exists q env c).1
       = match e with ValueError => Ok false | _ => Raise e end
    /\ forall s, screen_cache (find_element q env c).2 s = screen_cache c s.
Proof.
  intros Hc Hdump. rewrite check_element_exists_eq, find_element_eq.
  unfold find_element_paths. rewrite Hc.
  destruct (ui_dump env) as [| | [doc | root | | |]]; cbn.
  4: by destruct (Hdump root).
  all: eexists; split; [reflexivity |]; split; [done |]; split; [done |].
  all: intros s; apply (looked_up_screen_cache env c s).
Qed.

Lemma snapshot_failure_propagates_witness :
  exists e,
    match ui_dump {| dumpsys_windows := login_window; ui_dump := Pulled MultiByteXml;
                     etree_quoted := fun _ _ => Raise SyntaxError |} with
    | DumpFails | PullFails => e = CalledProcessError
    | Pulled f => e = refusal f
    end
    /\ (find_element (by_text "OK")
          {| dumpsys_windows := login_window; ui_dump := Pulled MultiByteXml;
             etree_quoted := fun _ _ => Raise SyntaxError |} fresh).1 = Raise e
    /\ (check_element_exists (by_text "OK")
          {| dumpsys_windows := login_window; ui_dump := Pulled MultiByteXml;
             etree_quoted := fun _ _ => Raise SyntaxError |} fresh).1
       = match e with ValueError => Ok false | _ => Raise e end
    /\ forall s,
         screen_cache
           (find_element (by_text "OK")
              {| dumpsys_windows := login_window; ui_dump := Pulled MultiByteXml;
                 etree_quoted := fun _ _ => Raise SyntaxError |} fresh).2 s
         = screen_cache fresh s.
Proof.
  apply (snapshot_failure_propagates (by_text "OK")
           {| dumpsys_windows := login_window; ui_dump := Pulled MultiByteXml;
              etree_quoted := fun _ _ => Raise SyntaxError |} fresh).
  - vm_compute. reflexivity.
  - intros root. discriminate.
Defined.

(** A dump declared in [gbk] is taken for an absent element; a failed pull
    and a dump in an unknown encoding are raised. *)
Example refused_dumps :
  (check_element_exists (by_text "OK")
     {| dumpsys_windows := login_window; ui_dump := Pulled MultiByteXml;
        etree_quoted := fun _ _ => Raise SyntaxError |} fresh).1 = Ok false
  /\ (check_element_exists (by_text "OK")
        {| dumpsys_windows := login_window; ui_dump := Pulled UnknownEncodingXml;
           etree_quoted := fun _ _ => Raise SyntaxError |} fresh).1
     = Raise (OtherException "LookupError")
  /\ (check_element_exists (by_text "OK")
        {| dumpsys_windows := login_window; ui_dump := Pulled OtherFile;
           etree_quoted := fun _ _ => Raise SyntaxError |} fresh).1 = Raise ParseError
  /\ (check_element_exists (by_text "OK")
        {| dumpsys_windows := login_window; ui_dump := PullFails;
           etree_quoted := fun _ _ => Raise SyntaxError |} fresh).1
     = Raise CalledProcessError.
Proof. vm_compute. done. Qed.

(** X7.  For a box with [x1 <= x2] and [y1 <= y2] the point computed from
    its [bounds] string lies in the box, and it is the centre up to one
    pixel, on the low side when a side has odd length. *)
Theorem center_inside_box (x1 y1 x2 y2 : Z) :
  x1 <= x2 -> y1 <= y2 ->
  exists cx cy,
    center_of (bounds_string x1 y1 x2 y2) = Ok (PyTuple [cx; cy])
    /\ x1 <= cx <= x2 /\ y1 <= cy <= y2
    /\ 0 <= (x2 - cx) - (cx - x1) <= 1
    /\ 0 <= (y2 - cy) - (cy - y1) <= 1.
Proof.
  intros Hx Hy. exists ((x1 + x2) / 2), ((y1 + y2) / 2).
  split; [apply center_of_bounds |].
  pose proof (Z.div_mod (x1 + x2) 2). pose proof (Z.mod_pos_bound (x1 + x2) 2).
  pose proof (Z.div_mod (y1 + y2) 2). pose proof (Z.mod_pos_bound (y1 + y2) 2).
  lia.
Qed.

Lemma center_inside_box_witness :
  exists cx cy,
    center_of (bounds_string 0 0 1081 2339) = Ok (PyTuple [cx; cy])
    /\ 0 <= cx <= 1081 /\ 0 <= cy <= 2339
    /\ 0 <= (1081 - cx) - (cx - 0) <= 1
    /\ 0 <= (2339 - cy) - (cy - 0) <= 1.
Proof. apply (center_inside_box 0 0 1081 2339); lia. Defined.

(** ** Further properties of the cache store *)

Lemma preload_file_sound (dev : string) (d : gmap string file) (listing : list string)
    (acc : gmap string (gmap string pyseq)) (screen : string)
    (cache : gmap string pyseq) :
  foldl (preload_file dev d) acc listing !! screen = Some cache ->
  acc !! screen = Some cache
  \/ exists name doc,
       name ∈ listing /\ cache_unit name = Some (dev, screen)
       /\ d !! name = Some (JsonFile doc) /\ cache = PyList <$> doc.
Proof.
  revert acc. induction listing as [| f listing IH]; intros acc H; [by left |].
  cbn [foldl] in H. apply IH in H as [H | (name & doc & Hin & Hrest)].
  - unfold preload_file in H.
    destruct (cache_unit f) as [[device_id a] |] eqn:Hf; [| by left].
    destruct (String.eqb device_id dev) eqn:Hd; [| by left].
    apply String.eqb_eq in Hd as ->.
    destruct (d !! f) as [[doc | | | |] |] eqn:Hfile; try by left.
    destruct (decide (a = screen)) as [-> | Hne].
    + rewrite lookup_insert_eq in H. injection H as <-.
      right. exists f, doc. repeat split; [left | done..].
    + rewrite lookup_insert_ne in H by done. by left.
  - right. exists name, doc. split; [by right | done].
Qed.

(** X8.  Whatever [_preload_activity_cache] loads for a screen is the
    content of a listed file that holds JSON, is named [*.json], does not
    begin with [temp_], and reads as a unit of this very device and screen;
    with the cache off nothing is loaded.  Units of other devices, the
    scratch dump and unreadable files never reach the cache. *)
Theorem preload_only_own_units (use : bool) (dev : string) (d : gmap string file)
    (listing : list string) (screen : string) (cache : gmap string pyseq) :
  _preload_activity_cache use dev d listing !! screen = Some cache ->
  use = true
  /\ exists name doc,
       name ∈ listing
       /\ PyStr.endswith ".json" name = true
       /\ PyStr.startswith "temp_" name = false
       /\ cache_unit name = Some (dev, screen)
       /\ d !! name = Some (JsonFile doc)
       /\ cache = PyList <$> doc.
Proof.
  unfold _preload_activity_cache. destruct use; cbn [negb]; [| done].
  intros [H | (name & doc & Hin & Hunit & Hfile & ->)]%preload_file_sound; [done |].
  split; [done |]. exists name, doc.
  assert (PyStr.endswith ".json" name && negb (PyStr.startswith "temp_" name) = true)
    as [He Hs%negb_true_iff]%andb_true_iff.
  { unfold cache_unit in Hunit. by destruct (_ && _). }
  done.
Qed.

Lemma preload_only_own_units_witness :
  true = true
  /\ exists name doc,
       name ∈ ["temp_ui.xml"; "emulator-5554_com.example_.LoginActivity.json"]
       /\ PyStr.endswith ".json" name = true
       /\ PyStr.startswith "temp_" name = false
       /\ cache_unit name = Some ("emulator-5554", "com.example_.LoginActivity")
       /\ disk (located (by_text "OK")) !! name = Some (JsonFile doc)
       /\ {["text=OK" := PyList [20; 40]]} = PyList <$> doc.
Proof.
  apply (preload_only_own_units true "emulator-5554" (disk (located (by_text "OK")))
           ["temp_ui.xml"; "emulator-5554_com.example_.LoginActivity.json"]
           "com.example_.LoginActivity" {["text=OK" := PyList [20; 40]]}).
  vm_compute. reflexivity.
Defined.

(** X9.  What a search stored survives a restart.  After a miss that located
    the element with the cache on, a new controller for the same device that
    reads the directory answers the same query on the same screen from its
    cache, with the same coordinates and without asking for a dump.  (For a
    device whose serial has no underscore, is not [temp] and, like the screen
    name, holds no [.json], and when no other listed file reads as the unit
    of the screen.) *)
Theorem stored_entry_survives_restart (q : Query) (env env' : Env) (c : Controller)
    (screen : string) (center : pyseq) (listing : list string) :
  use_cache c = true ->
  PyStr.truthy screen = true ->
  (_get_current_activity env c).1 = Ok screen ->
  screen_cache c screen !! _get_element_key q = None ->
  (find_element q env c).1 = Ok center ->
  PyStr.contains "_" (device c) = false ->
  device c <> "temp" ->
  PyStr.contains ".json" (device c) = false ->
  PyStr.contains ".json" screen = false ->
  cache_file_name (device c) screen ∈ listing ->
  (forall other, other ∈ listing ->
     other <> cache_file_name (device c) screen ->
     cache_unit other <> Some (device c, screen)) ->
  screen_of env' = screen ->
  exists c',
    find_element q env'
      (new_controller true (device c) (disk (find_element q env c).2) listing)
    = (Ok center, c')
    /\ adb_trace c' = [DumpsysWindows].
Proof.
  intros Huse Ht Hs Hmiss Hok Hunder Htemp Hdev Hact Hin Hothers Hs'.
  apply resolver_reports in Hs. subst screen.
  assert (cached q env c = None) as Hc.
  { unfold cached. by rewrite Huse, Ht. }
  destruct (find_element q env c) as [r c1] eqn:Hrun. cbn [fst snd] in *. subst r.
  destruct (find_element_miss_inv q env c c1 center Hc Hrun)
    as (root & element & Hdump & Hfind & Hcenter).
  destruct (find_element_found q env c root element center Hc Hdump Hfind Hcenter)
    as (c'' & Heq & Hstore & _).
  rewrite Hrun in Heq. injection Heq as <-.
  destruct (Hstore Huse Ht) as [_ Hdisk].
  set (n := new_controller true (device c) (disk c1) listing).
  assert (cached q env' n = Some (PyList (items center))) as Hhit.
  { unfold cached. rewrite Hs', Ht. cbn [use_cache n new_controller andb].
    unfold screen_cache. cbn [activity_cache n new_controller].
    unfold _preload_activity_cache. cbn [negb].
    rewrite (preload_unit (device c) (disk c1) listing
               (cache_file_name (device c) (screen_of env)) (screen_of env)
               (items <$> <[_get_element_key q := center]>
                            (screen_cache c (screen_of env))));
      [| by apply cache_unit_of_name | done | done].
    rewrite bool_decide_eq_true_2 by done. cbn [default from_option]. unfold id.
    by rewrite !lookup_fmap, lookup_insert_eq. }
  exists (looked_up env' n). split.
  - rewrite (find_element_hit q env' n _ Hhit). do 2 f_equal.
    apply (center_of_tuple _ _ Hcenter).
  - destruct (looked_up_fields env' n) as (_ & _ & _ & ->). done.
Qed.

Lemma stored_entry_survives_restart_witness :
  exists c',
    find_element (by_text "OK") (showing login_window empty_screen)
      (new_controller true (device fresh)
         (disk (find_element (by_text "OK") (showing login_window login_screen) fresh).2)
         ["temp_ui.xml"; "emulator-5554_com.example_.LoginActivity.json"])
    = (Ok (PyTuple [20; 40]), c')
    /\ adb_trace c' = [DumpsysWindows].
Proof.
  apply (stored_entry_survives_restart (by_text "OK")
           (showing login_window login_screen) (showing login_window empty_screen)
           fresh "com.example_.LoginActivity" (PyTuple [20; 40])
           ["temp_ui.xml"; "emulator-5554_com.example_.LoginActivity.json"]).
  1-6, 8-9: vm_compute; reflexivity.
  - vm_compute. discriminate.
  - vm_compute. right. left.
  - intros other Hin Hne. apply elem_of_cons in Hin as [-> | Hin].
    + vm_compute. discriminate.
    + apply elem_of_cons in Hin as [-> | Hin]; [by destruct Hne |].
      by apply elem_of_nil in Hin.
  - vm_compute. reflexivity.
Defined.

(** ** Further properties of the screen identity *)

Lemma sub_task_length (fuel : nat) (s : string) :
  (String.length s < fuel)%nat ->
  (String.length (Re.sub_go fuel task_id_pattern "" s) <= String.length s)%nat.
Proof.
  revert s. induction fuel as [|fuel IH]; intros s Hlen; [lia |].
  cbn [Re.sub_go].
  destruct (Re.match_here task_id_pattern Re.no_captures s) as [[rest g']|] eqn:Hm.
  - apply task_match_inv in Hm as (p & d & t & -> & Hd & ->).
    assert (String.length (PyStr.lstrip PyStr.isdigit t)
            < String.length (p +:+ String "t" (String d t)))%nat as Hlt.
    { rewrite length_append. simpl. pose proof (lstrip_length PyStr.isdigit t). lia. }
    destruct (p +:+ String "t" (String d t)) as [|c s'] eqn:Hs.
    { simpl in Hlt. lia. }
    apply Nat.ltb_lt in Hlt as Hlt'. rewrite Hlt', append_nil_l.
    specialize (IH (PyStr.lstrip PyStr.isdigit t)). lia.
  - destruct s as [|c s]; [done |].
    simpl in Hlen |- *. specialize (IH s). lia.
Qed.

Lemma legalise_legal (c : ascii) : illegal_in_filename (legalise c) = false.
Proof. unfold legalise. by destruct (illegal_in_filename c) eqn:Hc. Qed.

Lemma map_legalise_legal (s : string) :
  all_chars (fun c => negb (illegal_in_filename c)) (map_string legalise s) = true.
Proof.
  induction s as [|c s IH]; [done |]. simpl. by rewrite legalise_legal, IH.
Qed.

Lemma map_legalise_fixed (s : string) :
  all_chars (fun c => negb (illegal_in_filename c)) s = true <->
  map_string legalise s = s.
Proof.
  induction s as [|c s IH]; [done |]. simpl. rewrite andb_true_iff, IH.
  unfold legalise. split.
  - intros [Hc ->]. apply negb_true_iff in Hc. by rewrite Hc.
  - intros [= Hc Hs]. split; [| done].
    destruct (illegal_in_filename c) eqn:Hi; [| done]. by subst c.
Qed.

(** X10.  A sanitized name is fit for a file name and stable: it holds none
    of the characters the second substitution replaces (backslash, slash,
    colon, star, question mark, double quote, angle brackets, bar), no [t]
    followed by a digit is
    left in it, and it is never longer than the name it came from.  The
    names the function leaves unchanged are exactly those that already are
    like this. *)
Theorem sanitized_name_is_clean (s : string) :
  all_chars (fun c => negb (illegal_in_filename c)) (_sanitize_activity_name s) = true
  /\ task_free (_sanitize_activity_name s) = true
  /\ (String.length (_sanitize_activity_name s) <= String.length s)%nat
  /\ (_sanitize_activity_name s = s <->
      all_chars (fun c => negb (illegal_in_filename c)) s = true
      /\ task_free s = true).
Proof.
  assert (all_chars (fun c => negb (illegal_in_filename c)) (_sanitize_activity_name s)
          = true) as Hlegal.
  { rewrite sanitize_spec. apply map_legalise_legal. }
  pose proof (sanitize_task_free s) as Hfree.
  split; [done |]. split; [done |]. split.
  - rewrite sanitize_spec, map_string_length. unfold Re.sub.
    apply sub_task_length. lia.
  - split.
    + intros Heq. by rewrite Heq in Hlegal, Hfree.
    + intros [Hl Hf]. apply sanitize_fixed; [done |]. by apply map_legalise_fixed.
Qed.

Section TaskSuffix.
Context {R : Type} (k : string -> option R).

Lemma plus_digit_none (a : string) (r : string) :
  starts_digit a = false ->
  Re.plus PyStr.isdigit k (a +:+ String " " r) = None.
Proof.
  destruct a as [| d a]; [done |]. rewrite append_cons. simpl. by intros ->.
Qed.

Lemma once_t_none (a : string) (r : string) :
  task_free a = true ->
  Re.once (PyStr.is_char "t") (Re.plus PyStr.isdigit k) (a +:+ String " " r) = None.
Proof.
  destruct a as [| c a]; [done |]. rewrite append_cons. cbn [Re.once task_free].
  intros [Hc _]%andb_true_iff. apply negb_true_iff in Hc.
  destruct (PyStr.is_char "t" c); [| done].
  apply plus_digit_none. by destruct (starts_digit a).
Qed.
End TaskSuffix.

Lemma task_no_match_inside (g : Re.captures) (c : ascii) (a r : string) :
  all_chars (fun x => negb (PyStr.isspace x)) (String c a) = true ->
  task_free (String c a) = true ->
  PyStr.endswith "/" (String c a) = false ->
  Re.match_here task_id_pattern g (String c a +:+ String " " r) = None.
Proof.
  intros Hsp Hfree Hend. unfold task_id_pattern. cbn [Re.match_here].
  simpl in Hsp. apply andb_true_iff in Hsp as [Hc Hsp]. apply negb_true_iff in Hc.
  rewrite append_cons, star_skip by done.
  destruct (PyStr.is_char "/" c) eqn:Hslash.
  - apply Ascii.eqb_eq in Hslash as <-.
    cbn [Re.opt]. change (PyStr.is_char "/" "/") with true. cbv iota.
    destruct a as [| c2 a].
    { by vm_compute in Hend. }
    simpl in Hsp. apply andb_true_iff in Hsp as [Hc2 Hsp]. apply negb_true_iff in Hc2.
    rewrite append_cons, star_skip by done.
    rewrite <- append_cons, once_t_none.
    + by rewrite star_skip by done.
    + cbn [task_free] in Hfree. by apply andb_true_iff in Hfree as [_ Hfree].
  - rewrite opt_skip, star_skip by done.
    rewrite <- append_cons. by apply once_t_none.
Qed.

Lemma digits_lstrip (ds : string) :
  all_chars PyStr.isdigit ds = true -> PyStr.lstrip PyStr.isdigit ds = "".
Proof.
  induction ds as [| d ds IH]; [done |]. simpl.
  intros [Hd Hds]%andb_true_iff. rewrite Hd. by apply IH.
Qed.

Lemma sub_task_suffix (fuel : nat) (a ds : string) :
  all_chars (fun x => negb (PyStr.isspace x)) a = true ->
  task_free a = true ->
  PyStr.endswith "/" a = false ->
  ds <> "" ->
  all_chars PyStr.isdigit ds = true ->
  (String.length (a +:+ String " " (String "t" ds)) < fuel)%nat ->
  Re.sub_go fuel task_id_pattern "" (a +:+ String " " (String "t" ds)) = a.
Proof.
  intros Hsp Hfree Hend Hne Hds. revert fuel.
  induction a as [| c a IH]; intros fuel Hlen.
  - destruct fuel as [| fuel]; [lia |]. rewrite append_nil_l. cbn [Re.sub_go].
    destruct ds as [| d ds]; [done |].
    simpl in Hds. apply andb_true_iff in Hds as [Hd Hds].
    assert (Re.match_here task_id_pattern Re.no_captures
              (String " " (String "t" (String d ds)))
            = Some ("", Re.no_captures)) as ->.
    { unfold task_id_pattern. cbn [Re.match_here].
      cbn [Re.star Re.opt Re.once Re.plus].
      change (PyStr.isspace " ") with true. change (PyStr.isspace "t") with false.
      change (PyStr.is_char "/" "t") with false.
      change (PyStr.is_char "t" "t") with true. cbv iota.
      rewrite Hd, star_total by (intros ?; eexists; reflexivity).
      by rewrite digits_lstrip. }
    cbn. by destruct fuel.
  - destruct fuel as [| fuel]; [lia |]. cbn [Re.sub_go].
    rewrite task_no_match_inside by done. rewrite append_cons. f_equal.
    apply IH.
    + simpl in Hsp. by apply andb_true_iff in Hsp as [_ Hsp].
    + cbn [task_free] in Hfree. by apply andb_true_iff in Hfree as [_ Hfree].
    + cbn [PyStr.endswith] in Hend. by apply orb_false_iff in Hend as [_ Hend].
    + rewrite append_cons in Hlen. simpl in Hlen. lia.
Qed.

(** X11.  The screen identity does not depend on the task id.  For a name
    without white space that does not end in a slash and holds no [t]
    followed by a digit, appending a task id as [dumpsys] prints it (a
    space, [t] and digits) changes nothing: the name with the id is
    sanitized to what the name alone is sanitized to, which is the name with
    its illegal characters replaced by underscores. *)
Theorem task_id_is_dropped (a ds : string) :
  all_chars (fun x => negb (PyStr.isspace x)) a = true ->
  task_free a = true ->
  PyStr.endswith "/" a = false ->
  ds <> "" ->
  all_chars PyStr.isdigit ds = true ->
  _sanitize_activity_name (a +:+ " t" +:+ ds) = _sanitize_activity_name a
  /\ _sanitize_activity_name a = map_string legalise a.
Proof.
  intros Hsp Hfree Hend Hne Hds.
  assert (_sanitize_activity_name a = map_string legalise a) as Ha.
  { rewrite sanitize_spec. unfold Re.sub. rewrite sub_task_free; [done | lia | done]. }
  split; [| done]. rewrite Ha, sanitize_spec. f_equal. unfold Re.sub.
  change (" t" +:+ ds) with (String " " (String "t" ds)).
  apply sub_task_suffix; try done. lia.
Qed.

Lemma task_id_is_dropped_witness :
  _sanitize_activity_name ("com.example/.LoginActivity" +:+ " t" +:+ "45")
  = _sanitize_activity_name "com.example/.LoginActivity"
  /\ _sanitize_activity_name "com.example/.LoginActivity"
     = map_string legalise "com.example/.LoginActivity".
Proof.
  apply (task_id_is_dropped "com.example/.LoginActivity" "45");
    [vm_compute; reflexivity | vm_compute; reflexivity | vm_compute; reflexivity
    | discriminate | vm_compute; reflexivity].
Defined.

(** ** Further properties of the key *)

Lemma supplied_truthy (o : option string) (v : string) :
  supplied o = Some v -> o = Some v /\ v <> "".
Proof.
  destruct o as [s |]; [| done]. simpl. destruct s; [done |]. by intros [= <-].
Qed.

(** X12.  Among the queries with at most one predicate, the only ones whose
    search can succeed when no value holds a double quote, the key tells the
    queries apart: two of them with the same key have the same predicate, so
    they never share a cache entry. *)
Theorem key_separates_single_predicates (q1 q2 : Query) :
  (length (conditions q1) <= 1)%nat ->
  (length (conditions q2) <= 1)%nat ->
  _get_element_key q1 = _get_element_key q2 ->
  conditions q1 = conditions q2.
Proof.
  unfold _get_element_key, conditions, labelled, condition.
  destruct (supplied (resource_id q1)) as [a1 |] eqn:Ha1,
           (supplied (text q1)) as [b1 |] eqn:Hb1,
           (supplied (class_name q1)) as [c1 |] eqn:Hc1;
    cbn [app length]; intros Hlen1; try lia;
    destruct (supplied (resource_id q2)) as [a2 |] eqn:Ha2,
             (supplied (text q2)) as [b2 |] eqn:Hb2,
             (supplied (class_name q2)) as [c2 |] eqn:Hc2;
    cbn [app length PyStr.join]; intros Hlen2; try lia;
    repeat match goal with
           | H : supplied _ = Some _ |- _ => apply supplied_truthy in H as [_ H]
           end;
    rewrite ?append_cons, ?append_nil_l; intros Hkey;
    try discriminate; try (injection Hkey as ->; reflexivity); try done.
Qed.

Lemma key_separates_single_predicates_witness :
  conditions (by_text "OK")
  = conditions {| resource_id := Some ""; text := Some "OK"; class_name := None |}.
Proof.
  apply (key_separates_single_predicates (by_text "OK")
           {| resource_id := Some ""; text := Some "OK"; class_name := None |});
    [vm_compute; lia | vm_compute; lia | reflexivity].
Defined.

(** X13.  With more than one predicate the key is ambiguous: a resource id
    that itself reads [a_text=b] has the key of the query for resource id
    [a] and text [b] (likewise with the class), so a cached entry of the one
    answers the other. *)
Theorem key_of_joined_predicates (a b : string) (cls : option string) :
  a <> "" -> b <> "" ->
  _get_element_key
    {| resource_id := Some (a +:+ "_text=" +:+ b); text := None; class_name := cls |}
  = _get_element_key
      {| resource_id := Some a; text := Some b; class_name := cls |}.
Proof.
  intros Ha Hb. unfold _get_element_key, labelled. cbn [resource_id text class_name].
  destruct a as [| x a]; [done |]. destruct b as [| y b]; [done |].
  rewrite append_cons. cbn [supplied PyStr.truthy app].
  destruct (supplied cls) as [c |]; cbn [PyStr.join app].
  - rewrite <- !append_cons. by rewrite !append_assoc.
  - rewrite <- !append_cons. by rewrite !append_assoc.
Qed.

Lemma key_of_joined_predicates_witness :
  _get_element_key
    {| resource_id := Some ("btn" +:+ "_text=" +:+ "OK"); text := None;
       class_name := None |}
  = _get_element_key
      {| resource_id := Some "btn"; text := Some "OK"; class_name := None |}.
Proof. apply (key_of_joined_predicates "btn" "OK" None); discriminate. Defined.

(** ** Further properties of waiting on the queue *)

Lemma texts_cons (t : Z) (msg : string) (l : list (Z * string)) :
  texts ((t, msg) :: l) = if PyStr.truthy msg then msg :: texts l else texts l.
Proof.
  unfold texts. rewrite fmap_cons, filter_cons. cbn [snd].
  destruct (PyStr.truthy msg); [by rewrite decide_True | by rewrite decide_False].
Qed.

Lemma collect_loop_done (fuel : nat) (timeout start_time : Z)
    (all_toasts : list string) (w : Toast.Waiter) :
  (1 <= fuel)%nat -> timeout <= Toast.now w - start_time ->
  collect_loop fuel timeout start_time all_toasts w = Some (Ok all_toasts, w).
Proof.
  intros Hfuel Hdone. destruct fuel as [| fuel]; [lia |]. cbn [collect_loop].
  by assert ((Toast.now w - start_time <? timeout) = false) as -> by lia.
Qed.

Lemma collect_loop_spec (fuel : nat) (timeout start_time : Z)
    (all_toasts : list string) (w : Toast.Waiter) :
  start_time <= Toast.now w ->
  Toast.now w - start_time < timeout ->
  (length (Toast.arrivals w) + 2 <= fuel)%nat ->
  exists made,
    collect_loop fuel timeout start_time all_toasts w
    = Some (Ok (all_toasts ++ texts (before (start_time + timeout) (Toast.arrivals w)))%list,
            {| Toast.now := start_time + timeout;
               Toast.arrivals := from (start_time + timeout) (Toast.arrivals w);
               Toast.pops := (Toast.pops w ++ made)%list |})
    /\ Forall (fun p => 0 < p.1 <= timeout) made
    /\ taken made = (before (start_time + timeout) (Toast.arrivals w)).*2.
Proof.
  revert all_toasts w.
  induction fuel as [| fuel IH]; intros all_toasts w Hstart Hlt Hfuel; [lia |].
  cbn [collect_loop].
  assert ((Toast.now w - start_time <? timeout) = true) as -> by lia.
  unfold Toast.get_toast, Toast.queue_get.
  assert ((timeout - (Toast.now w - start_time) <? 0) = false) as -> by lia.
  replace (Toast.now w + (timeout - (Toast.now w - start_time)))
    with (start_time + timeout) by lia.
  set (remaining := timeout - (Toast.now w - start_time)).
  assert (0 < remaining <= timeout) as Hrem by (unfold remaining; lia).
  destruct (Toast.arrivals w) as [| [t msg] rest] eqn:Harr.
  - cbn. rewrite collect_loop_done by (cbn; lia).
    exists [(remaining, None)]. rewrite app_nil_r.
    split; [done |]. split; [| done]. constructor; [cbn; lia | constructor].
  - assert ((t <=? Toast.now w) || (t <? start_time + timeout) = (t <? start_time + timeout))
      as ->.
    { destruct (t <? start_time + timeout) eqn:Ht; [apply orb_true_r |].
      rewrite orb_false_r. lia. }
    cbn [before from]. destruct (t <? start_time + timeout) eqn:Ht.
    + apply Z.ltb_lt in Ht. cbn [Toast.now Toast.arrivals Toast.pops].
      destruct (IH (if PyStr.truthy msg then (all_toasts ++ [msg])%list else all_toasts)
                  {| Toast.now := Z.max (Toast.now w) t; Toast.arrivals := rest;
                     Toast.pops := (Toast.pops w ++ [(remaining, Some msg)])%list |})
        as (made & Hrun & Hmade & Htaken).
      { cbn. lia. }
      { cbn. lia. }
      { cbn. simpl in Hfuel. lia. }
      cbn [Toast.now Toast.arrivals Toast.pops] in Hrun, Htaken.
      exists ((remaining, Some msg) :: made). rewrite Hrun. split.
      { rewrite texts_cons, <- app_assoc. cbn [app].
        destruct (PyStr.truthy msg); by rewrite <- ?app_assoc. }
      split; [constructor; [cbn; lia | done] |].
      unfold taken in *. cbn. by rewrite Htaken.
    + cbn [Toast.now Toast.arrivals Toast.pops].
      rewrite collect_loop_done by (cbn; lia).
      exists [(remaining, None)]. rewrite app_nil_r.
      split; [done |]. split; [| done]. constructor; [cbn; lia | constructor].
Qed.

(** X14.  [get_all_toasts_in_time] always comes back, and with a positive
    [timeout] it comes back exactly [timeout] after the call.  It returns, in
    the order of the queue, the non-empty messages at the head of the queue
    that were put before that moment, those already waiting when the call
    began included, takes them off the queue and leaves the others.  Every
    [get_toast] it makes is given what is left of the time, never more than
    [timeout].  With [timeout] zero or negative it returns the empty list at
    once and takes nothing. *)
Theorem get_all_toasts_in_time_spec (timeout : Z) (w : Toast.Waiter) :
  exists w' made,
    get_all_toasts_in_time timeout w
    = Some (Ok (if 0 <? timeout
                then texts (before (Toast.now w + timeout) (Toast.arrivals w))
                else []), w')
    /\ Toast.pops w' = (Toast.pops w ++ made)%list
    /\ Forall (fun p => 0 < p.1 <= timeout) made
    /\ if 0 <? timeout then
         Toast.now w' = Toast.now w + timeout
         /\ Toast.arrivals w' = from (Toast.now w + timeout) (Toast.arrivals w)
         /\ taken made = (before (Toast.now w + timeout) (Toast.arrivals w)).*2
       else w' = w /\ made = [].
Proof.
  unfold get_all_toasts_in_time. destruct (0 <? timeout) eqn:Hpos.
  - apply Z.ltb_lt in Hpos.
    destruct (collect_loop_spec (2 + length (Toast.arrivals w)) timeout (Toast.now w) [] w)
      as (made & Hrun & Hmade & Htaken); [lia | lia | lia |].
    eexists _, made. split; [exact Hrun |]. cbn. done.
  - apply Z.ltb_ge in Hpos. exists w, [].
    rewrite collect_loop_done by (cbn; lia). by rewrite app_nil_r.
Qed.

Lemma wait_loop_more (fuel : nat) (expected_text : string) (timeout start_time : Z)
    (w w' : Toast.Waiter) (r : result bool) :
  Toast.wait_loop fuel expected_text timeout start_time w = Some (r, w') ->
  exists made,
    Toast.pops w' = (Toast.pops w ++ made)%list
    /\ (Toast.arrivals w).*2 = (taken made ++ (Toast.arrivals w').*2)%list
    /\ Toast.now w <= Toast.now w'
    /\ (w' = w /\ (timeout <= Toast.now w - start_time \/ timeout < 0)
        \/ Toast.now w' - start_time < 2 * timeout).
Proof.
  revert w. induction fuel as [| fuel IH]; intros w; [done |].
  cbn [Toast.wait_loop].
  destruct (Toast.now w - start_time <? timeout) eqn:Hlt.
  - apply Z.ltb_lt in Hlt. unfold Toast.get_toast.
    destruct (timeout <? 0) eqn:Hneg.
    { apply Z.ltb_lt in Hneg. intros [= <- <-]. exists [].
      rewrite app_nil_r. repeat split; try done; try lia. left. split; [done | lia]. }
    apply Z.ltb_ge in Hneg.
    assert (exists toast w1,
              Toast.queue_get timeout w = (toast, w1)
              /\ Toast.pops w1 = Toast.pops w
              /\ Toast.now w <= Toast.now w1 <= Toast.now w + timeout
              /\ (Toast.arrivals w).*2
                 = (taken [(timeout, toast)] ++ (Toast.arrivals w1).*2)%list)
      as (toast & w1 & -> & Hpops & Hnow & Harr).
    { unfold Toast.queue_get.
      destruct (Toast.arrivals w) as [| [t msg] rest] eqn:Ha.
      - eexists _, _. split; [reflexivity |]. cbn. repeat split; try done; lia.
      - destruct ((t <=? Toast.now w) || (t <? Toast.now w + timeout)) eqn:Hc.
        + eexists _, _. split; [reflexivity |]. cbn.
          apply orb_true_iff in Hc. repeat split; try done; lia.
        + eexists _, _. split; [reflexivity |]. cbn.
          repeat split; try done; lia. }
    set (w2 := {| Toast.now := Toast.now w1; Toast.arrivals := Toast.arrivals w1;
                  Toast.pops := (Toast.pops w1 ++ [(timeout, toast)])%list |}).
    destruct (Toast.matches expected_text toast).
    + intros [= <- <-]. exists [(timeout, toast)]. cbn [Toast.pops Toast.arrivals Toast.now w2].
      rewrite Hpops. repeat split; try done; lia.
    + intros Hrun. apply IH in Hrun as (made & Hp & Ha & Hn & Hb).
      cbn [Toast.pops Toast.arrivals Toast.now w2] in Hp, Ha, Hn, Hb.
      exists ((timeout, toast) :: made). rewrite Hp, Hpops, <- app_assoc.
      split; [done |]. split.
      { rewrite Harr, Ha. unfold taken. cbn. by destruct toast. }
      split; [lia |].
      right. destruct Hb as [[-> _] | Hb]; [cbn; lia | done].
  - apply Z.ltb_ge in Hlt. intros [= <- <-]. exists [].
    rewrite app_nil_r. repeat split; try done; try lia. left. split; [done | lia].
Qed.

(** X15.  [wait_for_toast] takes every message it looks at off the queue,
    whether it matches or not: the queue it began with is the messages its
    [get_toast] calls returned, in order, followed by the queue it leaves.
    With a positive [timeout] the call ends less than twice [timeout] after
    it began; with [timeout] zero or negative it answers [False] at once and
    touches nothing. *)
Theorem wait_for_toast_consumes (expected_text : string) (timeout : Z)
    (w : Toast.Waiter) :
  exists answer w' made,
    Toast.wait_for_toast expected_text timeout w = Some (Ok answer, w')
    /\ Toast.pops w' = (Toast.pops w ++ made)%list
    /\ (Toast.arrivals w).*2 = (taken made ++ (Toast.arrivals w').*2)%list
    /\ Toast.now w <= Toast.now w'
    /\ if 0 <? timeout then Toast.now w' < Toast.now w + 2 * timeout
       else answer = false /\ w' = w.
Proof.
  unfold Toast.wait_for_toast.
  destruct (wait_loop_spec (2 + length (Toast.arrivals w)) expected_text timeout
              (Toast.now w) w) as (answer & w' & Hrun & _);
    [lia | left; lia |].
  destruct (wait_loop_more _ _ _ _ _ _ _ Hrun) as (made & Hp & Ha & Hn & Hb).
  exists answer, w', made. repeat split; try done.
  destruct (0 <? timeout) eqn:Hpos.
  - apply Z.ltb_lt in Hpos. destruct Hb as [[-> _] | Hb]; lia.
  - apply Z.ltb_ge in Hpos. revert Hrun. cbn [Toast.wait_loop Nat.add].
    assert ((Toast.now w - Toast.now w <? timeout) = false) as -> by lia.
    by intros [= <- <-].
Qed.

(** ** Further properties of the monitor *)

Section StreamFacts.
Context {W : Type}.
Implicit Types (m : Toast.Monitor W) (f : Toast.listener W).

Lemma imap_seq {A} (g : nat -> nat * string) (ls : list A) (i : nat) :
  imap (fun j _ => g (i + j)%nat) ls = map g (seq i (length ls)).
Proof.
  revert i. induction ls as [| x ls IH]; intros i; [done |].
  cbn [imap length seq map]. f_equal; [f_equal; lia |].
  rewrite <- IH. apply imap_ext. intros j y _. cbn. f_equal. lia.
Qed.

Lemma iteration_benign r m :
  benign r = true ->
  exists m1,
    Toast.iteration r m = (m1, None)
    /\ Toast.toast_queue m1 = (Toast.toast_queue m ++ option_list (toast_of_read r))%list
    /\ Toast.calls m1
       = (Toast.calls m
          ++ deliveries (length (Toast.toast_listeners m)) (option_list (toast_of_read r)))%list
    /\ Toast.toast_listeners m1 = Toast.toast_listeners m
    /\ Toast.is_monitoring_toast m1 = Toast.is_monitoring_toast m
    /\ Toast.toast_monitor_thread m1 = Toast.toast_monitor_thread m
    /\ Toast.threads_started m1 = Toast.threads_started m.
Proof.
  destruct r as [line | e]; cbn [benign Toast.iteration toast_of_read].
  - intros _. destruct line as [| c line].
    { eexists. split; [reflexivity |]. cbn. by rewrite !app_nil_r. }
    cbn [PyStr.truthy negb].
    destruct (Toast.toast_of_line (String c line)) as [t |].
    + eexists. split; [reflexivity |].
      set (m0 := Toast.put t (Toast.print (Toast.ToastDetected t) m)).
      destruct (notify_spec 0 (Toast.toast_listeners m0) t m0)
        as (Hq & Hl & Hf & Ht & Hn & Hc & _).
      rewrite Hq, Hl, Hf, Ht, Hn, Hc. cbn. rewrite app_nil_r.
      repeat split; try done. f_equal.
      apply (imap_seq (fun i => (i, t)) (Toast.toast_listeners m) 0).
    + eexists. split; [reflexivity |]. cbn. by rewrite !app_nil_r.
  - destruct e; try done; intros _; eexists; (split; [reflexivity |]); cbn;
      by rewrite !app_nil_r.
Qed.

Lemma deliveries_app (n : nat) (a b : list string) :
  deliveries n (a ++ b) = (deliveries n a ++ deliveries n b)%list.
Proof. unfold deliveries. apply flat_map_app. Qed.

Lemma toasts_of_cons (r : Toast.read) (reads : list Toast.read) :
  toasts_of (r :: reads) = (option_list (toast_of_read r) ++ toasts_of reads)%list.
Proof. unfold toasts_of. cbn. by destruct (toast_of_read r). Qed.

(** The loop over a stream of benign reads: it is back at its head with the
    toasts delivered. *)
Lemma loop_head_benign (good : list Toast.read) m :
  Toast.is_monitoring_toast m = true ->
  forallb benign good = true ->
  exists m1,
    (forall rest, Toast.loop_head (good ++ rest) m = Toast.loop_head rest m1)
    /\ Toast.toast_queue m1 = (Toast.toast_queue m ++ toasts_of good)%list
    /\ Toast.calls m1
       = (Toast.calls m
          ++ deliveries (length (Toast.toast_listeners m)) (toasts_of good))%list
    /\ Toast.toast_listeners m1 = Toast.toast_listeners m
    /\ Toast.is_monitoring_toast m1 = true
    /\ Toast.toast_monitor_thread m1 = Toast.toast_monitor_thread m
    /\ Toast.threads_started m1 = Toast.threads_started m.
Proof.
  revert m. induction good as [| r good IH]; intros m Hflag Hgood.
  - exists m. cbn. by rewrite !app_nil_r.
  - cbn in Hgood. apply andb_true_iff in Hgood as [Hr Hgood].
    destruct (iteration_benign r m Hr) as (m1 & Hit & Hq & Hc & Hl & Hf & Ht & Hn).
    destruct (IH m1) as (m2 & Hrun & Hq2 & Hc2 & Hl2 & Hf2 & Ht2 & Hn2);
      [congruence | done |].
    exists m2. split.
    { intros rest. cbn [app Toast.loop_head]. by rewrite Hflag, Hit, Hrun. }
    rewrite Hq2, Hc2, Hl2, Hf2, Ht2, Hn2, Hq, Hc, Hl, Ht, Hn.
    rewrite toasts_of_cons, deliveries_app, <- !app_assoc. done.
Qed.

End StreamFacts.



(** X17.  A read that raises anything but a decode or a timeout error ends
    the listener thread for good: the toasts read before it are on the
    queue and were handed to the listeners, the reads after it are never
    looked at, the exception is logged, and the monitor is left stopped with
    its thread finished. *)
Theorem monitor_stops_at_fault {W : Type} (m : Toast.Monitor W)
    (good rest : list Toast.read) (e : exn) :
  Toast.is_monitoring_toast m = false ->
  forallb benign good = true ->
  benign (Toast.ReadRaises e) = false ->
  Toast.toast_queue
    (Toast.run_thread (good ++ Toast.ReadRaises e :: rest) (Toast.start_toast_monitor m))
  = (Toast.toast_queue m ++ toasts_of good)%list
  /\ Toast.calls
       (Toast.run_thread (good ++ Toast.ReadRaises e :: rest) (Toast.start_toast_monitor m))
     = (Toast.calls m
        ++ deliveries (length (Toast.toast_listeners m)) (toasts_of good))%list
  /\ Toast.is_monitoring_toast
       (Toast.run_thread (good ++ Toast.ReadRaises e :: rest) (Toast.start_toast_monitor m))
     = false
  /\ Toast.toast_monitor_thread
       (Toast.run_thread (good ++ Toast.ReadRaises e :: rest) (Toast.start_toast_monitor m))
     = Toast.Finished
  /\ last (Toast.log
             (Toast.run_thread (good ++ Toast.ReadRaises e :: rest)
                (Toast.start_toast_monitor m)))
     = Some (Toast.ThreadException e).
Proof.
  intros Hoff Hgood He. unfold Toast.start_toast_monitor. rewrite Hoff.
  cbn [Toast.run_thread Toast.print Toast.toast_monitor_thread
       Toast.set_is_monitoring_toast Toast.is_monitoring_toast
       Toast.toast_queue Toast.toast_listeners Toast.threads_started Toast.calls
       Toast.log Toast.world].
  unfold Toast._monitor_toast.
  match goal with
  | |- context [Toast.loop_head _ ?m0] =>
      destruct (loop_head_benign good m0) as (m1 & Hrun & Hq & Hc & Hl & Hf & Ht & Hn);
        [done | done |];
      rewrite (Hrun (Toast.ReadRaises e :: rest))
  end.
  cbn [Toast.loop_head]. rewrite Hf.
  assert (Toast.iteration (Toast.ReadRaises e) m1 = (m1, Some e)) as ->.
  { by destruct e. }
  cbn. rewrite Hq, Hc. repeat split; try done. apply last_snoc.
Qed.

Lemma monitor_stops_at_fault_witness :
  Toast.toast_queue
    (Toast.run_thread
       ([Toast.Line toast_line] ++ Toast.ReadRaises (OtherException "OSError")
          :: [Toast.Line toast_line])
       (Toast.start_toast_monitor idle_monitor))
  = (Toast.toast_queue idle_monitor ++ toasts_of [Toast.Line toast_line])%list
  /\ Toast.calls
       (Toast.run_thread
          ([Toast.Line toast_line] ++ Toast.ReadRaises (OtherException "OSError")
             :: [Toast.Line toast_line])
          (Toast.start_toast_monitor idle_monitor))
     = (Toast.calls idle_monitor
        ++ deliveries (length (Toast.toast_listeners idle_monitor))
             (toasts_of [Toast.Line toast_line]))%list
  /\ Toast.is_monitoring_toast
       (Toast.run_thread
          ([Toast.Line toast_line] ++ Toast.ReadRaises (OtherException "OSError")
             :: [Toast.Line toast_line])
          (Toast.start_toast_monitor idle_monitor))
     = false
  /\ Toast.toast_monitor_thread
       (Toast.run_thread
          ([Toast.Line toast_line] ++ Toast.ReadRaises (OtherException "OSError")
             :: [Toast.Line toast_line])
          (Toast.start_toast_monitor idle_monitor))
     = Toast.Finished
  /\ last (Toast.log
             (Toast.run_thread
                ([Toast.Line toast_line] ++ Toast.ReadRaises (OtherException "OSError")
                   :: [Toast.Line toast_line])
                (Toast.start_toast_monitor idle_monitor)))
     = Some (Toast.ThreadException (OtherException "OSError")).
Proof.
  apply (monitor_stops_at_fault idle_monitor [Toast.Line toast_line]
           [Toast.Line toast_line] (OtherException "OSError"));
    vm_compute; reflexivity.
Defined.

(** X18.  [stop_toast_monitor], when its two key events go through, always
    leaves the monitor stopped with no live thread, whatever state it was
    in.  A thread blocked in a read finishes the pass it is in: a toast on
    the line that unblocks it is still put on the queue.  A thread that had
    not yet entered its loop leaves without reading. *)
Theorem stop_joins_thread {W : Type} (m : Toast.Monitor W) (unblocking : Toast.read) :
  (Toast.stop_toast_monitor true unblocking m).1 = Ok tt
  /\ Toast.is_alive
       (Toast.toast_monitor_thread (Toast.stop_toast_monitor true unblocking m).2) = false
  /\ Toast.is_monitoring_toast (Toast.stop_toast_monitor true unblocking m).2 = false
  /\ Toast.toast_queue (Toast.stop_toast_monitor true unblocking m).2
     = (Toast.toast_queue m
        ++ match Toast.toast_monitor_thread m with
           | Toast.InReadline => option_list (toast_of_read unblocking)
           | _ => []
           end)%list
  /\ last (Toast.log (Toast.stop_toast_monitor true unblocking m).2)
     = Some Toast.MonitorStopped.
Proof.
  unfold Toast.stop_toast_monitor.
  destruct m as [queue ls flag thread n cs lg w].
  cbn [Toast.set_is_monitoring_toast Toast.toast_monitor_thread Toast.toast_queue
       Toast.toast_listeners Toast.threads_started Toast.calls Toast.log Toast.world].
  destruct thread; cbn [Toast.is_alive].
  - cbn. rewrite app_nil_r. repeat split. apply last_snoc.
  - cbn. rewrite app_nil_r. repeat split. apply last_snoc.
  - cbn -[Toast.iteration Toast.loop_head].
    match goal with
    | |- context [Toast.iteration unblocking ?m0] => set (m1 := m0)
    end.
    destruct (benign unblocking) eqn:Hb.
    + destruct (iteration_benign unblocking m1 Hb)
        as (m2 & -> & Hq & _ & _ & Hf & _ & _).
      change (Toast.is_monitoring_toast m1) with false in Hf.
      cbn [Toast.loop_head]. rewrite Hf. cbn. rewrite Hq, Hf.
      repeat split; try done. apply last_snoc.
    + destruct unblocking as [line | e]; [done |].
      assert (Toast.iteration (Toast.ReadRaises e) m1 = (m1, Some e)) as ->.
      { by destruct e. }
      cbn. rewrite app_nil_r. repeat split; try done. apply last_snoc.
  - cbn. rewrite app_nil_r. repeat split. apply last_snoc.
Qed.

(** ** Further properties of the toast parser *)

Lemma startswith_append (p rest : string) : PyStr.startswith p (p +:+ rest) = true.
Proof.
  induction p as [| c p IH]; [done |].
  rewrite append_cons. cbn. by rewrite Ascii.eqb_refl.
Qed.

(** The first occurrence of [old] in a string that has none before it,
    when the first character of [old] does not occur again in [old]. *)
Lemma find_first (o : ascii) (old' a rest : string) :
  PyStr.contains (String o old') a = false ->
  PyStr.one_of old' o = false ->
  PyStr.find (String o old') (a +:+ String o old' +:+ rest) = Some (String.length a).
Proof.
  intros Ha Ho. induction a as [| d a IH].
  - rewrite append_nil_l.
    destruct (String o old' +:+ rest) eqn:Hs.
    + by rewrite append_cons in Hs.
    + rewrite <- Hs. unfold PyStr.find. destruct (String o old' +:+ rest) eqn:Hs';
        [by rewrite append_cons in Hs' |]. rewrite <- Hs'.
      by rewrite startswith_append.
  - apply contains_cons in Ha as [Hstart Ha].
    rewrite append_cons. cbn [PyStr.find].
    assert (PyStr.startswith (String o old') (String d (a +:+ String o old' +:+ rest))
            = false) as ->.
    { destruct (PyStr.startswith (String o old') (String d (a +:+ String o old' +:+ rest)))
        eqn:H; [| done].
      cbn [PyStr.startswith] in H, Hstart.
      apply andb_true_iff in H as [Hod H]. rewrite Hod in Hstart. cbn [andb] in Hstart.
      rewrite append_cons in H.
      apply startswith_straddle in H as [H | H]; congruence. }
    by rewrite IH.
Qed.

(** X19.  On a line that holds the text of a toast as [Text: [...];], with
    no [Text: [] before it and no [];] inside the text, the parser returns
    the text without the white space around it, and nothing
    when the text is blank. *)
Theorem parse_toast_text_field (pre toast_text post : string) :
  PyStr.contains "Text: [" pre = false ->
  PyStr.contains "];" toast_text = false ->
  Toast._parse_toast_text (pre +:+ "Text: [" +:+ toast_text +:+ "];" +:+ post)
  = if PyStr.truthy (PyStr.strip PyStr.isspace toast_text)
    then Some (PyStr.strip PyStr.isspace toast_text)
    else None.
Proof.
  intros Hpre Htext. unfold Toast._parse_toast_text.
  rewrite (find_first "T" "ext: [" pre (toast_text +:+ "];" +:+ post)) by done.
  replace (String.length pre + String.length "Text: [")%nat
    with (String.length (pre +:+ "Text: [")) by apply length_append.
  rewrite <- (append_assoc pre), drop_append.
  rewrite (find_first "]" ";" toast_text post) by done.
  by rewrite take_append.
Qed.

Lemma parse_toast_text_field_witness :
  Toast._parse_toast_text
    ("EventType: TYPE_NOTIFICATION_STATE_CHANGED; " +:+ "Text: [" +:+ " Saved [1] "
     +:+ "];" +:+ " ContentDescription: null")
  = if PyStr.truthy (PyStr.strip PyStr.isspace " Saved [1] ")
    then Some (PyStr.strip PyStr.isspace " Saved [1] ")
    else None.
Proof.
  apply (parse_toast_text_field "EventType: TYPE_NOTIFICATION_STATE_CHANGED; "
           " Saved [1] " " ContentDescription: null");
    vm_compute; reflexivity.
Defined.

(** ** Saving one screen and loading the directory *)

Lemma preload_frame (dev : string) (d d' : gmap string file) (listing : list string)
    (name a s : string) (acc acc' : gmap string (gmap string pyseq)) :
  (forall other, other <> name -> d' !! other = d !! other) ->
  cache_unit name = Some (dev, a) ->
  s <> a ->
  acc' !! s = acc !! s ->
  foldl (preload_file dev d') acc' listing !! s
  = foldl (preload_file dev d) acc listing !! s.
Proof.
  intros Hsame Hunit Hne. revert acc acc'.
  induction listing as [| f listing IH]; intros acc acc' Hacc; [done |].
  cbn [foldl]. apply IH. unfold preload_file.
  destruct (decide (f = name)) as [-> | Hf].
  - rewrite Hunit, String.eqb_refl.
    destruct (d' !! name) as [[doc' | | | |] |], (d !! name) as [[doc | | | |] |];
      rewrite ?lookup_insert_ne by done; done.
  - rewrite (Hsame f Hf).
    destruct (cache_unit f) as [[device_id a'] |]; [| done].
    destruct (String.eqb device_id dev); [| done].
    destruct (d !! f) as [[doc | | | |] |]; try done.
    destruct (decide (a' = s)) as [-> | Ha].
    + by rewrite !lookup_insert_eq.
    + by rewrite !lookup_insert_ne.
Qed.

(** X20.  Saving the cache of one screen and starting a new controller on
    the directory gives that cache back, keys and coordinates (as lists),
    and changes nothing in what is loaded for any other screen.  (For a
    device whose serial has no underscore, is not [temp] and, like the
    screen name, holds no [.json]; the screen name sanitized; the unit in
    the listing and no other listed file reading as the same unit.) *)
Theorem saved_cache_reloads (c : Controller) (activity_name : string)
    (cache_data : gmap string pyseq) (listing : list string) :
  use_cache c = true ->
  PyStr.contains "_" (device c) = false ->
  device c <> "temp" ->
  PyStr.contains ".json" (device c) = false ->
  PyStr.contains ".json" activity_name = false ->
  _sanitize_activity_name activity_name = activity_name ->
  cache_file_name (device c) activity_name ∈ listing ->
  (forall other, other ∈ listing ->
     other <> cache_file_name (device c) activity_name ->
     cache_unit other <> Some (device c, activity_name)) ->
  activity_cache
    (new_controller true (device c)
       (disk (_save_activity_cache activity_name cache_data c).2) listing)
    !! activity_name
  = Some (PyList <$> (items <$> cache_data))
  /\ forall s, s <> activity_name ->
       activity_cache
         (new_controller true (device c)
            (disk (_save_activity_cache activity_name cache_data c).2) listing) !! s
       = activity_cache (new_controller true (device c) (disk c) listing) !! s.
Proof.
  intros Huse Hunder Htemp Hdev Hact Hsan Hin Hothers.
  pose proof (cache_unit_of_name (device c) activity_name Hunder Htemp Hdev Hact) as Hunit.
  unfold _save_activity_cache. run. rewrite Huse, Hsan. cbn. split.
  - rewrite (preload_unit (device c) _ listing
               (cache_file_name (device c) activity_name) activity_name
               (items <$> cache_data)); [| done | apply lookup_insert_eq | done].
    by rewrite bool_decide_eq_true_2.
  - intros s Hs.
    apply (preload_frame (device c) (disk c) _ listing
             (cache_file_name (device c) activity_name) activity_name s); try done.
    intros other Hother. by apply lookup_insert_ne.
Qed.

Lemma saved_cache_reloads_witness :
  activity_cache
    (new_controller true (device (located (by_text "OK")))
       (disk (_save_activity_cache "com.example_.Settings"
                {["text=Wi-Fi" := PyTuple [540; 300]]} (located (by_text "OK"))).2)
       ["emulator-5554_com.example_.LoginActivity.json"; "temp_ui.xml";
        "emulator-5554_com.example_.Settings.json"])
    !! "com.example_.Settings"
  = Some (PyList <$> (items <$> {["text=Wi-Fi" := PyTuple [540; 300]]}))
  /\ forall s, s <> "com.example_.Settings" ->
       activity_cache
         (new_controller true (device (located (by_text "OK")))
            (disk (_save_activity_cache "com.example_.Settings"
                     {["text=Wi-Fi" := PyTuple [540; 300]]} (located (by_text "OK"))).2)
            ["emulator-5554_com.example_.LoginActivity.json"; "temp_ui.xml";
             "emulator-5554_com.example_.Settings.json"]) !! s
       = activity_cache
           (new_controller true (device (located (by_text "OK")))
              (disk (located (by_text "OK")))
              ["emulator-5554_com.example_.LoginActivity.json"; "temp_ui.xml";
               "emulator-5554_com.example_.Settings.json"]) !! s.
Proof.
  apply (saved_cache_reloads (located (by_text "OK")) "com.example_.Settings"
           {["text=Wi-Fi" := PyTuple [540; 300]]}
           ["emulator-5554_com.example_.LoginActivity.json"; "temp_ui.xml";
            "emulator-5554_com.example_.Settings.json"]).
  1-2, 4-6: vm_compute; reflexivity.
  - vm_compute. discriminate.
  - vm_compute. right. right. left.
  - intros other Hin Hne. apply elem_of_cons in Hin as [-> | Hin].
    + vm_compute. discriminate.
    + apply elem_of_cons in Hin as [-> | Hin]; [vm_compute; discriminate |].
      apply elem_of_cons in Hin as [-> | Hin]; [by destruct Hne |].
      by apply elem_of_nil in Hin.
Defined.

(** ** The connected devices *)

Lemma rstrip_app (p : ascii -> bool) (a b : string) :
  PyStr.rstrip p (a +:+ b)
  = if PyStr.truthy (PyStr.rstrip p b) then a +:+ PyStr.rstrip p b else PyStr.rstrip p a.
Proof.
  induction a as [| c a IH].
  - rewrite !append_nil_l. by destruct (PyStr.rstrip p b).
  - rewrite append_cons. cbn [PyStr.rstrip]. rewrite IH.
    destruct (PyStr.truthy (PyStr.rstrip p b)) eqn:Hb; [| done].
    rewrite append_cons.
    destruct (a +:+ PyStr.rstrip p b) as [| y r] eqn:Hr; [| done].
    destruct a; [| by rewrite append_cons in Hr].
    rewrite append_nil_l in Hr. by rewrite Hr in Hb.
Qed.

Lemma rstrip_head (p : ascii -> bool) (c : ascii) (s : string) :
  p c = false -> PyStr.truthy (PyStr.rstrip p (String c s)) = true.
Proof. intros Hc. cbn [PyStr.rstrip]. rewrite Hc. by destruct (PyStr.rstrip p s). Qed.

Lemma token_inv (s : string) :
  token s = true ->
  s <> "" /\ all_chars (fun c => negb (PyStr.isspace c)) s = true
  /\ starts_blank s = false.
Proof.
  unfold token. intros [Hne Hall]%andb_true_iff. destruct s as [| c s]; [done |].
  repeat split; [done | done |]. simpl in Hall.
  apply andb_true_iff in Hall as [Hc _]. by apply negb_true_iff in Hc.
Qed.

Lemma words_token (u t : string) :
  token u = true -> starts_blank t = true -> words (u +:+ t) = u :: words t.
Proof.
  intros (Hne & Hall & _)%token_inv Ht. induction u as [| c u IH]; [done |].
  simpl in Hall. apply andb_true_iff in Hall as [Hc Hall]. apply negb_true_iff in Hc.
  rewrite append_cons. cbn [words]. rewrite Hc.
  destruct u as [| c' u].
  - rewrite append_nil_l, Ht. done.
  - assert (starts_blank (String c' u +:+ t) = false) as ->.
    { rewrite append_cons. simpl in Hall |- *.
      apply andb_true_iff in Hall as [Hc' _]. by apply negb_true_iff in Hc'. }
    by rewrite IH.
Qed.

Lemma line_of_words (serial state : string) :
  token serial = true -> token state = true ->
  words (line_of (serial, state)) = [serial; state].
Proof.
  intros Hs Hst. unfold line_of. cbn [fst snd].
  rewrite words_token by done. f_equal.
  change (words (String tab state)) with (words state).
  rewrite <- (append_nil_r state) at 1. by rewrite words_token.
Qed.

Lemma line_of_solid (serial state : string) :
  token serial = true -> token state = true ->
  PyStr.rstrip PyStr.isspace (line_of (serial, state)) = line_of (serial, state)
  /\ starts_blank (line_of (serial, state)) = false
  /\ all_chars dot (line_of (serial, state)) = true.
Proof.
  intros (Hne & Hall & Hb)%token_inv (Hne' & Hall' & Hb')%token_inv.
  unfold line_of. cbn [fst snd]. split; [| split].
  - rewrite rstrip_app.
    assert (PyStr.rstrip PyStr.isspace (String tab state) = String tab state) as ->.
    { cbn [PyStr.rstrip]. rewrite (rstrip_keep _ state Hall'). by destruct state. }
    done.
  - destruct serial as [| c serial]; [done |]. by rewrite append_cons.
  - assert (forall s, all_chars (fun c => negb (PyStr.isspace c)) s = true ->
                      all_chars dot s = true) as Hdot.
    { intros s. apply all_chars_weaken. intros c Hc. unfold dot.
      apply negb_true_iff. apply negb_true_iff in Hc.
      apply Ascii.eqb_neq. intros <-. done. }
    rewrite all_chars_append. cbn [all_chars]. by rewrite !Hdot.
Qed.

Lemma solid_truthy (s : string) : solid s -> PyStr.truthy s = true.
Proof. intros (_ & Hb & _). by destruct s. Qed.

Lemma join_solid (l0 : string) (ls : list string) :
  Forall solid (l0 :: ls) ->
  PyStr.rstrip PyStr.isspace (PyStr.join (String newline "") (l0 :: ls))
  = PyStr.join (String newline "") (l0 :: ls)
  /\ starts_blank (PyStr.join (String newline "") (l0 :: ls)) = false.
Proof.
  revert l0. induction ls as [| l1 ls IH]; intros l0 Hall.
  - apply Forall_cons in Hall as [(Hr & Hb & _) _]. done.
  - apply Forall_cons in Hall as [(Hr & Hb & _) Hall].
    destruct (IH l1 Hall) as [Hr' Hb'].
    change (PyStr.join (String newline "") (l0 :: l1 :: ls))
      with (l0 +:+ String newline "" +:+ PyStr.join (String newline "") (l1 :: ls)).
    split.
    + rewrite !rstrip_app, Hr'.
      destruct (PyStr.join (String newline "") (l1 :: ls)) as [| c r]; [done |].
      done.
    + destruct l0 as [| c l0]; [done |]. by rewrite append_cons.
Qed.

Lemma split_join (l0 : string) (ls : list string) :
  Forall solid (l0 :: ls) ->
  PyStr.split_go (String newline "") 0 (PyStr.join (String newline "") (l0 :: ls))
  = (l0, ls).
Proof.
  assert (forall s, all_chars dot s = true ->
            all_chars (fun c => negb (PyStr.is_char newline c)) s = true) as Hdot.
  { intros s. by apply all_chars_weaken. }
  revert l0. induction ls as [| l1 ls IH]; intros l0 Hall.
  - apply Forall_cons in Hall as [(_ & _ & Hd) _]. cbn [PyStr.join].
    by apply split_go_last, Hdot.
  - apply Forall_cons in Hall as [(_ & _ & Hd) Hall].
    change (PyStr.join (String newline "") (l0 :: l1 :: ls))
      with (l0 +:+ String newline "" +:+ PyStr.join (String newline "") (l1 :: ls)).
    rewrite split_go_field by (by apply Hdot).
    change (String newline "" +:+ ?s) with (String newline s).
    cbn [PyStr.split_go PyStr.startswith]. rewrite Ascii.eqb_refl.
    cbn [andb String.length Nat.sub]. rewrite (IH l1 Hall).
    by rewrite append_nil_r.
Qed.

Lemma strip_listing (l0 : string) (ls : list string) :
  Forall solid (l0 :: ls) ->
  PyStr.strip PyStr.isspace
    (PyStr.join (String newline "") (l0 :: ls) +:+ String newline (String newline ""))
  = PyStr.join (String newline "") (l0 :: ls).
Proof.
  intros Hall. destruct (join_solid l0 ls Hall) as [Hr Hb]. unfold PyStr.strip.
  rewrite lstrip_keep.
  - rewrite rstrip_app. by rewrite Hr.
  - destruct (PyStr.join (String newline "") (l0 :: ls)) as [| c r]; [done |].
    by rewrite append_cons.
Qed.

Lemma devices_of_entries (entries : list (string * string)) :
  forallb (fun e => token e.1 && token e.2) entries = true ->
  devices_of (map line_of entries) = Ok (ready entries).
Proof.
  unfold ready. induction entries as [| [serial state] entries IH]; [done |].
  cbn [forallb fst snd]. intros [[Hs Hst]%andb_true_iff Hall]%andb_true_iff.
  cbn [map devices_of]. rewrite (IH Hall), line_of_words by done.
  destruct (line_of_solid serial state Hs Hst) as (Hr & Hb & _).
  assert (PyStr.truthy (PyStr.strip PyStr.isspace (line_of (serial, state))) = true) as ->.
  { unfold PyStr.strip. destruct (line_of (serial, state)) as [| c r]; [done |].
    rewrite lstrip_keep by done. by apply rstrip_head. }
  rewrite filter_cons. cbn [andb].
  destruct (PyStr.contains "device" (line_of (serial, state))) eqn:Hd.
  - by rewrite decide_True.
  - by rewrite decide_False by congruence.
Qed.

Lemma listing_lines (heading : string) (entries : list (string * string)) :
  is_heading heading = true ->
  forallb (fun e => token e.1 && token e.2) entries = true ->
  Forall solid (heading :: map line_of entries).
Proof.
  unfold is_heading.
  intros [[Hd Hb%negb_true_iff]%andb_true_iff Hr%String.eqb_eq]%andb_true_iff Hall.
  constructor; [done |]. clear Hd Hb Hr.
  induction entries as [| [serial state] entries IH]; [constructor |].
  cbn [forallb fst snd] in Hall.
  apply andb_true_iff in Hall as [[Hs Hst]%andb_true_iff Hall].
  constructor; [by apply line_of_solid | by apply IH].
Qed.

(** X21.  From a listing as [adb devices] prints it, [_get_connected_devices]
    returns, in the order of the listing, the serials of the entries whose
    line holds the text [device]: an entry counts when its state is
    [device], and also when the text occurs anywhere else in its line, in
    the serial for instance, whatever the state. *)
Theorem connected_devices_of_listing (heading : string)
    (entries : list (string * string)) :
  is_heading heading = true ->
  forallb (fun e => token e.1 && token e.2) entries = true ->
  _get_connected_devices (adb_devices heading entries) = Ok (ready entries).
Proof.
  intros Hh Hall. pose proof (listing_lines heading entries Hh Hall) as Hsolid.
  unfold _get_connected_devices, adb_devices, PyStr.split.
  rewrite strip_listing, split_join by done. cbn [tail].
  by apply devices_of_entries.
Qed.

Lemma connected_devices_of_listing_witness :
  _get_connected_devices
    (adb_devices "List of devices attached"
       [("emulator-5554", "device"); ("R5CN30", "unauthorized");
        ("mydevice01", "offline")])
  = Ok (ready [("emulator-5554", "device"); ("R5CN30", "unauthorized");
               ("mydevice01", "offline")]).
Proof.
  apply (connected_devices_of_listing "List of devices attached"
           [("emulator-5554", "device"); ("R5CN30", "unauthorized");
            ("mydevice01", "offline")]);
    vm_compute; reflexivity.
Defined.

Example offline_device_is_listed :
  ready [("emulator-5554", "device"); ("R5CN30", "unauthorized"); ("mydevice01", "offline")]
  = ["emulator-5554"; "mydevice01"].
Proof. vm_compute. reflexivity. Qed.

Lemma words_nil (s : string) : words s = [] -> PyStr.lstrip PyStr.isspace s = "".
Proof.
  induction s as [| c s IH]; [done |]. cbn [words PyStr.lstrip].
  destruct (PyStr.isspace c); [done |].
  destruct (starts_blank s); [done |]. by destruct (words s).
Qed.

Lemma devices_of_total (lines : list string) : exists devices, devices_of lines = Ok devices.
Proof.
  induction lines as [| line lines [devices IH]]; [by exists [] |].
  cbn [devices_of]. rewrite IH.
  destruct (PyStr.truthy (PyStr.strip PyStr.isspace line)) eqn:Ht; cbn [andb]; [| by eexists].
  destruct (PyStr.contains "device" line); [| by eexists].
  destruct (words line) as [| serial ws] eqn:Hw; [| by eexists].
  apply words_nil in Hw. unfold PyStr.strip in Ht. by rewrite Hw in Ht.
Qed.

(** X22.  Listing the devices never raises: a line that is not blank always
    has a first word.  [__init__] raises [ConnectionError] exactly when the
    list is empty; otherwise it binds the device at [device_index], counted
    from the end when the index is negative, and raises [IndexError] when
    the index is out of range. *)
Theorem select_device_spec (stdout : string) (device_index : Z) :
  exists devices,
    _get_connected_devices stdout = Ok devices
    /\ match select_device stdout device_index with
       | Ok d =>
           - Z.of_nat (length devices) <= device_index < Z.of_nat (length devices)
           /\ devices !! Z.to_nat (device_index `mod` Z.of_nat (length devices)) = Some d
       | Raise e =>
           devices = [] /\ e = OtherException "ConnectionError"
           \/ devices <> [] /\ e = IndexError
              /\ ~ (- Z.of_nat (length devices) <= device_index
                    < Z.of_nat (length devices))
       end.
Proof.
  unfold select_device.
  destruct (devices_of_total
              (tail (PyStr.split (String newline "") (PyStr.strip PyStr.isspace stdout))))
    as [devices Hd].
  exists devices. unfold _get_connected_devices. rewrite Hd. split; [done |].
  destruct devices as [| d0 devices]; [by left |].
  set (l := d0 :: devices). set (n := Z.of_nat (length l)).
  assert (0 < n) as Hn by (unfold n; cbn; lia).
  unfold list_item. fold n.
  destruct (device_index <? 0) eqn:Hneg.
  - apply Z.ltb_lt in Hneg. destruct (device_index + n <? 0) eqn:Hlow.
    + apply Z.ltb_lt in Hlow. right. repeat split; [done | lia].
    + apply Z.ltb_ge in Hlow.
      replace (device_index `mod` n) with (device_index + n)
        by (apply Z.mod_unique with (-1); lia).
      destruct (l !! Z.to_nat (device_index + n)) as [d |] eqn:Hl.
      * split; [lia | done].
      * apply lookup_ge_None in Hl. unfold n in *. lia.
  - apply Z.ltb_ge in Hneg. assert ((device_index <? 0) = false) as Hneg' by lia.
    rewrite Hneg'.
    destruct (l !! Z.to_nat device_index) as [d |] eqn:Hl.
    + pose proof (lookup_lt_Some _ _ _ Hl) as Hlt.
      rewrite Z.mod_small by (unfold n; lia).
      split; [unfold n; lia | done].
    + apply lookup_ge_None in Hl. right. repeat split; [done |]. unfold n. lia.
Qed.

(** ** The screen size *)

Section GreedyFacts.
Context {R : Type} (cls : ascii -> bool) (k : string -> option R).

Lemma star_greedy (ds t : string) (r : R) :
  all_chars cls ds = true ->
  match t with String c _ => cls c = false | EmptyString => True end ->
  k t = Some r ->
  Re.star cls k (ds +:+ t) = Some r.
Proof.
  intros Hds Ht Hk. induction ds as [| d ds IH].
  - rewrite append_nil_l. destruct t as [| c t]; [done |]. by rewrite star_skip.
  - simpl in Hds. apply andb_true_iff in Hds as [Hd Hds].
    rewrite append_cons. cbn [Re.star]. by rewrite Hd, IH.
Qed.

Lemma plus_greedy (ds t : string) (r : R) :
  ds <> "" ->
  all_chars cls ds = true ->
  match t with String c _ => cls c = false | EmptyString => True end ->
  k t = Some r ->
  Re.plus cls k (ds +:+ t) = Some r.
Proof.
  intros Hne Hds Ht Hk. destruct ds as [| d ds]; [done |].
  simpl in Hds. apply andb_true_iff in Hds as [Hd Hds].
  rewrite append_cons. cbn [Re.plus]. rewrite Hd. by apply star_greedy.
Qed.

Lemma star_inv (s : string) (r : R) :
  Re.star cls k s = Some r ->
  exists p t, s = p +:+ t /\ all_chars cls p = true /\ k t = Some r.
Proof.
  induction s as [| c s IH]; simpl.
  - intros H. by exists "", "".
  - destruct (cls c) eqn:Hc.
    + destruct (Re.star cls k s) as [r' |] eqn:Hs.
      * intros [= ->]. destruct (IH eq_refl) as (p & t & -> & Hp & Ht).
        exists (String c p), t. simpl. by rewrite Hc, Hp.
      * intros H. by exists "", (String c s).
    + intros H. by exists "", (String c s).
Qed.

Lemma plus_inv (s : string) (r : R) :
  Re.plus cls k s = Some r ->
  exists p t, s = p +:+ t /\ p <> "" /\ all_chars cls p = true /\ k t = Some r.
Proof.
  destruct s as [| c s]; [done |]. cbn [Re.plus].
  destruct (cls c) eqn:Hc; [| done].
  intros (p & t & -> & Hp & Ht)%star_inv.
  exists (String c p), t. simpl. by rewrite Hc, Hp.
Qed.
End GreedyFacts.

Lemma take_length_append (a t : string) :
  PyStr.take (String.length (a +:+ t) - String.length t) (a +:+ t) = a.
Proof.
  rewrite length_append.
  replace (String.length a + String.length t - String.length t)%nat
    with (String.length a) by lia.
  apply take_append.
Qed.

(** A match of [size_pattern]: digits, an [x] and digits, with the first
    run of digits recorded. *)
Lemma size_match_inv (g g' : Re.captures) (s rest : string) :
  Re.match_here size_pattern g s = Some (rest, g') ->
  exists w h,
    s = w +:+ String "x" (h +:+ rest)
    /\ w <> "" /\ all_chars PyStr.isdigit w = true
    /\ h <> "" /\ all_chars PyStr.isdigit h = true
    /\ Re.opened g' = Some s /\ Re.group1 g' = Some w.
Proof.
  unfold size_pattern. cbn [Re.match_here].
  intros (w & t & -> & Hw & Hwd & H)%plus_inv.
  destruct t as [| c t]; [done |]. cbn [Re.once] in H.
  destruct (PyStr.is_char "x" c) eqn:Hc; [| done].
  apply Ascii.eqb_eq in Hc as <-.
  apply plus_inv in H as (h & t' & -> & Hh & Hhd & [= <- <-]).
  exists w, h. repeat split; try done.
  unfold Re.close_group. cbn [Re.opened Re.group1]. f_equal.
  apply take_length_append.
Qed.

Lemma size_match (g : Re.captures) (w h rest : string) :
  w <> "" -> all_chars PyStr.isdigit w = true ->
  h <> "" -> all_chars PyStr.isdigit h = true ->
  starts_digit rest = false ->
  exists g',
    Re.match_here size_pattern g (w +:+ String "x" (h +:+ rest)) = Some (rest, g')
    /\ Re.opened g' = Some (w +:+ String "x" (h +:+ rest))
    /\ Re.group1 g' = Some w.
Proof.
  intros Hw Hwd Hh Hhd Hrest. unfold size_pattern. cbn [Re.match_here].
  eexists. split.
  - apply plus_greedy; [done | done | done |].
    cbn [Re.once]. change (PyStr.is_char "x" "x") with true. cbv iota.
    apply plus_greedy; [done | done | by destruct rest | reflexivity].
  - unfold Re.close_group. cbn [Re.opened Re.group1]. split; [done |]. f_equal.
    apply take_length_append.
Qed.

Lemma search_inv (r : Re.regex) (s rest : string) (g : Re.captures) :
  Re.search r s = Some (rest, g) ->
  exists pre start, s = pre +:+ start /\ Re.match_here r Re.no_captures start = Some (rest, g).
Proof.
  induction s as [| c s IH]; cbn [Re.search].
  - destruct (Re.match_here r Re.no_captures "") as [m |] eqn:Hm; [| done].
    intros [= ->]. by exists "", "".
  - destruct (Re.match_here r Re.no_captures (String c s)) as [m |] eqn:Hm.
    + intros [= ->]. by exists "", (String c s).
    + intros (pre & start & -> & H)%IH. by exists (String c pre), start.
Qed.

Lemma search_size_skip (pre s : string) :
  all_chars (fun c => negb (PyStr.isdigit c)) pre = true ->
  Re.search size_pattern (pre +:+ s) = Re.search size_pattern s.
Proof.
  induction pre as [| c pre IH]; [done |]. cbn [all_chars].
  intros [Hc Hpre]%andb_true_iff. apply negb_true_iff in Hc.
  rewrite append_cons. cbn [Re.search].
  assert (Re.match_here size_pattern Re.no_captures (String c (pre +:+ s)) = None) as ->.
  { unfold size_pattern. cbn [Re.match_here Re.plus]. by rewrite Hc. }
  by apply IH.
Qed.

Lemma search_size_none (s : string) :
  all_chars (fun c => negb (PyStr.isdigit c)) s = true ->
  Re.search size_pattern s = None.
Proof.
  intros Hs. rewrite <- (append_nil_r s), search_size_skip by done. done.
Qed.

Lemma int_digits_all (s : string) (acc : Z) (b : bool) :
  all_chars PyStr.isdigit s = true ->
  s <> "" \/ b = true ->
  0 <= acc ->
  exists z, PyStr.int_digits acc b s = Some z /\ 0 <= z.
Proof.
  revert acc b. induction s as [| c s IH]; intros acc b Hs Hne Hacc.
  - destruct Hne as [? | ->]; [done |]. by exists acc.
  - simpl in Hs. apply andb_true_iff in Hs as [Hc Hs].
    cbn [PyStr.int_digits]. rewrite Hc. apply IH; [done | by right |].
    unfold PyStr.isdigit in Hc. apply andb_true_iff in Hc as [H1 _].
    apply N.leb_le in H1. unfold PyStr.digit_value. lia.
Qed.

Lemma digit_not_blank (c : ascii) : PyStr.isdigit c = true -> PyStr.int_blank c = false.
Proof.
  unfold PyStr.isdigit, PyStr.int_blank. intros [H1 H2]%andb_true_iff.
  apply N.leb_le in H1. apply N.leb_le in H2.
  repeat (apply orb_false_iff; split); try (apply N.eqb_neq; lia).
  apply andb_false_iff. right. apply N.leb_gt. lia.
Qed.

Lemma int_of_digits (s : string) :
  s <> "" -> all_chars PyStr.isdigit s = true ->
  exists z, PyStr.int s = Some z /\ 0 <= z.
Proof.
  intros Hne Hs. unfold PyStr.int.
  assert (PyStr.strip PyStr.int_blank s = s) as ->.
  { unfold PyStr.strip. destruct s as [| c s]; [done |].
    simpl in Hs. apply andb_true_iff in Hs as [Hc Hs].
    rewrite lstrip_keep by (by apply digit_not_blank).
    apply rstrip_keep. simpl. rewrite (digit_not_blank c Hc). cbn [negb andb].
    apply (all_chars_weaken PyStr.isdigit); [| done].
    intros x Hx. by rewrite (digit_not_blank x Hx). }
  destruct s as [| c s]; [done |].
  assert (PyStr.is_char "-" c = false /\ PyStr.is_char "+" c = false) as [-> ->].
  { simpl in Hs. apply andb_true_iff in Hs as [Hc _].
    split; apply Ascii.eqb_neq; intros <-; done. }
  apply int_digits_all; [done | by left | done].
Qed.

Lemma size_groups_spec (w h rest : string) (g : Re.captures) :
  Re.group1 g = Some w ->
  size_groups (w +:+ String "x" (h +:+ rest)) rest g = (w, h).
Proof.
  intros Hg. unfold size_groups. rewrite Hg. cbn [default from_option]. unfold id.
  f_equal.
  change (w +:+ String "x" (h +:+ rest)) with (w +:+ "x" +:+ h +:+ rest).
  rewrite <- !append_assoc, take_length_append.
  replace (String.length w + 1)%nat with (String.length (w +:+ "x"))
    by (rewrite length_append; done).
  apply drop_append.
Qed.

Lemma lstrip_all_chars (q p : ascii -> bool) (s : string) :
  all_chars q s = true -> all_chars q (PyStr.lstrip p s) = true.
Proof.
  induction s as [| c s IH]; [done |]. simpl. intros [Hc Hs]%andb_true_iff.
  destruct (p c); [by apply IH |]. simpl. by rewrite Hc, Hs.
Qed.

Lemma rstrip_all_chars (q p : ascii -> bool) (s : string) :
  all_chars q s = true -> all_chars q (PyStr.rstrip p s) = true.
Proof.
  induction s as [| c s IH]; [done |]. simpl. intros [Hc Hs]%andb_true_iff.
  specialize (IH Hs). destruct (PyStr.rstrip p s).
  - destruct (p c); [done |]. simpl. by rewrite Hc.
  - simpl in *. by rewrite Hc, IH.
Qed.

Lemma rstrip_length (p : ascii -> bool) (s : string) :
  (String.length (PyStr.rstrip p s) <= String.length s)%nat.
Proof.
  induction s as [| c s IH]; [done |]. cbn [PyStr.rstrip].
  destruct (PyStr.rstrip p s) as [| y r].
  - destruct (p c); simpl; lia.
  - simpl in *. lia.
Qed.

Lemma strip_length (p : ascii -> bool) (s : string) :
  (String.length (PyStr.strip p s) <= String.length s)%nat.
Proof.
  unfold PyStr.strip. pose proof (rstrip_length p (PyStr.lstrip p s)).
  pose proof (lstrip_length p s). lia.
Qed.

(** X23.  On an output of at most 4300 characters [get_screen_size] never
    raises.  (4300 is the interpreter's limit on the digits of a literal
    given to [int]: beyond it [int] raises [ValueError], which [PyStr.int]
    does not model; within the bound the two literals the call hands to
    [int] are inside the limit.)  The call returns two numbers that are not
    negative: those of the first [<digits>x<digits>] in the output, and
    1080 by 1920 when there is none, as when the output holds no digit. *)
Theorem screen_size_total (stdout : string) :
  (String.length stdout <= int_max_str_digits)%nat ->
  exists width height,
    get_screen_size stdout = Ok (PyTuple [width; height])
    /\ 0 <= width /\ 0 <= height
    /\ (all_chars (fun c => negb (PyStr.isdigit c)) stdout = true ->
        width = 1080 /\ height = 1920)
    /\ (forall rest g,
          Re.search size_pattern (PyStr.strip PyStr.isspace stdout) = Some (rest, g) ->
          (String.length (size_groups (default "" (Re.opened g)) rest g).1
           <= int_max_str_digits)%nat
          /\ (String.length (size_groups (default "" (Re.opened g)) rest g).2
              <= int_max_str_digits)%nat).
Proof.
  intros Hlen. unfold get_screen_size.
  pose proof (strip_length PyStr.isspace stdout) as Hstrip.
  destruct (Re.search size_pattern (PyStr.strip PyStr.isspace stdout))
    as [[rest g] |] eqn:Hsearch.
  - apply search_inv in Hsearch as Hm. destruct Hm as (pre & start & Hout & Hm).
    apply size_match_inv in Hm as (w & h & -> & Hw & Hwd & Hh & Hhd & Hopen & Hg).
    rewrite Hopen. cbn [default from_option]. unfold id.
    rewrite (size_groups_spec w h rest g Hg).
    destruct (int_of_digits w Hw Hwd) as (width & -> & Hwidth).
    destruct (int_of_digits h Hh Hhd) as (height & -> & Hheight).
    exists width, height. split; [done |]. split; [done |]. split; [done |].
    split.
    + intros Hnone. exfalso.
      rewrite search_size_none in Hsearch; [done |].
      unfold PyStr.strip. by apply rstrip_all_chars, lstrip_all_chars.
    + intros rest' g' [= <- <-]. rewrite Hopen. cbn [default from_option]. unfold id.
      rewrite (size_groups_spec w h rest g Hg). cbn [fst snd].
      rewrite Hout, !length_append in Hstrip. cbn [String.length] in Hstrip.
      rewrite length_append in Hstrip. lia.
  - exists 1080, 1920. split; [done |]. split; [done |]. split; [done |].
    split; [done |]. intros rest g Hsome. done.
Qed.

Lemma screen_size_total_witness :
  exists width height,
    get_screen_size "Physical size: 1080x2340" = Ok (PyTuple [width; height])
    /\ 0 <= width /\ 0 <= height
    /\ (all_chars (fun c => negb (PyStr.isdigit c)) "Physical size: 1080x2340" = true ->
        width = 1080 /\ height = 1920)
    /\ (forall rest g,
          Re.search size_pattern (PyStr.strip PyStr.isspace "Physical size: 1080x2340")
          = Some (rest, g) ->
          (String.length (size_groups (default "" (Re.opened g)) rest g).1
           <= int_max_str_digits)%nat
          /\ (String.length (size_groups (default "" (Re.opened g)) rest g).2
              <= int_max_str_digits)%nat).
Proof.
  apply (screen_size_total "Physical size: 1080x2340").
  vm_compute. lia.
Defined.

Lemma lstrip_app (p : ascii -> bool) (pre s : string) :
  match s with String c _ => p c = false | EmptyString => True end ->
  PyStr.lstrip p (pre +:+ s) = PyStr.lstrip p pre +:+ s.
Proof.
  intros Hs. induction pre as [| c pre IH].
  - rewrite !append_nil_l. by apply lstrip_keep.
  - rewrite append_cons. cbn [PyStr.lstrip]. destruct (p c); [done |].
    by rewrite append_cons.
Qed.

Lemma rstrip_starts_digit (p : ascii -> bool) (s : string) :
  starts_digit s = false -> starts_digit (PyStr.rstrip p s) = false.
Proof.
  destruct s as [| c s]; [done |]. cbn [PyStr.rstrip starts_digit]. intros Hc.
  destruct (PyStr.rstrip p s); [by destruct (p c) | done].
Qed.

Lemma digit_not_space (c : ascii) : PyStr.isdigit c = true -> PyStr.isspace c = false.
Proof.
  unfold PyStr.isdigit, PyStr.isspace. intros [H1 H2]%andb_true_iff.
  apply N.leb_le in H1. apply N.leb_le in H2.
  repeat (apply orb_false_iff; split); try (apply N.eqb_neq; lia);
    apply andb_false_iff; right; apply N.leb_gt; lia.
Qed.

Lemma of_Z_digits (z : Z) :
  0 <= z -> PyStr.of_Z z <> "" /\ all_chars PyStr.isdigit (PyStr.of_Z z) = true.
Proof.
  intros Hz. split.
  - pose proof (of_Z_nonempty z). by destruct (PyStr.of_Z z).
  - unfold PyStr.of_Z. assert ((z <? 0) = false) as -> by lia.
    by apply dec_go_digits.
Qed.

Lemma strip_size (pre w h post : string) :
  w <> "" -> all_chars PyStr.isdigit w = true ->
  all_chars PyStr.isdigit h = true ->
  PyStr.strip PyStr.isspace (pre +:+ w +:+ String "x" (h +:+ post))
  = PyStr.lstrip PyStr.isspace pre
    +:+ w +:+ String "x" (h +:+ PyStr.rstrip PyStr.isspace post).
Proof.
  intros Hw Hwd Hhd. unfold PyStr.strip.
  destruct w as [| d w]; [done |].
  simpl in Hwd. apply andb_true_iff in Hwd as [Hd Hwd].
  pose proof (digit_not_space d Hd) as Hsp.
  rewrite lstrip_app by (by rewrite append_cons).
  assert (PyStr.rstrip PyStr.isspace (String d w +:+ String "x" (h +:+ post))
          = String d w +:+ String "x" (h +:+ PyStr.rstrip PyStr.isspace post)) as Hr.
  { change (String d w +:+ String "x" (h +:+ ?t)) with (String d w +:+ "x" +:+ h +:+ t).
    rewrite <- !append_assoc, rstrip_app.
    destruct (PyStr.truthy (PyStr.rstrip PyStr.isspace post)) eqn:Hp; [done |].
    destruct (PyStr.rstrip PyStr.isspace post); [| done].
    rewrite append_nil_r. apply rstrip_keep.
    rewrite !all_chars_append. cbn [all_chars]. rewrite Hsp. cbn [negb andb].
    assert (forall s, all_chars PyStr.isdigit s = true ->
              all_chars (fun c => negb (PyStr.isspace c)) s = true) as Hns.
    { intros s. apply all_chars_weaken. intros c Hc. by rewrite (digit_not_space c Hc). }
    by rewrite (Hns w Hwd), (Hns h Hhd). }
  rewrite rstrip_app, Hr. by rewrite append_cons.
Qed.

(** X24.  From an output that holds the size as [<width>x<height>], with no
    digit before it and no digit right after it, [get_screen_size] returns
    that width and that height.  What comes later in the output is not
    looked at: of two sizes the first is returned. *)
Theorem screen_size_parsed (pre post : string) (width height : Z) :
  all_chars (fun c => negb (PyStr.isdigit c)) pre = true ->
  0 <= width -> 0 <= height ->
  starts_digit post = false ->
  get_screen_size (pre +:+ PyStr.of_Z width +:+ "x" +:+ PyStr.of_Z height +:+ post)
  = Ok (PyTuple [width; height]).
Proof.
  intros Hpre Hw Hh Hpost.
  destruct (of_Z_digits width Hw) as [Hwne Hwd].
  destruct (of_Z_digits height Hh) as [Hhne Hhd].
  unfold get_screen_size.
  change (pre +:+ PyStr.of_Z width +:+ "x" +:+ PyStr.of_Z height +:+ post)
    with (pre +:+ PyStr.of_Z width +:+ String "x" (PyStr.of_Z height +:+ post)).
  rewrite strip_size by done.
  rewrite search_size_skip by (by apply lstrip_all_chars).
  destruct (size_match Re.no_captures (PyStr.of_Z width) (PyStr.of_Z height)
              (PyStr.rstrip PyStr.isspace post))
    as (g & Hm & Hopen & Hg); [done.. | by apply rstrip_starts_digit |].
  assert (Re.search size_pattern
            (PyStr.of_Z width
             +:+ String "x" (PyStr.of_Z height +:+ PyStr.rstrip PyStr.isspace post))
          = Some (PyStr.rstrip PyStr.isspace post, g)) as ->.
  { destruct (PyStr.of_Z width +:+ String "x" _) eqn:Hs; cbn [Re.search]; by rewrite Hm. }
  rewrite Hopen. cbn [default from_option]. unfold id.
  rewrite (size_groups_spec _ _ _ g Hg). by rewrite !int_of_Z.
Qed.

Lemma screen_size_parsed_witness :
  get_screen_size
    ("Physical size: " +:+ PyStr.of_Z 1080 +:+ "x" +:+ PyStr.of_Z 2340
     +:+ String newline "Override size: 720x1280")
  = Ok (PyTuple [1080; 2340]).
Proof.
  apply (screen_size_parsed "Physical size: " (String newline "Override size: 720x1280")
           1080 2340);
    [vm_compute; reflexivity | lia | lia | vm_compute; reflexivity].
Defined.

(** ** The [current_activity] attribute *)

(** X25.  After [find_element], whatever it returns or raises, the
    attribute [current_activity] is [None] whenever the cache did not answer
    the query: the dump resets it, although the screen was resolved just
    before.  Only a call answered from the cache leaves the resolved screen
    in it. *)
Theorem current_activity_after_find (q : Query) (env : Env) (c : Controller) :
  current_activity (find_element q env c).2
  = match cached q env c with
    | Some _ => Some (screen_of env)
    | None => None
    end.
Proof.
  rewrite find_element_eq. unfold find_element_paths.
  destruct (cached q env c) as [v |] eqn:Hc.
  - cbn [snd]. unfold cached in Hc.
    destruct (use_cache c) eqn:Huse; [| done].
    destruct (PyStr.truthy (screen_of env)) eqn:Ht; [| done].
    unfold looked_up. rewrite Huse, Ht. cbn [andb].
    assert (current_activity (resolved env c) = Some (screen_of env)) as Hr.
    { unfold resolved, screen_of in *. by destruct (scan_lines _). }
    by destruct (bool_decide _).
  - destruct (ui_dump env) as [| | [doc | root | | |]]; try done.
    destruct (find env (conditions q) root) as [[element |] | e]; try done.
    destruct (center_of _) as [center | e]; [| done].
    cbn [snd]. by destruct (use_cache c && PyStr.truthy (screen_of env)).
Qed.

(** ** The node a search settles on *)

Lemma filter_none {A} (P : A -> Prop) `{!forall x, Decision (P x)} (l : list A) :
  Forall (fun x => ~ P x) l -> filter P l = [].
Proof.
  induction 1 as [| x l Hx _ IH]; [done |]. by rewrite filter_cons, decide_False.
Qed.

(** X26.  With one predicate, [find_element] settles on the first node in
    document order that carries the attribute with the value asked for:
    when several nodes match, the nodes after the first are never looked
    at, and the call returns the centre of the first. *)
Theorem first_match_in_document_order (q : Query) (env : Env) (c : Controller)
    (root element : Element) (earlier later : list Element) (a v : string)
    (x1 y1 x2 y2 : Z) :
  conditions q = [(a, v)] ->
  PyStr.contains (String dquote "") v = false ->
  cached q env c = None ->
  ui_dump env = Pulled (XmlFile root) ->
  descendant_nodes root = (earlier ++ element :: later)%list ->
  Forall (fun n => ~ has_attribute a v n) earlier ->
  has_attribute a v element ->
  attrib element !! "bounds" = Some (bounds_string x1 y1 x2 y2) ->
  (find_element q env c).1 = Ok (PyTuple [(x1 + x2) / 2; (y1 + y2) / 2]).
Proof.
  intros Hconds Hquote Hmiss Hdump Hnodes Hearlier Helement Hbounds.
  apply (find_element_center q env c root element); try done.
  rewrite Hconds. unfold find. cbn [existsb]. rewrite Hquote. cbn [orb].
  rewrite Hnodes, filter_app, (filter_none _ earlier Hearlier), filter_cons.
  by rewrite decide_True.
Qed.

Lemma first_match_in_document_order_witness :
  (find_element (by_text "OK")
     (showing login_window
        (Elem "hierarchy" ∅
           [Elem "node" {["text" := "Title"]}
              [button "OK" "[10,20][30,60]"];
            button "OK" "[100,200][300,600]"]))
     fresh).1
  = Ok (PyTuple [(10 + 30) / 2; (20 + 60) / 2]).
Proof.
  apply (first_match_in_document_order (by_text "OK")
           (showing login_window
              (Elem "hierarchy" ∅
                 [Elem "node" {["text" := "Title"]}
                    [button "OK" "[10,20][30,60]"];
                  button "OK" "[100,200][300,600]"]))
           fresh
           (Elem "hierarchy" ∅
              [Elem "node" {["text" := "Title"]}
                 [button "OK" "[10,20][30,60]"];
               button "OK" "[100,200][300,600]"])
           (button "OK" "[10,20][30,60]")
           [Elem "node" {["text" := "Title"]} [button "OK" "[10,20][30,60]"]]
           [button "OK" "[100,200][300,600]"]
           "text" "OK" 10 20 30 60).
  - reflexivity.
  - reflexivity.
  - vm_compute. reflexivity.
  - reflexivity.
  - vm_compute. reflexivity.
  - constructor; [| constructor]. vm_compute. discriminate.
  - vm_compute. reflexivity.
  - vm_compute. reflexivity.
Defined.

(** ** Clicking and handling pop-ups *)

Lemma find_element_use_cache (q : Query) (env : Env) (c : Controller) :
  use_cache (find_element q env c).2 = use_cache c.
Proof.
  rewrite find_element_eq. unfold find_element_paths.
  destruct (looked_up_fields env c) as (_ & Huse & _ & _).
  destruct (cached q env c) as [v |]; [done |].
  destruct (ui_dump env) as [| | [doc | root | | |]]; try done.
  destruct (find env (conditions q) root) as [[element |] | e]; try done.
  destruct (center_of _) as [center | e]; [| done].
  cbn [snd]. by destruct (use_cache c && PyStr.truthy (screen_of env)).
Qed.

(** What [find_element] returns with the cache on and a screen at hand is
    in the cache of the screen when it returns. *)
Lemma found_is_cached (q : Query) (env : Env) (c : Controller) (r : pyseq) :
  use_cache c = true ->
  PyStr.truthy (screen_of env) = true ->
  (find_element q env c).1 = Ok r ->
  exists v,
    screen_cache (find_element q env c).2 (screen_of env) !! _get_element_key q = Some v
    /\ r = tuple v.
Proof.
  intros Huse Ht Hr. destruct (find_element q env c) as [r' c1] eqn:Hrun.
  cbn [fst snd] in *. subst r'.
  destruct (cached q env c) as [v |] eqn:Hc.
  - rewrite (find_element_hit _ _ _ _ Hc) in Hrun. injection Hrun as <- <-.
    exists v. rewrite looked_up_screen_cache.
    unfold cached in Hc. by rewrite Huse, Ht in Hc.
  - destruct (find_element_miss_inv _ _ _ _ _ Hc Hrun)
      as (root & element & Hdump & Hfind & Hcenter).
    destruct (find_element_found _ _ _ _ _ _ Hc Hdump Hfind Hcenter)
      as (c' & Heq & Hstore & _).
    rewrite Heq in Hrun. injection Hrun as <-.
    destruct (Hstore Huse Ht) as [Hcache _].
    exists r. unfold screen_cache. rewrite Hcache. cbn.
    by rewrite lookup_insert_eq, (center_of_tuple _ _ Hcenter).
Qed.

(** X27.  A click on an element that was found before, with the cache on
    and while the resolver reports the same screen, does not look at the
    screen: no dump is requested, and the tap goes to the point the earlier
    search returned, wherever the element is by now.  The command is sent
    once, and its failure is raised as [CalledProcessError]. *)
Theorem click_uses_cached_point (q : Query) (env env' : Env) (c : Controller)
    (input_ok : bool) (sent : list input_event) (x y : Z) :
  use_cache c = true ->
  PyStr.truthy (screen_of env) = true ->
  screen_of env' = screen_of env ->
  (find_element q env c).1 = Ok (PyTuple [x; y]) ->
  click_element q env' input_ok
    {| controller := (find_element q env c).2; input_trace := sent |}
  = (if input_ok then Ok tt else Raise CalledProcessError,
     {| controller := looked_up env' (find_element q env c).2;
        input_trace := (sent ++ [Tap (PyStr.of_Z x) (PyStr.of_Z y)])%list |})
  /\ adb_trace (looked_up env' (find_element q env c).2)
     = (adb_trace (find_element q env c).2 ++ [DumpsysWindows])%list.
Proof.
  intros Huse Ht Hscreen Hfound.
  destruct (found_is_cached q env c _ Huse Ht Hfound) as (v & Hv & Hr).
  pose proof (find_element_use_cache q env c) as Huse1. rewrite Huse in Huse1.
  assert (cached q env' (find_element q env c).2 = Some v) as Hhit.
  { unfold cached. by rewrite Huse1, Hscreen, Ht. }
  unfold click_element. cbn [controller input_trace].
  rewrite (find_element_hit _ _ _ _ Hhit), <- Hr. cbn [unpack_pair items].
  split; [by destruct input_ok |].
  destruct (looked_up_fields env' (find_element q env c).2) as (_ & _ & _ & ->).
  by rewrite Huse1.
Qed.

Lemma click_uses_cached_point_witness :
  click_element (by_text "OK") (showing login_window empty_screen) true
    {| controller := (find_element (by_text "OK") (showing login_window login_screen)
                        fresh).2;
       input_trace := [] |}
  = (if true then Ok tt else Raise CalledProcessError,
     {| controller :=
          looked_up (showing login_window empty_screen)
            (find_element (by_text "OK") (showing login_window login_screen) fresh).2;
        input_trace := ([] ++ [Tap (PyStr.of_Z 20) (PyStr.of_Z 40)])%list |})
  /\ adb_trace
       (looked_up (showing login_window empty_screen)
          (find_element (by_text "OK") (showing login_window login_screen) fresh).2)
     = (adb_trace (find_element (by_text "OK") (showing login_window login_screen) fresh).2
        ++ [DumpsysWindows])%list.
Proof.
  apply (click_uses_cached_point (by_text "OK") (showing login_window login_screen)
           (showing login_window empty_screen) fresh true [] 20 40);
    vm_compute; reflexivity.
Defined.

Lemma same_answers_refl (c : Controller) : same_answers c c.
Proof. by split. Qed.

Lemma same_answers_cached (q : Query) (env : Env) (c c' : Controller) :
  same_answers c c' -> cached q env c' = cached q env c.
Proof. intros [Huse Hcache]. unfold cached. by rewrite Huse, Hcache. Qed.

Lemma find_element_same_answers (q : Query) (env : Env) (c c' : Controller) :
  same_answers c c' -> (find_element q env c').1 = (find_element q env c).1.
Proof.
  intros Hsame. pose proof (same_answers_cached q env c c' Hsame) as Hc.
  destruct Hsame as [Huse _].
  rewrite !find_element_eq. unfold find_element_paths. rewrite Hc, Huse.
  destruct (cached q env c) as [v |]; [done |].
  destruct (ui_dump env) as [| | [doc | root | | |]]; try done.
  destruct (find env (conditions q) root) as [[element |] | e]; try done.
  by destruct (center_of _) as [center | e].
Qed.

Lemma check_same_answers (q : Query) (env : Env) (c c' : Controller) :
  same_answers c c' ->
  (check_element_exists q env c').1 = (check_element_exists q env c).1.
Proof.
  intros Hsame. rewrite !check_element_exists_eq.
  pose proof (find_element_same_answers q env c c' Hsame) as H.
  destruct (find_element q env c') as [r' c1'], (find_element q env c) as [r c1].
  cbn [fst] in H. subst r'. by destruct r as [center | []].
Qed.

Lemma check_false_same_answers (q : Query) (env : Env) (c : Controller) :
  (check_element_exists q env c).1 = Ok false ->
  same_answers c (check_element_exists q env c).2.
Proof.
  intros Hfalse.
  assert ((check_element_exists q env c).2 = (find_element q env c).2) as ->.
  { rewrite check_element_exists_eq.
    by destruct (find_element q env c) as [[center | []] c1]. }
  rewrite check_element_exists_eq in Hfalse.
  split; [apply find_element_use_cache |]. intros s.
  destruct (find_element_screen_cache q env c s)
    as [H | (center & _ & _ & _ & _ & Hok & _)]; [done |].
  destruct (find_element q env c) as [r c1]. cbn [fst] in Hok. by subst r.
Qed.

Lemma check_true_grows (q : Query) (env : Env) (c : Controller) :
  use_cache (check_element_exists q env c).2 = use_cache c
  /\ forall s key v,
       screen_cache c s !! key = Some v ->
       screen_cache (check_element_exists q env c).2 s !! key = Some v.
Proof.
  assert ((check_element_exists q env c).2 = (find_element q env c).2) as ->.
  { rewrite check_element_exists_eq.
    by destruct (find_element q env c) as [[center | []] c1]. }
  split; [apply find_element_use_cache |]. intros s key v Hv.
  destruct (find_element_screen_cache q env c s)
    as [-> | (center & -> & Hc & Huse & Ht & _ & ->)]; [done |].
  rewrite lookup_insert_ne; [done |]. intros <-.
  unfold cached in Hc. rewrite Huse, Ht in Hc. cbn in Hc. congruence.
Qed.

Lemma handle_loop_app (env : Env) (input_ok : bool) (hs1 hs2 : handlers) (d : Device) :
  handle_loop env input_ok (hs1 ++ hs2) d
  = match handle_loop env input_ok hs1 d with
    | (Some r, d') => (Some r, d')
    | (None, d') => handle_loop env input_ok hs2 d'
    end.
Proof.
  revert d. induction hs1 as [| [text act] hs1 IH]; intros d; [done |].
  cbn [app handle_loop].
  destruct (check_element_exists (by_text text) env (controller d)) as [[[] | e] c1];
    try done.
  by destruct (act env input_ok (set_controller c1 d)).
Qed.

Lemma handle_popups_eq (env : Env) (input_ok : bool) (p : Popups) (d : Device) :
  _handle_popups env input_ok p d
  = match handle_loop env input_ok (permission_handlers p ++ popup_handlers p) d with
    | (Some r, d') => (r, d')
    | (None, d') => (Ok tt, d')
    end.
Proof.
  unfold _handle_popups. rewrite handle_loop_app.
  by destruct (handle_loop env input_ok (permission_handlers p) d) as [[r |] d'].
Qed.

Lemma handle_loop_skip (env : Env) (input_ok : bool) (earlier rest : handlers)
    (c0 : Controller) (d : Device) :
  same_answers c0 (controller d) ->
  Forall (fun h => (check_element_exists (by_text h.1) env c0).1 = Ok false) earlier ->
  exists d1,
    handle_loop env input_ok (earlier ++ rest) d = handle_loop env input_ok rest d1
    /\ input_trace d1 = input_trace d
    /\ same_answers c0 (controller d1).
Proof.
  intros Hsame Hearlier. revert d Hsame.
  induction Hearlier as [| [text act] earlier Hfalse _ IH]; intros d Hsame.
  - by exists d.
  - cbn [fst] in Hfalse. cbn [app handle_loop].
    pose proof (check_same_answers (by_text text) env c0 (controller d) Hsame) as Hc.
    rewrite Hfalse in Hc.
    pose proof (check_false_same_answers (by_text text) env (controller d) Hc) as Hnext.
    destruct (check_element_exists (by_text text) env (controller d)) as [r c1].
    cbn [fst snd] in Hc, Hnext. subst r.
    destruct (IH (set_controller c1 d)) as (d1 & Hrun & Htrace & Hsame1).
    { destruct Hsame as [Hu Hs], Hnext as [Hu' Hs']. split; cbn.
      - by rewrite Hu'.
      - intros s. by rewrite Hs'. }
    by exists d1.
Qed.

(** X28.  [_handle_popups] runs one handler at most: the first, with the
    permission handlers before the pop-up handlers and each dictionary in
    the order of registration, whose text [check_element_exists] finds.
    The handlers before it were each checked and found absent, those after
    it are not checked, nothing is tapped before the action runs, and what
    the action returns or raises is what the call returns or raises. *)
Theorem handle_popups_first_visible (env : Env) (input_ok : bool) (p : Popups)
    (d : Device) (earlier later : handlers) (text : string) (act : action) :
  (permission_handlers p ++ popup_handlers p = earlier ++ (text, act) :: later)%list ->
  Forall (fun h => (check_element_exists (by_text h.1) env (controller d)).1 = Ok false)
    earlier ->
  (check_element_exists (by_text text) env (controller d)).1 = Ok true ->
  exists d1,
    _handle_popups env input_ok p d = act env input_ok d1
    /\ input_trace d1 = input_trace d
    /\ use_cache (controller d1) = use_cache (controller d)
    /\ forall s key v,
         screen_cache (controller d) s !! key = Some v ->
         screen_cache (controller d1) s !! key = Some v.
Proof.
  intros Hsplit Hearlier Hvisible. rewrite handle_popups_eq, Hsplit.
  destruct (handle_loop_skip env input_ok earlier ((text, act) :: later)
              (controller d) d (same_answers_refl _) Hearlier)
    as (d0 & -> & Htrace & Hsame).
  cbn [handle_loop].
  pose proof (check_same_answers (by_text text) env _ _ Hsame) as Hc.
  rewrite Hvisible in Hc.
  destruct (check_true_grows (by_text text) env (controller d0)) as [Huse Hgrow].
  destruct (check_element_exists (by_text text) env (controller d0)) as [r c1].
  cbn [fst snd] in Hc, Huse, Hgrow. subst r.
  exists (set_controller c1 d0). split.
  { by destruct (act env input_ok (set_controller c1 d0)). }
  destruct Hsame as [Hu Hs]. cbn. split; [done |]. split; [by rewrite Huse |].
  intros s key v Hv. apply Hgrow. by rewrite Hs.
Qed.

Lemma handle_popups_first_visible_witness :
  exists d1,
    _handle_popups (showing login_window permission_dialog) true sample_popups fresh_device
    = tap_on "Allow" (showing login_window permission_dialog) true d1
    /\ input_trace d1 = input_trace fresh_device
    /\ use_cache (controller d1) = use_cache (controller fresh_device)
    /\ forall s key v,
         screen_cache (controller fresh_device) s !! key = Some v ->
         screen_cache (controller d1) s !! key = Some v.
Proof.
  apply (handle_popups_first_visible (showing login_window permission_dialog) true
           sample_popups fresh_device
           [("Always allow", tap_on "Always allow")] [("OK", tap_on "OK")]
           "Allow" (tap_on "Allow")).
  - reflexivity.
  - constructor; [vm_compute; reflexivity | constructor].
  - vm_compute. reflexivity.
Defined.

Example permission_dialog_handled :
  (_handle_popups (showing login_window permission_dialog) true sample_popups
     fresh_device).1 = Ok tt
  /\ input_trace
       (_handle_popups (showing login_window permission_dialog) true sample_popups
          fresh_device).2
     = [Tap "800" "1250"]
  /\ adb_trace
       (controller
          (_handle_popups (showing login_window permission_dialog) true sample_popups
             fresh_device).2)
     = [DumpsysWindows; UiautomatorDump; Pull;
        DumpsysWindows; UiautomatorDump; Pull; DumpsysWindows].
Proof. vm_compute. done. Qed.

(** X29.  When [check_element_exists] finds the text of no handler,
    [_handle_popups] runs no action and returns normally: nothing is
    tapped, and the controller answers every query as it did before. *)
Theorem handle_popups_nothing_visible (env : Env) (input_ok : bool) (p : Popups)
    (d : Device) :
  Forall (fun h => (check_element_exists (by_text h.1) env (controller d)).1 = Ok false)
    (permission_handlers p ++ popup_handlers p) ->
  exists d',
    _handle_popups env input_ok p d = (Ok tt, d')
    /\ input_trace d' = input_trace d
    /\ same_answers (controller d) (controller d').
Proof.
  intros Hnone. rewrite handle_popups_eq.
  destruct (handle_loop_skip env input_ok
              (permission_handlers p ++ popup_handlers p) [] (controller d) d
              (same_answers_refl _) Hnone)
    as (d' & Hrun & Htrace & Hsame).
  rewrite app_nil_r in Hrun. rewrite Hrun. cbn [handle_loop]. by exists d'.
Qed.

Lemma handle_popups_nothing_visible_witness :
  exists d',
    _handle_popups (showing login_window empty_screen) true sample_popups fresh_device
    = (Ok tt, d')
    /\ input_trace d' = input_trace fresh_device
    /\ same_answers (controller fresh_device) (controller d').
Proof.
  apply (handle_popups_nothing_visible (showing login_window empty_screen) true
           sample_popups fresh_device).
  repeat constructor.
Defined.
